(** * Superstore analysis helpers ([scripts/utils.py]) in Rocq

    A shallow embedding of the helper functions of [scripts/utils.py]
    and of the part of the tabular-data library they call, followed by
    the properties of the toolkit.

    Modelling choices, valid for the whole file:
    - a numeric cell is an exact rational extended with the special
      values of the library's floating-point columns ([NaN], which is
      also the marker of a missing number, and the two infinities that
      a division by zero produces); the binary rounding error of the
      64-bit floats is not modelled, and the model has one zero. Sums
      are therefore exact and independent of the order of the
      additions, and a decimal such as 1.015 is the rational 203/200,
      whereas the library adds and rounds the nearest floats: its
      results can differ from the model's in the last place, and at a
      rounding tie;
    - a timestamp is an integer number of nanoseconds since
      1970-01-01T00:00, unbounded and without time zone;
    - a column is read by the kind of its cells: numbers, texts or
      dates, each with missing values; a column that mixes kinds is
      outside the model, and so is a text column where the code sorts,
      divides or averages;
    - a sort keeps the row order among rows with equal keys; the
      library's order of such rows is its own;
    - a data frame is a row count and an ordered list of named columns;
    - a Python exception is a value [Raise e] of the type [result];
    - the only function of the file that mutates its argument,
      [procesar_fechas], is a state transformer over the caller's frame.

    Embedded: [cargar_datos], [procesar_fechas], [crear_resumen_basico],
    [analizar_valores_faltantes], [crear_grafico_ventas_temporales] and
    [crear_grafico_top_productos] (their aggregations and the data of
    their charts), [analizar_rentabilidad_por_categoria],
    [exportar_reporte_excel] (the sheets handed to the writer),
    [calcular_metricas_cliente], [configurar_estilo_graficos].
    The rendering of charts and the content of files are not modelled. *)

From Stdlib Require Import QArith Qcanon Qround Lia Lqa.
From stdpp Require Import base list strings gmap numbers pretty sorting.

Local Open Scope Qc_scope.

(** ** Numbers *)

Module Num.

Inductive num : Type :=
  | Fin (q : Qc)
  | PInf
  | NInf
  | NaN.

#[global] Instance num_eq_dec : EqDecision num.
Proof. solve_decision. Defined.

Definition of_Z (z : Z) : num := Fin (Qc_of_Z z).
Definition of_nat (n : nat) : num := of_Z (Z.of_nat n).

Definition isnan (x : num) : bool :=
  match x with NaN => true | _ => false end.

Definition isfinite (x : num) : bool :=
  match x with Fin _ => true | _ => false end.

(** Sign of a rational, as a comparison with zero. *)
Definition sgn (q : Qc) : comparison := Qccompare q 0.

(** The value of [c * inf], for [c] of the given sign. *)
Definition inf_of_sign (c : comparison) : num :=
  match c with Gt => PInf | Lt => NInf | Eq => NaN end.

Definition add (x y : num) : num :=
  match x, y with
  | NaN, _ | _, NaN => NaN
  | Fin a, Fin b => Fin (a + b)
  | PInf, NInf | NInf, PInf => NaN
  | PInf, _ | _, PInf => PInf
  | NInf, _ | _, NInf => NInf
  end.

Definition mul (x y : num) : num :=
  match x, y with
  | NaN, _ | _, NaN => NaN
  | Fin a, Fin b => Fin (a * b)
  | Fin a, PInf | PInf, Fin a => inf_of_sign (sgn a)
  | Fin a, NInf | NInf, Fin a => inf_of_sign (CompOpp (sgn a))
  | PInf, PInf | NInf, NInf => PInf
  | PInf, NInf | NInf, PInf => NInf
  end.

(** Division never raises: a zero divisor gives an infinity of the
    sign of the dividend, or [NaN] for [0 / 0]. *)
Definition div (x y : num) : num :=
  match x, y with
  | NaN, _ | _, NaN => NaN
  | Fin a, Fin b =>
      if decide (b = 0) then inf_of_sign (sgn a) else Fin (a / b)
  | Fin _, (PInf | NInf) => Fin 0
  | PInf, Fin b => inf_of_sign (match sgn b with Lt => Lt | _ => Gt end)
  | NInf, Fin b => inf_of_sign (match sgn b with Lt => Gt | _ => Lt end)
  | (PInf | NInf), (PInf | NInf) => NaN
  end.

(** [x <= y]; false as soon as one side is [NaN]. *)
Definition leb (x y : num) : bool :=
  match x, y with
  | NaN, _ | _, NaN => false
  | NInf, _ | _, PInf => true
  | Fin a, Fin b => bool_decide (a ≤ b)
  | _, _ => false
  end.

(** Rounding to the nearest integer, halves to the even neighbour
    (the library's [rint]). *)
Definition rint (x : Qc) : Z :=
  let f := Qfloor x in
  match Qccompare (x - Qc_of_Z f) (Q2Qc (1 # 2)) with
  | Lt => f
  | Gt => (f + 1)%Z
  | Eq => if Z.even f then f else (f + 1)%Z
  end.

(** [round(2)] of the library: scale by 100, round to an integer,
    scale back. *)
Definition round2q (x : Qc) : Qc :=
  Qc_of_Z (rint (x * Qc_of_Z 100)) / Qc_of_Z 100.

Definition round2 (x : num) : num :=
  match x with Fin q => Fin (round2q q) | _ => x end.

(** [sum()] of a numeric column: missing values are skipped, the
    empty sum is 0. *)
Definition nansum (l : list num) : num :=
  foldl add (Fin 0) (filter (λ x, isnan x = false) l).

(** [count()]: the number of values that are not missing. *)
Definition count (l : list num) : nat :=
  length (filter (λ x, isnan x = false) l).

(** [mean()]: the sum of the values present over their number; [NaN]
    when none is present. *)
Definition mean (l : list num) : num :=
  div (nansum l) (of_nat (count l)).

End Num.
Export Num.

(** ** Calendar *)

Module Calendar.

Local Open Scope Z_scope.

Definition ns_per_day : Z := 86400000000000.

(** The day number (days since 1970-01-01) of a timestamp. *)
Definition day_number (t : Z) : Z := t / ns_per_day.

(** Year, month and day of the proleptic Gregorian calendar for a day
    number: the computation by eras of 400 years (146097 days), with
    the year starting in March. *)
Definition civil (days : Z) : Z * Z * Z :=
  let z := days + 719468 in
  let era := z / 146097 in
  let doe := z - era * 146097 in
  let yoe := (doe - doe / 1460 + doe / 36524 - doe / 146096) / 365 in
  let doy := doe - (365 * yoe + yoe / 4 - yoe / 100) in
  let mp := (5 * doy + 2) / 153 in
  let d := doy - (153 * mp + 2) / 5 + 1 in
  let m := if mp <? 10 then mp + 3 else mp - 9 in
  (if m <=? 2 then yoe + era * 400 + 1 else yoe + era * 400, m, d).

Definition year (t : Z) : Z := (civil (day_number t)).1.1.
Definition month (t : Z) : Z := (civil (day_number t)).1.2.
Definition day (t : Z) : Z := (civil (day_number t)).2.

(** The quarter is derived from the month, as the library does. *)
Definition quarter (t : Z) : Z := (month t - 1) / 3 + 1.

(** Monday is 0; 1970-01-01 was a Thursday. *)
Definition weekday (t : Z) : Z := (day_number t + 3) mod 7.

Definition day_name (t : Z) : string :=
  match weekday t with
  | 0 => "Monday" | 1 => "Tuesday" | 2 => "Wednesday" | 3 => "Thursday"
  | 4 => "Friday" | 5 => "Saturday" | _ => "Sunday"
  end%string.

(** Decimal digits of [n], left-padded with zeros to [width]. *)
Definition zero_pad (width : nat) (n : Z) : string :=
  let s := pretty (Z.abs n) in
  let body := String.concat "" (replicate (width - String.length s) "0"%string) +:+ s in
  if n <? 0 then "-" +:+ body else body.

(** [strftime('%Y-%m-%d')]. The year is written with four digits, as
    it is for the years from 1000 on; whether an earlier year is padded
    depends on the platform. *)
Definition strftime_ymd (t : Z) : string :=
  zero_pad 4 (year t) +:+ "-" +:+ zero_pad 2 (month t) +:+ "-" +:+ zero_pad 2 (day t).

(** The difference of two timestamps in whole days ([.days], rounded
    towards minus infinity). *)
Definition days_between (later earlier : Z) : Z := (later - earlier) / ns_per_day.

End Calendar.

(** ** Exceptions *)

(** The kinds of exception the modelled code can raise. [TypeError]
    stands for any operation applied to a value of the wrong kind (the
    library's TypeError and AttributeError), [ValueError] for the
    formatting of a missing date, [DateParseError] for a text or a
    number that is not a date, [OSError] for a file that cannot be
    read. *)
Inductive exn : Type :=
  | KeyError (k : string)
  | TypeError
  | ValueError
  | DateParseError
  | OSError.

Inductive result (A : Type) : Type :=
  | Ok (a : A)
  | Raise (e : exn).
Arguments Ok {A} a.
Arguments Raise {A} e.

#[global] Instance exn_eq_dec : EqDecision exn.
Proof. solve_decision. Defined.

#[global] Instance result_eq_dec {A} `{EqDecision A} : EqDecision (result A).
Proof. solve_decision. Defined.

#[global] Instance result_ret : MRet result := λ A a, Ok a.

#[global] Instance result_bind : MBind result := λ A B f m,
  match m with Ok a => f a | Raise e => Raise e end.

#[global] Instance result_fmap : FMap result := λ A B f m,
  match m with Ok a => Ok (f a) | Raise e => Raise e end.

(** Applies [f] to the elements from left to right and stops at the
    first exception. *)
Fixpoint traverse {A B} (f : A → result B) (l : list A) : result (list B) :=
  match l with
  | [] => Ok []
  | x :: l' => y ← f x; ys ← traverse f l'; Ok (y :: ys)
  end.

(** ** Cells, columns and frames *)

Inductive cell : Type :=
  | CStr (s : string)
  | CNum (x : num)
  | CDate (t : Z)
  | CNull.

#[global] Instance cell_eq_dec : EqDecision cell.
Proof. solve_decision. Defined.

(** [isnull]: the missing object, the missing date and the missing
    number. *)
Definition isnull (c : cell) : bool :=
  match c with
  | CNull | CNum NaN => true
  | _ => false
  end.

(** The number held by a cell of a numeric column. *)
Definition as_num (c : cell) : result num :=
  match c with
  | CNum x => Ok x
  | CNull => Ok NaN
  | _ => Raise TypeError
  end.

(** The timestamp held by a cell of a date column; [None] is the
    missing date. *)
Definition as_date (c : cell) : result (option Z) :=
  match c with
  | CDate t => Ok (Some t)
  | CNull | CNum NaN => Ok None
  | _ => Raise TypeError
  end.

Definition num_col (c : list cell) : result (list num) := traverse as_num c.
Definition date_col (c : list cell) : result (list (option Z)) := traverse as_date c.

Record DataFrame : Type := mkDF {
  nrows : nat;
  columns : list (string * list cell)
}.

#[global] Instance DataFrame_eq_dec : EqDecision DataFrame.
Proof. solve_decision. Defined.

(** Every column has one cell per row. *)
Definition well_formed (df : DataFrame) : Prop :=
  Forall (λ c, length c.2 = nrows df) (columns df).

Definition column_names (df : DataFrame) : list string := (columns df).*1.

Fixpoint lookup_col (name : string) (cs : list (string * list cell)) : option (list cell) :=
  match cs with
  | [] => None
  | (n, c) :: cs' => if decide (n = name) then Some c else lookup_col name cs'
  end.

Fixpoint assign_col (name : string) (v : list cell) (cs : list (string * list cell))
    : list (string * list cell) :=
  match cs with
  | [] => [(name, v)]
  | (n, c) :: cs' =>
      if decide (n = name) then (n, v) :: cs' else (n, c) :: assign_col name v cs'
  end.

(** [df[name]] *)
Definition getitem (name : string) (df : DataFrame) : result (list cell) :=
  match lookup_col name (columns df) with
  | Some c => Ok c
  | None => Raise (KeyError name)
  end.

(** [df[name] = v]: replaces the column in place, or appends it. *)
Definition setitem (name : string) (v : list cell) (df : DataFrame) : DataFrame :=
  mkDF (nrows df) (assign_col name v (columns df)).

(** [df.rename(columns=mapper)]: a name the mapper does not know is kept. *)
Definition rename (mapper : gmap string string) (df : DataFrame) : DataFrame :=
  mkDF (nrows df) ((λ c, (default c.1 (mapper !! c.1), c.2)) <$> columns df).

(** ** Sorting and grouping *)

(** A stable insertion sort: [x] goes before the first element it is
    allowed to precede. *)
Fixpoint insert_by {A} (before : A → A → bool) (x : A) (l : list A) : list A :=
  match l with
  | [] => [x]
  | y :: l' => if before x y then x :: l else y :: insert_by before x l'
  end.

Definition sort_by {A} (before : A → A → bool) (l : list A) : list A :=
  foldr (insert_by before) [] l.

(** The order of [sort_values(ascending=False)] on a numeric key: the
    larger value first, the missing values last. *)
Definition desc_before (x y : num) : bool := isnan y || Num.leb y x.

(** [sort_values(by, ascending=False)] on rows of which [by] gives the key. *)
Definition sort_values_desc {A} (by_ : A → num) (l : list A) : list A :=
  sort_by (λ a b, desc_before (by_ a) (by_ b)) l.

(** [head(n)]: the first [n] rows, or all but the last [-n] when [n] is
    negative. *)
Definition head {A} (n : Z) (l : list A) : list A :=
  if (0 <=? n)%Z then take (Z.to_nat n) l
  else take (length l - Z.to_nat (- n)) l.

(** The order in which [groupby] lists its groups. Text is compared
    character by character, numbers and dates by value; the library
    defines no order between values of different kinds, the model ranks
    them text, number, date. *)
Definition cell_rank (c : cell) : nat :=
  match c with CStr _ => 0 | CNum _ => 1 | CDate _ => 2 | CNull => 3 end.

Definition cell_leb (a b : cell) : bool :=
  match a, b with
  | CStr s, CStr t => String.leb s t
  | CNum x, CNum y => Num.leb x y
  | CDate s, CDate t => (s <=? t)%Z
  | _, _ => bool_decide (cell_rank a ≤ cell_rank b)%nat
  end.

(** A group key is the tuple of the cells of the grouping columns. *)
Abbreviation key := (list cell) (only parsing).

Fixpoint key_leb (a b : key) : bool :=
  match a, b with
  | [], _ => true
  | _ :: _, [] => false
  | x :: a', y :: b' =>
      if decide (x = y) then key_leb a' b' else cell_leb x y
  end.

(** A row belongs to a group only if none of its key cells is missing. *)
Definition key_present (k : key) : bool := forallb (λ c, negb (isnull c)) k.

(** The keys of the groups: distinct, in increasing order. *)
Definition group_keys (ks : list key) : list key :=
  sort_by key_leb (remove_dups (filter (λ k, key_present k = true) ks)).

(** The values of the rows of the group of key [k]. *)
Definition group_of {A} (ks : list key) (vs : list A) (k : key) : list A :=
  (filter (λ p, p.1 = k) (zip ks vs)).*2.

(** [nunique()]: the number of distinct values, the missing ones apart. *)
Definition nunique (c : list cell) : nat :=
  length (remove_dups (filter (λ x, isnull x = false) c)).

(** [df.groupby([a, b])]: the key of each row. When both names are
    columns of the frame, the key is the pair of their cells. A list of
    names that is exactly as long as the frame has rows and whose names
    are not all columns is not looked up: the library takes it for the
    labels of the rows themselves, so that a frame of two rows gets the
    two groups [a] and [b]. In every other case the first name that is
    not a column raises [KeyError]. *)
Definition groupby_par (a b : string) (df : DataFrame) : result (list key) :=
  match getitem a df, getitem b df with
  | Ok ca, Ok cb => Ok (zip_with (λ x y, [x; y]) ca cb)
  | Raise e, _ | Ok _, Raise e =>
      if decide (nrows df = 2%nat) then Ok [[CStr a]; [CStr b]] else Raise e
  end.

(** The total of a group in a column that is summed: the sum of the
    numbers, or the concatenation of the texts. *)
Inductive suma : Type :=
  | SNumero (x : num)
  | STexto (s : string).

#[global] Instance suma_eq_dec : EqDecision suma.
Proof. solve_decision. Defined.

(** The text held by a cell of a text column; [None] is the missing
    value. *)
Definition as_text (c : cell) : result (option string) :=
  match c with
  | CStr s => Ok (Some s)
  | CNull | CNum NaN => Ok None
  | _ => Raise TypeError
  end.

Definition text_col (c : list cell) : result (list (option string)) := traverse as_text c.

(** The sum of the texts of a group: the texts present, one after the
    other in row order; the number 0 when the group has none. *)
Definition concatenar (l : list (option string)) : suma :=
  match omap id l with
  | [] => SNumero (of_Z 0)
  | s :: ss => STexto (foldl String.append s ss)
  end.

(** [groupby(...)[col].sum()], as a function of the key of the group.
    A column of numbers is added up, the missing ones skipped; a column
    of texts is concatenated; the sum of a column of dates raises. A
    column that mixes kinds is outside the model (it raises here). *)
Definition sumar_numeros (ks : list key) (v : list num) (k : key) : suma :=
  SNumero (nansum (group_of ks v k)).

Definition sumar_textos (ks : list key) (t : list (option string)) (k : key) : suma :=
  concatenar (group_of ks t k).

Definition col_sumas (ks : list key) (col : list cell) : result (key → suma) :=
  match num_col col with
  | Ok v => Ok (sumar_numeros ks v)
  | Raise _ => t ← text_col col; Ok (sumar_textos ks t)
  end.

(** [round(2)] on a total: the texts are left as they are. *)
Definition redondear (s : suma) : suma :=
  match s with
  | SNumero x => SNumero (round2 x)
  | STexto _ => s
  end.

(** [min()] and [max()] of a date column; the missing date when the
    column holds no date. *)
Definition date_min (l : list (option Z)) : option Z :=
  foldr (λ d acc, match d, acc with
                  | Some t, Some m => Some (Z.min t m)
                  | Some t, None => Some t
                  | None, _ => acc
                  end) None l.

Definition date_max (l : list (option Z)) : option Z :=
  foldr (λ d acc, match d, acc with
                  | Some t, Some m => Some (Z.max t m)
                  | Some t, None => Some t
                  | None, _ => acc
                  end) None l.

(** [strftime('%Y-%m-%d')] on the result of [min()] or [max()]: the
    missing date cannot be formatted. *)
Definition strftime (d : option Z) : result string :=
  match d with
  | Some t => Ok (Calendar.strftime_ymd t)
  | None => Raise ValueError
  end.

(** ** Operations on date columns *)

(** A field of the [.dt] accessor: the column must be a date column;
    the field of a missing date is missing. *)
Definition dt_cell (f : Z → cell) (d : option Z) : cell :=
  match d with Some t => f t | None => CNum NaN end.

Definition dt_field (f : Z → cell) (c : list cell) : result (list cell) :=
  ds ← date_col c;
  Ok (dt_cell f <$> (ds : list (option Z))).

Definition dt_year : list cell → result (list cell) :=
  dt_field (λ t, CNum (of_Z (Calendar.year t))).
Definition dt_month : list cell → result (list cell) :=
  dt_field (λ t, CNum (of_Z (Calendar.month t))).
Definition dt_quarter : list cell → result (list cell) :=
  dt_field (λ t, CNum (of_Z (Calendar.quarter t))).
Definition dt_day_name : list cell → result (list cell) :=
  dt_field (λ t, CStr (Calendar.day_name t)).

(** The difference of two date columns, row by row, in nanoseconds. *)
Definition date_sub (a b : list cell) : result (list (option Z)) :=
  da ← date_col a;
  db ← date_col b;
  Ok (zip_with (λ x y, match x, y with
                       | Some s, Some t => Some (s - t)%Z
                       | _, _ => None
                       end) da db).

(** [.dt.days] of a column of durations. *)
Definition td_days (l : list (option Z)) : list cell :=
  (λ d, match d with
        | Some ns => CNum (of_Z (ns / Calendar.ns_per_day))
        | None => CNum NaN
        end) <$> l.

(** ** Code that mutates the caller's frame *)

(** A computation over the frame object the caller passed: it returns a
    value or raises, and leaves the frame in a new state either way. *)
Definition frame_op (A : Type) : Type := DataFrame → result A * DataFrame.

#[global] Instance frame_op_ret : MRet frame_op := λ A a df, (Ok a, df).

#[global] Instance frame_op_bind : MBind frame_op := λ A B f m df,
  match m df with
  | (Ok a, df') => f a df'
  | (Raise e, df') => (Raise e, df')
  end.

Definition get_col (name : string) : frame_op (list cell) :=
  λ df, (getitem name df, df).

Definition set_col (name : string) (v : list cell) : frame_op unit :=
  λ df, (Ok tt, setitem name v df).

Definition lift {A} (r : result A) : frame_op A := λ df, (r, df).

(** The frame object itself, as [return df] hands it back. *)
Definition this_frame : frame_op DataFrame := λ df, (Ok df, df).

(** ** The toolkit *)

(** The translation table of [cargar_datos]. *)
Definition columnas_traducidas_items : list (string * string) :=
  [ ("Row ID", "id_fila");
    ("Order ID", "id_pedido");
    ("Order Date", "fecha_pedido");
    ("Ship Date", "fecha_envio");
    ("Ship Mode", "modo_envio");
    ("Customer ID", "id_cliente");
    ("Customer Name", "nombre_cliente");
    ("Segment", "segmento");
    ("Country", "pais");
    ("City", "ciudad");
    ("State", "estado");
    ("Postal Code", "codigo_postal");
    ("Region", "region");
    ("Product ID", "id_producto");
    ("Category", "categoria");
    ("Sub-Category", "subcategoria");
    ("Product Name", "nombre_producto");
    ("Sales", "ventas");
    ("Quantity", "cantidad");
    ("Discount", "descuento");
    ("Profit", "ganancia") ]%string.

Definition columnas_traducidas : gmap string string :=
  list_to_map columnas_traducidas_items.

Section Toolkit.

(** What the environment and the library decide: the content of the
    file at a path, read as a table ([read_csv]); the timestamp a text
    denotes, if it is a date ([parse_date]); the timestamp a number
    denotes, if any ([epoch_date]). The library reads the texts of a
    column under one format, which it infers from the first of them:
    [parse_date] is the reading of a text under the format of its
    column, and a frame whose date columns do not share that reading
    is outside the model. *)
Context (read_csv : string → result DataFrame).
Context (parse_date : string → option Z).
Context (epoch_date : num → option Z).

Definition cargar_datos (ruta_archivo : string) : result DataFrame :=
  df ← read_csv ruta_archivo;
  Ok (rename columnas_traducidas df).

(** [to_datetime] on one value: a date and a missing value are kept,
    anything else is converted or raises. *)
Definition to_datetime_cell (c : cell) : result cell :=
  match c with
  | CDate _ | CNull => Ok c
  | CNum NaN => Ok CNull
  | CStr s =>
      match parse_date s with
      | Some t => Ok (CDate t)
      | None => Raise DateParseError
      end
  | CNum x =>
      match epoch_date x with
      | Some t => Ok (CDate t)
      | None => Raise DateParseError
      end
  end.

Definition to_datetime (c : list cell) : result (list cell) :=
  traverse to_datetime_cell c.

(** The returned frame is the caller's frame object. *)
Definition procesar_fechas : frame_op DataFrame :=
  c ← get_col "fecha_pedido";
  d ← lift (to_datetime c);
  set_col "fecha_pedido" d;;
  c ← get_col "fecha_envio";
  d ← lift (to_datetime c);
  set_col "fecha_envio" d;;
  c ← get_col "fecha_pedido";
  v ← lift (dt_year c);
  set_col "año" v;;
  c ← get_col "fecha_pedido";
  v ← lift (dt_month c);
  set_col "mes" v;;
  c ← get_col "fecha_pedido";
  v ← lift (dt_day_name c);
  set_col "dia_semana" v;;
  c ← get_col "fecha_pedido";
  v ← lift (dt_quarter c);
  set_col "trimestre" v;;
  e ← get_col "fecha_envio";
  c ← get_col "fecha_pedido";
  v ← lift (date_sub e c);
  set_col "dias_envio" (td_days v);;
  this_frame.

End Toolkit.

(** [df[name].sum()] *)
Definition col_sum (name : string) (df : DataFrame) : result num :=
  c ← getitem name df;
  v ← num_col c;
  Ok (nansum v).

(** [df[name].nunique()] *)
Definition col_nunique (name : string) (df : DataFrame) : result nat :=
  c ← getitem name df;
  Ok (nunique c).

Record resumen : Type := mk_resumen {
  total_filas : nat;
  total_columnas : nat;
  periodo_datos : string;
  total_ventas : num;
  total_ganancia : num;
  margen_promedio : num;
  pedidos_unicos : nat;
  clientes_unicos : nat;
  productos_unicos : nat
}.

#[global] Instance resumen_eq_dec : EqDecision resumen.
Proof. solve_decision. Defined.

(** The entries of the dictionary are evaluated in the order written. *)
Definition crear_resumen_basico (df : DataFrame) : result resumen :=
  fechas ← getitem "fecha_pedido" df;
  ds ← date_col fechas;
  desde ← strftime (date_min ds);
  fechas ← getitem "fecha_pedido" df;
  ds ← date_col fechas;
  hasta ← strftime (date_max ds);
  ventas ← col_sum "ventas" df;
  ganancia ← col_sum "ganancia" df;
  g ← col_sum "ganancia" df;
  v ← col_sum "ventas" df;
  pedidos ← col_nunique "id_pedido" df;
  clientes ← col_nunique "id_cliente" df;
  productos ← col_nunique "id_producto" df;
  Ok {| total_filas := nrows df;
        total_columnas := length (columns df);
        periodo_datos := desde +:+ " a " +:+ hasta;
        total_ventas := ventas;
        total_ganancia := ganancia;
        margen_promedio := Num.mul (Num.div g v) (of_Z 100);
        pedidos_unicos := pedidos;
        clientes_unicos := clientes;
        productos_unicos := productos |}.

Record faltantes : Type := mk_faltantes {
  columna : string;
  valores_faltantes : nat;
  porcentaje : num
}.

#[global] Instance faltantes_eq_dec : EqDecision faltantes.
Proof. solve_decision. Defined.

(** [isnull().sum()] for one column: the number of missing cells. *)
Definition isnull_sum (c : list cell) : nat :=
  length (filter (λ x, isnull x = true) c).

(** The row of the report for the column [c] of a frame of [n] rows. *)
Definition fila_faltantes (n : nat) (c : string * list cell) : faltantes :=
  {| columna := c.1;
     valores_faltantes := isnull_sum c.2;
     porcentaje := Num.mul (Num.div (of_nat (isnull_sum c.2)) (of_nat n)) (of_Z 100) |}.

Definition analizar_valores_faltantes (df : DataFrame) : list faltantes :=
  let valores_faltantes_ := (λ c, (c.1, isnull_sum c.2)) <$> columns df in
  let porcentaje_faltantes :=
    (λ p, (p.1, Num.mul (Num.div (of_nat p.2) (of_nat (nrows df))) (of_Z 100)))
      <$> valores_faltantes_ in
  let resultado :=
    zip_with (λ p q, {| columna := p.1; valores_faltantes := p.2; porcentaje := q.2 |})
      valores_faltantes_ porcentaje_faltantes in
  sort_values_desc (λ r, of_nat (valores_faltantes r))
    (filter (λ r, (0 < valores_faltantes r)%nat) resultado).

(** [df.groupby('subcategoria')['ventas'].sum()
       .sort_values(ascending=False).head(top_n)]. The sums are sorted,
    so the sales are read as numbers. *)
Definition top_productos (top_n : Z) (df : DataFrame) : result (list (key * num)) :=
  sub ← getitem "subcategoria" df;
  ventas ← getitem "ventas" df;
  v ← num_col ventas;
  let ks := (λ c, [c]) <$> sub in
  let sumas := (λ k, (k, nansum (group_of ks v k))) <$> group_keys ks in
  Ok (head top_n (sort_values_desc snd sumas)).

(** The horizontal bar chart: its values, its labels and its title. *)
Record bar_chart : Type := mk_bar_chart {
  bar_x : list num;
  bar_y : list key;
  bar_title : string
}.

(** [px.bar(x=..., y=..., ...)]: two empty sequences are not taken for
    the values and the labels of the bars but for two lists of column
    names, which the charting library refuses with [ValueError]. *)
Definition px_bar (x : list num) (y : list key) (title : string) : result bar_chart :=
  match x, y with
  | [], [] => Raise ValueError
  | _, _ => Ok {| bar_x := x; bar_y := y; bar_title := title |}
  end.

(** Writing the chart to a file ([guardar], [ruta_salida]) is not
    modelled; [top_n] is 10 when the caller does not give it. *)
Definition crear_grafico_top_productos (df : DataFrame) (top_n : Z) : result bar_chart :=
  t ← top_productos top_n df;
  px_bar (t : list (key * num)).*2 t.*1
    ("Top " +:+ pretty top_n +:+ " Subcategorías por Ventas").

(** The row of a category after [agg] and [round(2)]. *)
Record agregado : Type := mk_agregado {
  a_categoria : key;
  a_ventas : num;
  a_ganancia : num;
  a_cantidad : suma;
  a_id_pedido : nat
}.

(** The row of a category in the table returned. *)
Record rentabilidad : Type := mk_rentabilidad {
  r_categoria : key;
  r_ventas : num;
  r_ganancia : num;
  r_cantidad : suma;
  r_id_pedido : nat;
  r_margen_porcentaje : num;
  r_venta_promedio : num
}.

#[global] Instance rentabilidad_eq_dec : EqDecision rentabilidad.
Proof. solve_decision. Defined.

(** The two derived columns, computed from the columns of the table. *)
Definition con_ratios (a : agregado) : rentabilidad :=
  {| r_categoria := a_categoria a;
     r_ventas := a_ventas a;
     r_ganancia := a_ganancia a;
     r_cantidad := a_cantidad a;
     r_id_pedido := a_id_pedido a;
     r_margen_porcentaje :=
       round2 (Num.mul (Num.div (a_ganancia a) (a_ventas a)) (of_Z 100));
     r_venta_promedio :=
       round2 (Num.div (a_ventas a) (of_nat (a_id_pedido a))) |}.

(** [agg] and [round(2)] for the group of key [k]. *)
Definition fila_agregada (ks : list key) (v g : list num) (c : key → suma)
    (ids : list cell) (k : key) : agregado :=
  {| a_categoria := k;
     a_ventas := round2 (nansum (group_of ks v k));
     a_ganancia := round2 (nansum (group_of ks g k));
     a_cantidad := redondear (c k);
     a_id_pedido := nunique (group_of ks ids k) |}.

(** The sales and the profit enter the two ratios and must be numbers;
    the quantity is only summed. *)
Definition analizar_rentabilidad_por_categoria (df : DataFrame) : result (list rentabilidad) :=
  categoria ← getitem "categoria" df;
  ventas ← getitem "ventas" df;
  ganancia ← getitem "ganancia" df;
  cantidad ← getitem "cantidad" df;
  id_pedido ← getitem "id_pedido" df;
  let ks := (λ x, [x]) <$> categoria in
  v ← num_col ventas;
  g ← num_col ganancia;
  c ← col_sumas ks cantidad;
  let tabla := fila_agregada ks v g c id_pedido <$> group_keys ks in
  Ok (sort_values_desc r_ventas (con_ratios <$> tabla)).

(** The row of a customer in the table returned. *)
Record metricas : Type := mk_metricas {
  m_cliente : key;
  ventas_sum : num;
  ventas_mean : num;
  ventas_count : nat;
  ganancia_sum : suma;
  cantidad_sum : suma;
  fecha_pedido_min : option Z;
  fecha_pedido_max : option Z;
  dias_como_cliente : num
}.

#[global] Instance metricas_eq_dec : EqDecision metricas.
Proof. solve_decision. Defined.

(** [(max - min).dt.days] for one customer. *)
Definition dias_entre (hasta desde : option Z) : num :=
  match hasta, desde with
  | Some b, Some a => of_Z (Calendar.days_between b a)
  | _, _ => NaN
  end.

(** [agg], [round(2)] and the tenure for the group of key [k]. *)
Definition fila_cliente (ks : list key) (v : list num) (g c : key → suma)
    (f : list (option Z)) (k : key) : metricas :=
  let fmin := date_min (group_of ks f k) in
  let fmax := date_max (group_of ks f k) in
  {| m_cliente := k;
     ventas_sum := round2 (nansum (group_of ks v k));
     ventas_mean := round2 (Num.mean (group_of ks v k));
     ventas_count := Num.count (group_of ks v k);
     ganancia_sum := redondear (g k);
     cantidad_sum := redondear (c k);
     fecha_pedido_min := fmin;
     fecha_pedido_max := fmax;
     dias_como_cliente := dias_entre fmax fmin |}.

(** The sales enter a mean and the order dates a difference, so they
    must be numbers and dates; the profit and the quantity are only
    summed. *)
Definition calcular_metricas_cliente (df : DataFrame) : result (list metricas) :=
  ks ← groupby_par "id_cliente" "nombre_cliente" df;
  ventas ← getitem "ventas" df;
  ganancia ← getitem "ganancia" df;
  cantidad ← getitem "cantidad" df;
  fecha_pedido ← getitem "fecha_pedido" df;
  v ← num_col ventas;
  g ← col_sumas ks ganancia;
  c ← col_sumas ks cantidad;
  f ← date_col fecha_pedido;
  let tabla := fila_cliente ks v g c f <$> group_keys (ks : list key) in
  Ok (sort_values_desc ventas_sum tabla).

(** ** Sample data

    A small raw table, as [read_csv] returns it, and a date parser that
    knows three dates; they instantiate the statements below. *)

Definition nov_08_2016 : Z := 17113 * Calendar.ns_per_day.
Definition nov_11_2016 : Z := 17116 * Calendar.ns_per_day.
Definition jun_12_2016 : Z := 16964 * Calendar.ns_per_day.

Definition ejemplo_parse_date (s : string) : option Z :=
  if decide (s = "11/8/2016") then Some nov_08_2016
  else if decide (s = "11/11/2016") then Some nov_11_2016
  else if decide (s = "6/12/2016") then Some jun_12_2016
  else None.

Definition ejemplo_epoch_date (x : num) : option Z :=
  match x with
  | Fin q => if decide (Qden q = 1%positive) then Some (Qnum q) else None
  | _ => None
  end.

(** A number written as a decimal fraction, [n / d]. *)
Definition dec (n : Z) (d : positive) : num := Fin (Q2Qc (n # d)).

Definition ejemplo_crudo : DataFrame :=
  mkDF 2
    [ ("Order ID", [CStr "CA-2016-152156"; CStr "CA-2016-138688"]);
      ("Order Date", [CStr "11/8/2016"; CStr "6/12/2016"]);
      ("Ship Date", [CStr "11/11/2016"; CStr "sin fecha"]);
      ("Category", [CStr "Furniture"; CStr "Office Supplies"]);
      ("Sales", [CNum (dec 26196 100); CNum (dec 1462 100)]);
      ("Notes", [CNull; CStr "revisar"]) ]%string.

Definition ejemplo_read_csv (ruta : string) : result DataFrame :=
  if decide (ruta = "superstore.csv") then Ok ejemplo_crudo else Raise OSError.

(** The raw table with its columns renamed. *)
Definition ejemplo_cargado : DataFrame := rename columnas_traducidas ejemplo_crudo.

(** A frame whose date columns can be converted; the second row has no
    ship date. *)
Definition ejemplo_fechas : DataFrame :=
  mkDF 2
    [ ("id_pedido", [CStr "CA-2016-152156"; CStr "CA-2016-138688"]);
      ("fecha_pedido", [CStr "11/8/2016"; CStr "6/12/2016"]);
      ("fecha_envio", [CStr "11/11/2016"; CNull]);
      ("ventas", [CNum (dec 26196 100); CNum (dec 1462 100)]) ]%string.

Definition ejemplo_resumen : DataFrame :=
  mkDF 2
    [ ("id_pedido", [CStr "CA-2016-152156"; CStr "CA-2016-138688"]);
      ("fecha_pedido", [CDate nov_08_2016; CDate jun_12_2016]);
      ("id_cliente", [CStr "CG-12520"; CStr "DV-13045"]);
      ("id_producto", [CStr "FUR-BO-10001798"; CStr "OFF-LA-10000240"]);
      ("ventas", [CNum (dec 26196 100); CNum (dec 1462 100)]);
      ("ganancia", [CNum (dec 419136 10000); CNum (dec 68714 10000)]) ]%string.

(** The same orders with every sale and profit at zero. *)
Definition ejemplo_ventas_cero : DataFrame :=
  mkDF 2
    [ ("id_pedido", [CStr "CA-2016-152156"; CStr "CA-2016-138688"]);
      ("fecha_pedido", [CDate nov_08_2016; CDate jun_12_2016]);
      ("id_cliente", [CStr "CG-12520"; CStr "DV-13045"]);
      ("id_producto", [CStr "FUR-BO-10001798"; CStr "OFF-LA-10000240"]);
      ("ventas", [CNum (of_Z 0); CNum (of_Z 0)]);
      ("ganancia", [CNum (of_Z 0); CNum (of_Z 0)]) ]%string.

(** A frame with missing cells in two of its three columns. *)
Definition ejemplo_faltantes : DataFrame :=
  mkDF 4
    [ ("codigo_postal", [CNum (of_Z 42420); CNull; CNum NaN; CNum (of_Z 90036)]);
      ("ciudad", [CStr "Henderson"; CStr "Los Angeles"; CStr "Concord"; CStr "Seattle"]);
      ("region", [CNull; CNull; CNull; CStr "West"]) ]%string.

(** A frame with the same columns and no row. *)
Definition ejemplo_vacio : DataFrame :=
  mkDF 0 [ ("codigo_postal", []); ("ciudad", []); ("region", []) ]%string.

(** Three order lines: two in the category Office (sales 100 and 200,
    profits 10 and 20) and one in the category Technology. *)
Definition ejemplo_office : DataFrame :=
  mkDF 3
    [ ("id_pedido", [CStr "A-1"; CStr "A-2"; CStr "A-3"]);
      ("categoria", [CStr "Office"; CStr "Technology"; CStr "Office"]);
      ("ventas", [CNum (of_Z 100); CNum (of_Z 50); CNum (of_Z 200)]);
      ("ganancia", [CNum (of_Z 10); CNum (of_Z 20); CNum (of_Z 20)]);
      ("cantidad", [CNum (of_Z 2); CNum (of_Z 1); CNum (of_Z 3)]) ]%string.

(** One order line whose sales and profit have three decimals. *)
Definition ejemplo_redondeo : DataFrame :=
  mkDF 1
    [ ("id_pedido", [CStr "A-1"]);
      ("categoria", [CStr "Office"]);
      ("ventas", [CNum (dec 1004 1000)]);
      ("ganancia", [CNum (dec 336 1000)]);
      ("cantidad", [CNum (of_Z 1)]) ]%string.

(** Four order lines in three sub-categories. *)
Definition ejemplo_subcategorias : DataFrame :=
  mkDF 4
    [ ("subcategoria", [CStr "Chairs"; CStr "Phones"; CStr "Chairs"; CStr "Paper"]);
      ("ventas", [CNum (of_Z 100); CNum (of_Z 500); CNum (of_Z 150); CNum (of_Z 20)]) ]%string.

(** Three order lines of two customers; the second customer has one
    line, with sales 957.5775. *)
Definition ejemplo_clientes : DataFrame :=
  mkDF 3
    [ ("id_cliente", [CStr "CG-12520"; CStr "SO-20335"; CStr "CG-12520"]);
      ("nombre_cliente", [CStr "Claire Gute"; CStr "Sean O'Donnell"; CStr "Claire Gute"]);
      ("fecha_pedido", [CDate jun_12_2016; CDate nov_08_2016; CDate nov_11_2016]);
      ("ventas", [CNum (of_Z 1000); CNum (dec 9575775 10000); CNum (of_Z 2000)]);
      ("ganancia", [CNum (of_Z 10); CNum (of_Z (-383)); CNum (of_Z 20)]);
      ("cantidad", [CNum (of_Z 2); CNum (of_Z 5); CNum (of_Z 3)]) ]%string.

(** A file system with the raw file and a file already translated. *)
Definition ejemplo_read_csv_traducido (ruta : string) : result DataFrame :=
  if decide (ruta = "superstore.csv") then Ok ejemplo_crudo
  else if decide (ruta = "traducido.csv") then Ok ejemplo_cargado
  else Raise OSError.

(** The frame that [procesar_fechas] leaves when both date columns,
    converted to [dp] and [de], hold the dates [ds] and [es]. *)
Definition frame_enriquecido (df : DataFrame) (dp de : list cell)
    (ds es : list (option Z)) : DataFrame :=
  setitem "dias_envio"
    (td_days (zip_with (λ x y, match x, y with
                               | Some s, Some t => Some (s - t)%Z
                               | _, _ => None
                               end) es ds))
    (setitem "trimestre" (dt_cell (λ t, CNum (of_Z (Calendar.quarter t))) <$> ds)
       (setitem "dia_semana" (dt_cell (λ t, CStr (Calendar.day_name t)) <$> ds)
          (setitem "mes" (dt_cell (λ t, CNum (of_Z (Calendar.month t))) <$> ds)
             (setitem "año" (dt_cell (λ t, CNum (of_Z (Calendar.year t))) <$> ds)
                (setitem "fecha_envio" de (setitem "fecha_pedido" dp df)))))).

(** A frame with a missing order date and a missing ship date. *)
Definition ejemplo_fechas_faltantes : DataFrame :=
  mkDF 3
    [ ("fecha_pedido", [CStr "11/8/2016"; CNull; CStr "6/12/2016"]);
      ("fecha_envio", [CStr "11/11/2016"; CStr "11/11/2016"; CNum NaN]);
      ("ventas", [CNum (of_Z 10); CNum (of_Z 20); CNum (of_Z 30)]) ]%string.

(** A frame with the columns of the summary and no row. *)
Definition ejemplo_sin_filas : DataFrame :=
  mkDF 0
    [ ("id_pedido", []); ("fecha_pedido", []); ("id_cliente", []);
      ("id_producto", []); ("ventas", []); ("ganancia", []) ]%string.

(** The three lines of [ejemplo_office] with the quantity written out
    in words. *)
Definition ejemplo_cantidad_texto : DataFrame :=
  mkDF 3
    [ ("id_pedido", [CStr "A-1"; CStr "A-2"; CStr "A-3"]);
      ("categoria", [CStr "Office"; CStr "Technology"; CStr "Office"]);
      ("ventas", [CNum (of_Z 100); CNum (of_Z 50); CNum (of_Z 200)]);
      ("ganancia", [CNum (of_Z 10); CNum (of_Z 20); CNum (of_Z 20)]);
      ("cantidad", [CStr "dos"; CStr "uno"; CStr "tres"]) ]%string.

(** One category whose sales cancel out while its profit does not. *)
Definition ejemplo_categoria_cero : DataFrame :=
  mkDF 2
    [ ("id_pedido", [CStr "A-1"; CStr "A-2"]);
      ("categoria", [CStr "Office"; CStr "Office"]);
      ("ventas", [CNum (of_Z 10); CNum (of_Z (-10))]);
      ("ganancia", [CNum (of_Z 3); CNum (of_Z 1)]);
      ("cantidad", [CNum (of_Z 1); CNum (of_Z 1)]) ]%string.

(** Two order lines of two customers, as loaded: the dates are text. *)
Definition ejemplo_clientes_texto : DataFrame :=
  mkDF 2
    [ ("id_cliente", [CStr "CG-12520"; CStr "SO-20335"]);
      ("nombre_cliente", [CStr "Claire Gute"; CStr "Sean O'Donnell"]);
      ("fecha_pedido", [CStr "6/12/2016"; CStr "11/8/2016"]);
      ("fecha_envio", [CStr "11/8/2016"; CStr "11/11/2016"]);
      ("ventas", [CNum (of_Z 1000); CNum (of_Z 957)]);
      ("ganancia", [CNum (of_Z 10); CNum (of_Z (-383))]);
      ("cantidad", [CNum (of_Z 2); CNum (of_Z 5)]) ]%string.

(** ** Monthly sales: [crear_grafico_ventas_temporales] *)

(** [str.lower()] on the letters A to Z; other characters are kept. *)
Definition ascii_lower (a : Ascii.ascii) : Ascii.ascii :=
  let n := Ascii.nat_of_ascii a in
  if (65 <=? n)%nat && (n <=? 90)%nat then Ascii.ascii_of_nat (n + 32) else a.

Fixpoint lower (s : string) : string :=
  match s with
  | EmptyString => EmptyString
  | String a s' => String (ascii_lower a) (lower s')
  end.

(** The names under which [to_datetime] recognises the columns of a
    frame of date parts, with the part each one denotes. *)
Definition unit_map : list (string * string) :=
  [ ("year", "year"); ("years", "year");
    ("month", "month"); ("months", "month");
    ("day", "day"); ("days", "day");
    ("hour", "h"); ("hours", "h");
    ("minute", "m"); ("minutes", "m");
    ("second", "s"); ("seconds", "s");
    ("ms", "ms"); ("millisecond", "ms"); ("milliseconds", "ms");
    ("us", "us"); ("microsecond", "us"); ("microseconds", "us");
    ("ns", "ns"); ("nanosecond", "ns"); ("nanoseconds", "ns") ]%string.

Fixpoint assoc (k : string) (l : list (string * string)) : option string :=
  match l with
  | [] => None
  | (k', v) :: l' => if decide (k' = k) then Some v else assoc k l'
  end.

(** The date part a column name denotes: looked up as written, then in
    lower case; a name that is not recognised denotes itself. *)
Definition unit_of (name : string) : string :=
  match assoc name unit_map with
  | Some u => u
  | None => default name (assoc (lower name) unit_map)
  end.

(** The parts among year, month and day that no column denotes. *)
Definition unidades_faltantes (names : list string) : list string :=
  filter (λ u, u ∉ unit_of <$> names) ["day"; "month"; "year"]%string.

(** Whether [groupby([a, b])] groups by the two columns, and not by the
    labels of the rows. *)
Definition por_columnas (a b : string) (df : DataFrame) : bool :=
  match getitem a df, getitem b df with
  | Ok _, Ok _ => true
  | _, _ => false
  end.

(** A total as the cell of a table. *)
Definition celda_suma (s : suma) : cell :=
  match s with
  | SNumero x => CNum x
  | STexto t => CStr t
  end.

(** [df.groupby(['año', 'mes'])['ventas'].sum().reset_index()]: one
    row per group, in increasing order of the key, and the columns of
    the table. The key columns carry the names of the grouping columns;
    when the groups are the labels of the rows, the index has no name
    and becomes the column "index". *)
Definition ventas_mensuales (df : DataFrame) : result (list (string * list cell)) :=
  ks ← groupby_par "año" "mes" df;
  ventas ← getitem "ventas" df;
  s ← col_sumas ks ventas;
  let grupos := group_keys (ks : list key) in
  let nivel (i : nat) : list cell := (λ k : list cell, default CNull (k !! i)) <$> grupos in
  let claves : list (string * list cell) :=
    if por_columnas "año" "mes" df
    then [ ("año"%string, nivel 0%nat); ("mes"%string, nivel 1%nat) ]
    else [ ("index"%string, nivel 0%nat) ] in
  Ok (claves ++ [ ("ventas"%string, (λ k, celda_suma ((s : key → suma) k)) <$> grupos) ]).

(** [tabla[name]] on the columns of a table. *)
Definition seleccionar (name : string) (cols : list (string * list cell))
    : result (list cell) :=
  match lookup_col name cols with
  | Some c => Ok c
  | None => Raise (KeyError name)
  end.

(** The data of the line chart: dates and sales. *)
Record line_chart : Type := mk_line_chart {
  line_x : list cell;
  line_y : list cell;
  line_title : string
}.

Section VentasTemporales.

(** What the library does with a frame of date parts once it has found
    year, month and day among its columns. *)
Context (assemble : list (string * list cell) → result (list cell)).

(** [to_datetime] on a frame of date parts: the columns must denote at
    least a year, a month and a day. *)
Definition to_datetime_frame (cols : list (string * list cell)) : result (list cell) :=
  match unidades_faltantes cols.*1 with
  | [] => assemble cols
  | _ :: _ => Raise ValueError
  end.

(** Writing the chart to a file ([guardar], [ruta_salida]) is not
    modelled. *)
Definition crear_grafico_ventas_temporales (df : DataFrame) : result line_chart :=
  t ← ventas_mensuales df;
  anio ← seleccionar "año" t;
  mes ← seleccionar "mes" t;
  fecha ← to_datetime_frame
             [ ("año", anio); ("mes", mes);
               ("day", (λ _, CNum (of_Z 1)) <$> (anio : list cell)) ]%string;
  ventas ← seleccionar "ventas" t;
  Ok {| line_x := fecha;
        line_y := ventas;
        line_title := "Evolución Temporal de las Ventas" |}.

End VentasTemporales.

(** ** Spreadsheet export: [exportar_reporte_excel] *)

(** A value of the summary dictionary. *)
Inductive valor : Type :=
  | VEntero (n : nat)
  | VTexto (s : string)
  | VNumero (x : num).

#[global] Instance valor_eq_dec : EqDecision valor.
Proof. solve_decision. Defined.

(** [list(resumen.items())]: the entries in the order in which the
    dictionary was built. *)
Definition resumen_items (r : resumen) : list (string * valor) :=
  [ ("total_filas", VEntero (total_filas r));
    ("total_columnas", VEntero (total_columnas r));
    ("periodo_datos", VTexto (periodo_datos r));
    ("total_ventas", VNumero (total_ventas r));
    ("total_ganancia", VNumero (total_ganancia r));
    ("margen_promedio", VNumero (margen_promedio r));
    ("pedidos_unicos", VEntero (pedidos_unicos r));
    ("clientes_unicos", VEntero (clientes_unicos r));
    ("productos_unicos", VEntero (productos_unicos r)) ]%string.

(** The row of a month in the fourth sheet. *)
Record mensual : Type := mk_mensual {
  mes_clave : list cell;
  mes_ventas : suma;
  mes_ganancia : suma;
  mes_cantidad : suma
}.

#[global] Instance mensual_eq_dec : EqDecision mensual.
Proof. solve_decision. Defined.

(** [df.groupby(['año', 'mes']).agg({'ventas': 'sum', 'ganancia': 'sum',
    'cantidad': 'sum'})]: one row per group, in increasing order of the
    key. The three columns are only summed. *)
Definition agregar_por_mes (df : DataFrame) : result (list mensual) :=
  ks ← groupby_par "año" "mes" df;
  ventas ← getitem "ventas" df;
  ganancia ← getitem "ganancia" df;
  cantidad ← getitem "cantidad" df;
  v ← col_sumas ks ventas;
  g ← col_sumas ks ganancia;
  c ← col_sumas ks cantidad;
  Ok ((λ k, {| mes_clave := k;
               mes_ventas := (v : key → suma) k;
               mes_ganancia := (g : key → suma) k;
               mes_cantidad := (c : key → suma) k |}) <$> group_keys (ks : list key)).

(** The table written to a sheet. *)
Inductive tabla : Type :=
  | TablaResumen (filas : list (string * valor))
  | TablaRentabilidad (filas : list rentabilidad)
  | TablaTop (filas : list (list cell * num))
  | TablaMensual (filas : list mensual).

Record hoja : Type := mk_hoja {
  hoja_nombre : string;
  hoja_tabla : tabla
}.

(** Code that writes to the open workbook: it returns a value or raises,
    and leaves the sheets written so far. *)
Definition escritor (A : Type) : Type := list hoja → result A * list hoja.

#[global] Instance escritor_ret : MRet escritor := λ A a hs, (Ok a, hs).

#[global] Instance escritor_bind : MBind escritor := λ A B f m hs,
  match m hs with
  | (Ok a, hs') => f a hs'
  | (Raise e, hs') => (Raise e, hs')
  end.

(** [tabla.to_excel(writer, sheet_name=nombre)]: a new sheet after the
    ones written. *)
Definition to_excel (nombre : string) (t : tabla) : escritor unit :=
  λ hs, (Ok tt, hs ++ [mk_hoja nombre t]).

Definition calcular {A} (r : result A) : escritor A := λ hs, (r, hs).

(** The body of the [with] statement. *)
Definition escribir_reporte (df : DataFrame) : escritor unit :=
  resumen ← calcular (crear_resumen_basico df);
  to_excel "Resumen_General" (TablaResumen (resumen_items resumen));;
  rentabilidad ← calcular (analizar_rentabilidad_por_categoria df);
  to_excel "Rentabilidad_Categoria" (TablaRentabilidad rentabilidad);;
  top ← calcular (top_productos 20 df);
  to_excel "Top_Productos" (TablaTop top);;
  ventas_mensuales ← calcular (agregar_por_mes df);
  to_excel "Ventas_Mensuales" (TablaMensual ventas_mensuales).

Section Exportar.

(** [abrir] is the construction of the writer, which opens the file for
    writing; [guardar] is its [close()], which writes the workbook with
    the sheets it was given. *)
Context (abrir : string → result unit).
Context (guardar : string → list hoja → result unit).

(** The [with] statement closes the writer when its body ends, also
    when the body raises; an exception of the closing replaces the one
    of the body. *)
Definition exportar_reporte_excel (df : DataFrame) (ruta_salida : string) : result unit :=
  _ ← abrir ruta_salida;
  let '(r, hojas) := escribir_reporte df [] in
  _ ← guardar ruta_salida hojas;
  r.

End Exportar.

(** The sheets of a complete report. *)
Definition hojas_reporte (r : resumen) (rent : list rentabilidad)
    (top : list (list cell * num)) (meses : list mensual) : list hoja :=
  [ mk_hoja "Resumen_General" (TablaResumen (resumen_items r));
    mk_hoja "Rentabilidad_Categoria" (TablaRentabilidad rent);
    mk_hoja "Top_Productos" (TablaTop top);
    mk_hoja "Ventas_Mensuales" (TablaMensual meses) ].


#[global] Instance tabla_eq_dec : EqDecision tabla.
Proof. solve_decision. Defined.

#[global] Instance hoja_eq_dec : EqDecision hoja.
Proof. solve_decision. Defined.

(** Two order lines with every column the report reads, dates as text. *)
Definition ejemplo_completo : DataFrame :=
  mkDF 2
    [ ("id_pedido", [CStr "CA-2016-152156"; CStr "CA-2016-138688"]);
      ("id_cliente", [CStr "CG-12520"; CStr "DV-13045"]);
      ("id_producto", [CStr "FUR-BO-10001798"; CStr "OFF-LA-10000240"]);
      ("categoria", [CStr "Furniture"; CStr "Office Supplies"]);
      ("subcategoria", [CStr "Bookcases"; CStr "Labels"]);
      ("fecha_pedido", [CStr "11/8/2016"; CStr "6/12/2016"]);
      ("fecha_envio", [CStr "11/11/2016"; CStr "11/8/2016"]);
      ("ventas", [CNum (dec 26196 100); CNum (dec 1462 100)]);
      ("ganancia", [CNum (dec 419136 10000); CNum (dec 68714 10000)]);
      ("cantidad", [CNum (of_Z 2); CNum (of_Z 2)]) ]%string.

(** The same lines with the dates converted, but no derived column. *)
Definition ejemplo_sin_enriquecer : DataFrame :=
  setitem "fecha_envio" [CDate nov_11_2016; CDate nov_08_2016]
    (setitem "fecha_pedido" [CDate nov_08_2016; CDate jun_12_2016] ejemplo_completo).

(** Three order lines with converted dates and no derived column. *)
Definition ejemplo_tres_lineas : DataFrame :=
  mkDF 3
    [ ("id_pedido", [CStr "CA-2016-152156"; CStr "CA-2016-138688"; CStr "US-2015-108966"]);
      ("id_cliente", [CStr "CG-12520"; CStr "DV-13045"; CStr "SO-20335"]);
      ("id_producto", [CStr "FUR-BO-10001798"; CStr "OFF-LA-10000240";
                       CStr "FUR-TA-10000577"]);
      ("categoria", [CStr "Furniture"; CStr "Office Supplies"; CStr "Furniture"]);
      ("subcategoria", [CStr "Bookcases"; CStr "Labels"; CStr "Tables"]);
      ("fecha_pedido", [CDate nov_08_2016; CDate jun_12_2016; CDate nov_11_2016]);
      ("fecha_envio", [CDate nov_11_2016; CDate nov_08_2016; CDate nov_11_2016]);
      ("ventas", [CNum (dec 26196 100); CNum (dec 1462 100); CNum (dec 9575775 10000)]);
      ("ganancia", [CNum (dec 419136 10000); CNum (dec 68714 10000); CNum (of_Z (-383))]);
      ("cantidad", [CNum (of_Z 2); CNum (of_Z 2); CNum (of_Z 5)]) ]%string.

(** A file system in which one path can be written. *)
Definition ejemplo_abrir (ruta : string) : result unit :=
  if decide (ruta = "reporte.xlsx") then Ok tt else Raise OSError.

Definition ejemplo_guardar (ruta : string) (hojas : list hoja) : result unit := Ok tt.

(** The order of the calendar on the keys (year, month). *)
Definition clave_mes (y m : Z) : list cell := [CNum (of_Z y); CNum (of_Z m)].

Definition mes_anterior (k1 k2 : list cell) : Prop :=
  ∃ y1 m1 y2 m2 : Z,
    k1 = clave_mes y1 m1 ∧ k2 = clave_mes y2 m2 ∧
    (y1 < y2 ∨ y1 = y2 ∧ m1 < m2)%Z.

(** ** Chart style: [configurar_estilo_graficos] *)

(** A setting of the plotting library: a number or a pair of numbers. *)
Inductive rc_valor : Type :=
  | RcNumero (n : Z)
  | RcPar (ancho alto : Z).

#[global] Instance rc_valor_eq_dec : EqDecision rc_valor.
Proof. solve_decision. Defined.

(** The function takes no argument and returns nothing: it assigns
    seven entries of the settings of the process, [plt.rcParams], which
    the model passes in and out. *)
Definition configurar_estilo_graficos (rc : gmap string rc_valor) : gmap string rc_valor :=
  let rc := <["figure.figsize" := RcPar 12 8]> rc in
  let rc := <["font.size" := RcNumero 12]> rc in
  let rc := <["axes.titlesize" := RcNumero 14]> rc in
  let rc := <["axes.labelsize" := RcNumero 12]> rc in
  let rc := <["xtick.labelsize" := RcNumero 10]> rc in
  let rc := <["ytick.labelsize" := RcNumero 10]> rc in
  <["legend.fontsize" := RcNumero 10]> rc.

(** The settings assigned, with their values. *)
Definition estilo : list (string * rc_valor) :=
  [ ("figure.figsize", RcPar 12 8);
    ("font.size", RcNumero 12);
    ("axes.titlesize", RcNumero 14);
    ("axes.labelsize", RcNumero 12);
    ("xtick.labelsize", RcNumero 10);
    ("ytick.labelsize", RcNumero 10);
    ("legend.fontsize", RcNumero 10) ]%string.

(** Settings in which the font size is 8 and the line width 2. *)
Definition ejemplo_rc : gmap string rc_valor :=
  <["font.size" := RcNumero 8]> (<["lines.linewidth" := RcNumero 2]> ∅).

(** * Properties *)

(** ** The model on small values *)

Example rint_half_even :
  rint (Q2Qc (5 # 2)) = 2%Z ∧ rint (Q2Qc (7 # 2)) = 4%Z ∧ rint (Q2Qc (-5 # 2)) = (-2)%Z.
Proof. repeat split; reflexivity. Qed.

Example round2_ejemplo :
  round2 (dec 9575775 10000) = dec 95758 100 ∧ round2 (dec 125 1000) = dec 12 100.
Proof. split; compute_done. Qed.

Example div_by_zero :
  Num.div (of_Z 0) (of_Z 0) = NaN ∧
  Num.div (of_Z 5) (of_Z 0) = PInf ∧
  Num.div (of_Z (-5)) (of_Z 0) = NInf.
Proof. repeat split; compute_done. Qed.

Example nansum_skips_missing : nansum [of_Z 1; NaN; of_Z 2] = of_Z 3 ∧ nansum [] = of_Z 0.
Proof. split; compute_done. Qed.

Example calendar_ejemplo :
  Calendar.strftime_ymd nov_08_2016 = "2016-11-08"%string ∧
  Calendar.day_name nov_08_2016 = "Tuesday"%string ∧
  Calendar.quarter nov_08_2016 = 4%Z ∧
  Calendar.strftime_ymd 0 = "1970-01-01"%string ∧
  Calendar.strftime_ymd (-1) = "1969-12-31"%string ∧
  Calendar.days_between nov_11_2016 nov_08_2016 = 3%Z.
Proof. repeat split; vm_compute; reflexivity. Qed.

Example head_ejemplo :
  head 2 [1; 2; 3]%nat = [1; 2]%nat ∧ head 5 [1; 2; 3]%nat = [1; 2; 3]%nat ∧
  head (-1) [1; 2; 3]%nat = [1; 2]%nat.
Proof. repeat split; reflexivity. Qed.

(** ** The result monad and [traverse] *)

Lemma traverse_ok_length {A B} (f : A → result B) l l' :
  traverse f l = Ok l' → length l' = length l.
Proof.
  revert l'. induction l as [|x l IH]; intros l' H; simpl in H.
  - by inversion H.
  - destruct (f x) as [y|e]; simpl in H; [|done].
    destruct (traverse f l) as [ys|e]; simpl in H; [|done].
    inversion H; subst. simpl. f_equal. by apply IH.
Qed.

Lemma traverse_ok_lookup {A B} (f : A → result B) l l' i x :
  traverse f l = Ok l' → l !! i = Some x → ∃ y, f x = Ok y ∧ l' !! i = Some y.
Proof.
  revert l' i. induction l as [|a l IH]; intros l' i H Hi; [done|].
  simpl in H. destruct (f a) as [b|e] eqn:Ha; simpl in H; [|done].
  destruct (traverse f l) as [ys|e] eqn:Hl; simpl in H; [|done].
  inversion H; subst. destruct i as [|i]; simpl in *.
  - inversion Hi; subst. eauto.
  - eapply IH; eauto.
Qed.

Lemma traverse_all_ok {A B} (f : A → result B) l :
  Forall (λ x, ∃ y, f x = Ok y) l → ∃ l', traverse f l = Ok l'.
Proof.
  induction 1 as [|x l [y Hy] _ [l' Hl']]; simpl; [by eexists|].
  rewrite Hy, Hl'. by eexists.
Qed.

Lemma traverse_raises {A B} (f : A → result B) l x e :
  x ∈ l → f x = Raise e →
  ∃ e' y, y ∈ l ∧ f y = Raise e' ∧ traverse f l = Raise e'.
Proof.
  induction 1 as [x l|x y l _ IH]; intros Hx; simpl.
  - exists e, x. rewrite Hx. split; [left|done].
  - destruct (f y) as [b|e0] eqn:Hy; simpl.
    + destruct (IH Hx) as (e' & z & Hz & Hfz & ->).
      exists e', z. split; [by right|done].
    + exists e0, y. split; [left|done].
Qed.

(** ** Sorting *)

Section sorting.
Context {A : Type} (before : A → A → bool).

Lemma insert_by_perm x l : insert_by before x l ≡ₚ x :: l.
Proof.
  induction l as [|y l IH]; simpl; [done|].
  destruct (before x y); [done|]. rewrite IH. apply Permutation_swap.
Qed.

Lemma sort_by_perm l : sort_by before l ≡ₚ l.
Proof.
  induction l as [|x l IH]; simpl; [done|].
  fold (sort_by before l). by rewrite insert_by_perm, IH.
Qed.

Lemma sort_by_elem_of x l : x ∈ sort_by before l ↔ x ∈ l.
Proof. by rewrite sort_by_perm. Qed.

Lemma sort_by_length l : length (sort_by before l) = length l.
Proof. by rewrite sort_by_perm. Qed.

Hypothesis before_total : ∀ x y, before x y = false → before y x = true.
Hypothesis before_trans :
  ∀ x y z, before x y = true → before y z = true → before x z = true.

Lemma insert_by_sorted x l :
  StronglySorted (λ a b, before a b = true) l →
  StronglySorted (λ a b, before a b = true) (insert_by before x l).
Proof.
  induction 1 as [|y l Hl IH Hy]; simpl.
  - repeat constructor.
  - destruct (before x y) eqn:Hxy.
    + constructor; [by constructor|].
      constructor; [done|].
      eapply Forall_impl; [exact Hy|]. intros z Hz. by eapply before_trans.
    + constructor; [done|].
      rewrite insert_by_perm. constructor; [|done]. by apply before_total.
Qed.

Lemma sort_by_sorted l :
  StronglySorted (λ a b, before a b = true) (sort_by before l).
Proof.
  induction l as [|x l IH]; simpl; [constructor|].
  by apply insert_by_sorted.
Qed.

End sorting.

Lemma StronglySorted_weaken {A} (R S : A → A → Prop) l :
  (∀ a b, R a b → S a b) → StronglySorted R l → StronglySorted S l.
Proof.
  intros HRS. induction 1 as [|x l _ IH Hx]; constructor; [done|].
  eapply Forall_impl; [exact Hx|]. auto.
Qed.

(** The descending order on numbers, missing values last. *)

Lemma leb_total_fin x y :
  isnan x = false → isnan y = false → Num.leb x y = false → Num.leb y x = true.
Proof.
  destruct x as [a| | |], y as [b| | |]; simpl; try done.
  intros _ _ H. apply bool_decide_eq_false in H. apply bool_decide_eq_true.
  apply Qclt_le_weak. by apply Qcnot_le_lt.
Qed.

Lemma leb_trans x y z :
  Num.leb x y = true → Num.leb y z = true → Num.leb x z = true.
Proof.
  destruct x as [a| | |], y as [b| | |], z as [c| | |]; simpl; try done.
  rewrite !bool_decide_eq_true. apply Qcle_trans.
Qed.

Lemma desc_before_spec x y :
  desc_before x y = true ↔ y = NaN ∨ Num.leb y x = true.
Proof.
  unfold desc_before. rewrite orb_true_iff.
  destruct y; simpl; intuition congruence.
Qed.

Lemma desc_before_total x y : desc_before x y = false → desc_before y x = true.
Proof.
  unfold desc_before. intros H. apply orb_false_iff in H as [Hy H].
  destruct (isnan x) eqn:Hx; [done|]. simpl. by apply leb_total_fin.
Qed.

Lemma desc_before_trans x y z :
  desc_before x y = true → desc_before y z = true → desc_before x z = true.
Proof.
  rewrite !desc_before_spec. intros [->|Hxy] [->|Hyz]; auto.
  - destruct z; simpl in Hyz; try done; auto.
  - right. by eapply leb_trans.
Qed.

Lemma sort_values_desc_perm {A} (by_ : A → num) l : sort_values_desc by_ l ≡ₚ l.
Proof. apply sort_by_perm. Qed.

Lemma sort_values_desc_sorted {A} (by_ : A → num) l :
  StronglySorted (λ a b, by_ b = NaN ∨ Num.leb (by_ b) (by_ a) = true)
    (sort_values_desc by_ l).
Proof.
  eapply StronglySorted_weaken; [|apply sort_by_sorted].
  - intros a b Hab. by apply desc_before_spec in Hab.
  - intros a b. apply desc_before_total.
  - intros a b c. apply desc_before_trans.
Qed.

(** ** Loading and renaming: [cargar_datos] *)

Lemma columnas_traducidas_lookup src tgt :
  columnas_traducidas !! src = Some tgt → (src, tgt) ∈ columnas_traducidas_items.
Proof. unfold columnas_traducidas. apply elem_of_list_to_map_2. Qed.

Lemma columnas_traducidas_items_fresh :
  Forall (λ p, columnas_traducidas !! p.2 = None) columnas_traducidas_items.
Proof. compute_done. Qed.

Lemma columnas_traducidas_items_inj :
  Forall (λ p, Forall (λ q, p.2 = q.2 → p.1 = q.1) columnas_traducidas_items)
    columnas_traducidas_items.
Proof. compute_done. Qed.

Lemma columnas_traducidas_targets_fresh src tgt :
  columnas_traducidas !! src = Some tgt → columnas_traducidas !! tgt = None.
Proof.
  intros H%columnas_traducidas_lookup.
  by apply (proj1 (Forall_forall _ _) columnas_traducidas_items_fresh (src, tgt)).
Qed.

Lemma columnas_traducidas_inj s1 s2 tgt :
  columnas_traducidas !! s1 = Some tgt → columnas_traducidas !! s2 = Some tgt → s1 = s2.
Proof.
  intros H1%columnas_traducidas_lookup H2%columnas_traducidas_lookup.
  pose proof (proj1 (Forall_forall _ _) columnas_traducidas_items_inj (s1, tgt) H1) as H.
  by apply (proj1 (Forall_forall _ _) H (s2, tgt) H2).
Qed.

Section rename.
Context (mapper : gmap string string) (df : DataFrame).

Lemma rename_column_names :
  column_names (rename mapper df) = (λ n, default n (mapper !! n)) <$> column_names df.
Proof.
  unfold column_names, rename. simpl. rewrite <- !list_fmap_compose.
  by apply list_fmap_ext.
Qed.

Lemma rename_cells : (columns (rename mapper df)).*2 = (columns df).*2.
Proof.
  unfold rename. simpl. rewrite <- list_fmap_compose. by apply list_fmap_ext.
Qed.

Lemma rename_known i src tgt :
  column_names df !! i = Some src → mapper !! src = Some tgt →
  column_names (rename mapper df) !! i = Some tgt.
Proof.
  intros Hi Hsrc. rewrite rename_column_names, list_lookup_fmap, Hi.
  simpl. by rewrite Hsrc.
Qed.

Lemma rename_unknown i name :
  column_names df !! i = Some name → mapper !! name = None →
  column_names (rename mapper df) !! i = Some name.
Proof.
  intros Hi Hname. rewrite rename_column_names, list_lookup_fmap, Hi.
  simpl. by rewrite Hname.
Qed.

(** When no target name is itself a source name, no source name is left. *)
Lemma rename_leaves_no_source src :
  (∀ s t, mapper !! s = Some t → mapper !! t = None) →
  is_Some (mapper !! src) → src ∉ column_names (rename mapper df).
Proof.
  intros Hfresh [tgt Hsrc]. rewrite rename_column_names.
  intros (n & Hn & _)%list_elem_of_fmap.
  destruct (mapper !! n) as [t|] eqn:Hlook; simpl in Hn; subst.
  - apply Hfresh in Hlook. congruence.
  - congruence.
Qed.

End rename.

(** C1, as the code has it (the table has 21 entries, not 22).
    The translation table has 21 entries and sends distinct source
    names to distinct target names; when the file can be read,
    [cargar_datos] returns a frame with the same rows and as many
    columns, in which every column whose name the table knows carries
    the corresponding target name at the same position, every other
    column keeps its name, and no name known to the table remains. *)
Theorem cargar_datos_renames_schema
    (read_csv : string → result DataFrame) (ruta : string) (crudo : DataFrame) :
  read_csv ruta = Ok crudo →
  size columnas_traducidas = 21%nat ∧
  (∀ s1 s2 tgt,
     columnas_traducidas !! s1 = Some tgt →
     columnas_traducidas !! s2 = Some tgt → s1 = s2) ∧
  ∃ df,
    cargar_datos read_csv ruta = Ok df ∧
    nrows df = nrows crudo ∧
    (columns df).*2 = (columns crudo).*2 ∧
    (∀ i src tgt,
       column_names crudo !! i = Some src →
       columnas_traducidas !! src = Some tgt →
       column_names df !! i = Some tgt) ∧
    (∀ i name,
       column_names crudo !! i = Some name →
       columnas_traducidas !! name = None →
       column_names df !! i = Some name) ∧
    (∀ src, is_Some (columnas_traducidas !! src) → src ∉ column_names df).
Proof.
  intros Hread. split; [compute_done|]. split; [apply columnas_traducidas_inj|].
  exists (rename columnas_traducidas crudo).
  unfold cargar_datos. rewrite Hread.
  split; [reflexivity|]. split; [reflexivity|].
  split; [apply rename_cells|].
  split; [apply rename_known|].
  split; [apply rename_unknown|].
  intros src. apply rename_leaves_no_source, columnas_traducidas_targets_fresh.
Qed.

Lemma cargar_datos_renames_schema_witness :
  ejemplo_read_csv "superstore.csv" = Ok ejemplo_crudo ∧
  ∃ df, cargar_datos ejemplo_read_csv "superstore.csv" = Ok df ∧
        column_names df !! 4%nat = Some "ventas"%string ∧
        column_names df !! 5%nat = Some "Notes"%string ∧
        "Sales"%string ∉ column_names df.
Proof.
  split; [reflexivity|].
  destruct (cargar_datos_renames_schema ejemplo_read_csv "superstore.csv" ejemplo_crudo)
    as (_ & _ & df & Hdf & _ & _ & Hknown & Hunknown & Hno); [reflexivity|].
  exists df. split; [exact Hdf|]. split; [|split].
  - apply (Hknown 4%nat "Sales"%string); [reflexivity|vm_compute; reflexivity].
  - apply (Hunknown 5%nat); [reflexivity|vm_compute; reflexivity].
  - apply Hno. exists "ventas"%string. vm_compute; reflexivity.
Defined.

(** C1, as stated: the schema does not have 22 columns. *)
Lemma columnas_traducidas_not_22 : size columnas_traducidas ≠ 22%nat.
Proof. compute_done. Qed.

(** ** Columns of a frame *)

Lemma lookup_col_assign_eq name v cs : lookup_col name (assign_col name v cs) = Some v.
Proof.
  induction cs as [|[n c] cs IH]; simpl.
  - by rewrite decide_True.
  - destruct (decide (n = name)) as [->|Hn]; simpl.
    + by rewrite decide_True.
    + by rewrite decide_False.
Qed.

Lemma lookup_col_assign_ne name other v cs :
  name ≠ other → lookup_col other (assign_col name v cs) = lookup_col other cs.
Proof.
  intros Hne. induction cs as [|[n c] cs IH]; simpl.
  - by rewrite decide_False.
  - destruct (decide (n = name)) as [->|Hn]; simpl.
    + by rewrite !decide_False.
    + by rewrite IH.
Qed.

Lemma assign_col_names_present name v cs :
  is_Some (lookup_col name cs) → (assign_col name v cs).*1 = cs.*1.
Proof.
  induction cs as [|[n c] cs IH]; simpl; intros [x Hx]; [done|].
  destruct (decide (n = name)) as [->|Hn]; simpl; [done|].
  f_equal. apply IH. eauto.
Qed.

Lemma getitem_setitem_eq name v df : getitem name (setitem name v df) = Ok v.
Proof. unfold getitem, setitem. simpl. by rewrite lookup_col_assign_eq. Qed.

Lemma getitem_setitem_ne name other v df :
  name ≠ other → getitem other (setitem name v df) = getitem other df.
Proof.
  intros Hne. unfold getitem, setitem. simpl. by rewrite lookup_col_assign_ne.
Qed.

Lemma setitem_names_present name v c df :
  getitem name df = Ok c → column_names (setitem name v df) = column_names df.
Proof.
  unfold getitem, column_names, setitem. simpl. intros H.
  apply assign_col_names_present. destruct (lookup_col name (columns df)); [eauto|done].
Qed.

(** ** Calendar *)

Lemma month_range t : (1 ≤ Calendar.month t ≤ 12)%Z.
Proof.
  unfold Calendar.month, Calendar.civil. generalize (Calendar.day_number t). intros days.
  cbn zeta. cbn [fst snd].
  set (z := (days + 719468)%Z).
  set (era := (z `div` 146097)%Z).
  set (doe := (z - era * 146097)%Z).
  assert (Hdoe : (0 ≤ doe ≤ 146096)%Z) by (subst doe era; Z.div_mod_to_equations; lia).
  clearbody doe. clear z era.
  set (yoe := ((doe - doe `div` 1460 + doe `div` 36524 - doe `div` 146096) `div` 365)%Z).
  set (doy := (doe - (365 * yoe + yoe `div` 4 - yoe `div` 100))%Z).
  assert (Hdoy : (0 ≤ doy ≤ 365)%Z) by (subst doy yoe; Z.div_mod_to_equations; lia).
  clearbody doy.
  destruct (Z.ltb_spec ((5 * doy + 2) `div` 153) 10); Z.div_mod_to_equations; lia.
Qed.

Lemma quarter_range t : (1 ≤ Calendar.quarter t ≤ 4)%Z.
Proof.
  unfold Calendar.quarter. pose proof (month_range t).
  Z.div_mod_to_equations; lia.
Qed.

(** ** Date columns *)

Section to_datetime.
Context (parse_date : string → option Z) (epoch_date : num → option Z).

Lemma to_datetime_cell_is_date c d :
  to_datetime_cell parse_date epoch_date c = Ok d → ∃ o, as_date d = Ok o.
Proof.
  destruct c as [s|x|t|]; simpl.
  - destruct (parse_date s); intros [= <-]; by eexists.
  - destruct x as [q| | |]; try destruct (epoch_date _); intros [= <-]; by eexists.
  - intros [= <-]; by eexists.
  - intros [= <-]; by eexists.
Qed.

Lemma to_datetime_is_date_col c d :
  to_datetime parse_date epoch_date c = Ok d → ∃ ds, date_col d = Ok ds.
Proof.
  intros H. apply traverse_all_ok. apply Forall_lookup. intros i x Hx.
  assert (length d = length c) as Hlen by (by eapply traverse_ok_length).
  destruct (lookup_lt_is_Some_2 c i) as [y Hy].
  { rewrite <- Hlen. by eapply lookup_lt_Some. }
  destruct (traverse_ok_lookup _ _ _ _ _ H Hy) as (x' & Hx' & Hd).
  rewrite Hx in Hd. injection Hd as <-. by eapply to_datetime_cell_is_date.
Qed.

End to_datetime.

Lemma date_col_lookup c ds i t :
  date_col c = Ok ds → c !! i = Some (CDate t) → ds !! i = Some (Some t).
Proof.
  intros H Hi. destruct (traverse_ok_lookup _ _ _ _ _ H Hi) as (y & Hy & Hds).
  simpl in Hy. by injection Hy as <-.
Qed.

(** ** Temporal enrichment: [procesar_fechas] *)

Lemma dt_field_ok f c ds :
  date_col c = Ok ds → dt_field f c = Ok (dt_cell f <$> ds).
Proof. intros H. unfold dt_field. by rewrite H. Qed.

Lemma date_sub_ok a b da db :
  date_col a = Ok da → date_col b = Ok db →
  date_sub a b =
    Ok (zip_with (λ x y, match x, y with
                         | Some s, Some t => Some (s - t)%Z
                         | _, _ => None
                         end) da db).
Proof. intros Ha Hb. unfold date_sub. by rewrite Ha, Hb. Qed.

Ltac frame_lookup :=
  repeat first
    [ rewrite getitem_setitem_eq
    | rewrite getitem_setitem_ne by done ].

(** The run of [procesar_fechas] on a frame whose two date columns
    can be converted. *)
Lemma procesar_fechas_ok
    (parse_date : string → option Z) (epoch_date : num → option Z)
    (df : DataFrame) (pedido envio dp de : list cell) :
  getitem "fecha_pedido" df = Ok pedido →
  to_datetime parse_date epoch_date pedido = Ok dp →
  getitem "fecha_envio" df = Ok envio →
  to_datetime parse_date epoch_date envio = Ok de →
  ∃ df' mes trimestre dias,
    procesar_fechas parse_date epoch_date df = (Ok df', df') ∧
    getitem "fecha_pedido" df' = Ok dp ∧
    getitem "fecha_envio" df' = Ok de ∧
    getitem "mes" df' = Ok mes ∧
    getitem "trimestre" df' = Ok trimestre ∧
    getitem "dias_envio" df' = Ok dias ∧
    (∀ i o, dp !! i = Some (CDate o) →
       mes !! i = Some (CNum (of_Z (Calendar.month o))) ∧
       trimestre !! i = Some (CNum (of_Z (Calendar.quarter o))) ∧
       ∀ s, de !! i = Some (CDate s) →
            dias !! i = Some (CNum (of_Z (Calendar.days_between s o)))).
Proof.
  intros Hp Hdp He Hde.
  destruct (to_datetime_is_date_col _ _ _ _ Hdp) as [ds Hds].
  destruct (to_datetime_is_date_col _ _ _ _ Hde) as [es Hes].
  unfold procesar_fechas.
  unfold mbind, frame_op_bind, get_col, set_col, lift, this_frame.
  unfold dt_year, dt_month, dt_day_name, dt_quarter.
  rewrite Hp, Hdp. frame_lookup. rewrite He, Hde. frame_lookup.
  rewrite !(dt_field_ok _ _ _ Hds). frame_lookup.
  rewrite !(dt_field_ok _ _ _ Hds). frame_lookup.
  rewrite !(dt_field_ok _ _ _ Hds). frame_lookup.
  rewrite !(dt_field_ok _ _ _ Hds). frame_lookup.
  rewrite (date_sub_ok _ _ _ _ Hes Hds).
  eexists _, _, _, _. split; [reflexivity|]. frame_lookup.
  do 5 (split; [reflexivity|]).
  intros i o Hi. pose proof (date_col_lookup _ _ _ _ Hds Hi) as Hdi.
  rewrite !list_lookup_fmap, Hdi. simpl.
  split; [done|]. split; [done|].
  intros s Hs. pose proof (date_col_lookup _ _ _ _ Hes Hs) as Hsi.
  unfold td_days. by rewrite list_lookup_fmap, lookup_zip_with, Hsi, Hdi.
Qed.

(** C2. When both date columns can be converted, [procesar_fechas]
    returns the caller's frame, in which, for every row that has an
    order date, the month column holds its month [m], the quarter
    column holds [(m - 1) // 3 + 1], which is one of 1, 2, 3, 4, and,
    if the row also has a ship date, the shipping-duration column holds
    the whole days from the order date to the ship date; and two runs
    on equal frames give equal results. *)
Theorem procesar_fechas_derives
    (parse_date : string → option Z) (epoch_date : num → option Z)
    (df : DataFrame) (pedido envio dp de : list cell) :
  getitem "fecha_pedido" df = Ok pedido →
  to_datetime parse_date epoch_date pedido = Ok dp →
  getitem "fecha_envio" df = Ok envio →
  to_datetime parse_date epoch_date envio = Ok de →
  (∃ df' mes trimestre dias,
     procesar_fechas parse_date epoch_date df = (Ok df', df') ∧
     getitem "fecha_pedido" df' = Ok dp ∧
     getitem "fecha_envio" df' = Ok de ∧
     getitem "mes" df' = Ok mes ∧
     getitem "trimestre" df' = Ok trimestre ∧
     getitem "dias_envio" df' = Ok dias ∧
     ∀ i o, dp !! i = Some (CDate o) →
       ∃ m q,
         mes !! i = Some (CNum (of_Z m)) ∧
         trimestre !! i = Some (CNum (of_Z q)) ∧
         q = ((m - 1) `div` 3 + 1)%Z ∧
         (q = 1 ∨ q = 2 ∨ q = 3 ∨ q = 4)%Z ∧
         ∀ s, de !! i = Some (CDate s) →
              dias !! i = Some (CNum (of_Z ((s - o) `div` 86400000000000)))) ∧
  (∀ df1 df2, df1 = df2 →
     procesar_fechas parse_date epoch_date df1 = procesar_fechas parse_date epoch_date df2).
Proof.
  intros Hp Hdp He Hde. split; [|by intros ?? ->].
  destruct (procesar_fechas_ok _ _ _ _ _ _ _ Hp Hdp He Hde)
    as (df' & mes & trimestre & dias & Hrun & H1 & H2 & H3 & H4 & H5 & Hrows).
  exists df', mes, trimestre, dias. do 6 (split; [done|]).
  intros i o Hi. destruct (Hrows i o Hi) as (Hm & Hq & Hd).
  exists (Calendar.month o), (Calendar.quarter o).
  split; [done|]. split; [done|]. split; [done|].
  split; [pose proof (quarter_range o); lia|exact Hd].
Qed.

Lemma procesar_fechas_derives_witness :
  ∃ df',
    procesar_fechas ejemplo_parse_date ejemplo_epoch_date ejemplo_fechas = (Ok df', df') ∧
    getitem "trimestre" df' = Ok [CNum (of_Z 4); CNum (of_Z 2)] ∧
    getitem "dias_envio" df' = Ok [CNum (of_Z 3); CNum NaN].
Proof.
  destruct (procesar_fechas_derives ejemplo_parse_date ejemplo_epoch_date ejemplo_fechas
              [CStr "11/8/2016"; CStr "6/12/2016"] [CStr "11/11/2016"; CNull]
              [CDate nov_08_2016; CDate jun_12_2016] [CDate nov_11_2016; CNull])
    as [(df' & mes & trimestre & dias & Hrun & _) _]; try reflexivity.
  exists df'. split; [exact Hrun|].
  vm_compute in Hrun. injection Hrun as <-. split; vm_compute; reflexivity.
Defined.

(** C9. When the order-date column can be converted and the ship-date
    column holds a value that cannot, [procesar_fechas] raises, and the
    caller's frame is left with its order-date column replaced by the
    converted dates, every other column as it was, and no column
    added. *)
Theorem procesar_fechas_partial_mutation
    (parse_date : string → option Z) (epoch_date : num → option Z)
    (df : DataFrame) (pedido envio dp : list cell) (malo : cell) (e : exn) :
  getitem "fecha_pedido" df = Ok pedido →
  to_datetime parse_date epoch_date pedido = Ok dp →
  getitem "fecha_envio" df = Ok envio →
  malo ∈ envio →
  to_datetime_cell parse_date epoch_date malo = Raise e →
  ∃ df',
    procesar_fechas parse_date epoch_date df = (Raise DateParseError, df') ∧
    df' = setitem "fecha_pedido" dp df ∧
    getitem "fecha_pedido" df' = Ok dp ∧
    (∀ name, name ≠ "fecha_pedido"%string → getitem name df' = getitem name df) ∧
    column_names df' = column_names df.
Proof.
  intros Hp Hdp He Hin Hmalo.
  destruct (traverse_raises _ _ _ _ Hin Hmalo) as (e' & y & _ & Hy & Hraise).
  assert (e' = DateParseError) as ->.
  { destruct y as [s|x|t|]; simpl in Hy; try done.
    - destruct (parse_date s); congruence.
    - destruct x; try destruct (epoch_date _); congruence. }
  exists (setitem "fecha_pedido" dp df).
  split; [|split; [done|split; [|split]]].
  - unfold procesar_fechas.
    unfold mbind, frame_op_bind, get_col, set_col, lift, this_frame.
    rewrite Hp, Hdp. frame_lookup. rewrite He. unfold to_datetime. by rewrite Hraise.
  - apply getitem_setitem_eq.
  - intros name Hname. by apply getitem_setitem_ne.
  - by eapply setitem_names_present.
Qed.

Lemma procesar_fechas_partial_mutation_witness :
  getitem "fecha_pedido" ejemplo_cargado = Ok [CStr "11/8/2016"; CStr "6/12/2016"] ∧
  ∃ df',
    procesar_fechas ejemplo_parse_date ejemplo_epoch_date ejemplo_cargado
      = (Raise DateParseError, df') ∧
    getitem "fecha_pedido" df' = Ok [CDate nov_08_2016; CDate jun_12_2016] ∧
    column_names df' = column_names ejemplo_cargado.
Proof.
  split; [vm_compute; reflexivity|].
  destruct (procesar_fechas_partial_mutation ejemplo_parse_date ejemplo_epoch_date
              ejemplo_cargado
              [CStr "11/8/2016"; CStr "6/12/2016"] [CStr "11/11/2016"; CStr "sin fecha"]
              [CDate nov_08_2016; CDate jun_12_2016] (CStr "sin fecha") DateParseError)
    as (df' & Hrun & _ & Hcol & _ & Hnames);
    [vm_compute; reflexivity|reflexivity|vm_compute; reflexivity| |reflexivity|].
  - apply list_elem_of_In. right. left. reflexivity.
  - exists df'. split; [exact Hrun|]. split; [exact Hcol|exact Hnames].
Defined.

(** ** Arithmetic on extended numbers *)

Lemma mul_comm x y : Num.mul x y = Num.mul y x.
Proof. destruct x, y; simpl; try done. by rewrite Qcmult_comm. Qed.

Lemma foldl_add_fin a qs :
  foldl Num.add (Fin a) (Fin <$> qs) = Fin (a + foldr Qcplus 0 qs).
Proof.
  revert a. induction qs as [|q qs IH]; intros a; simpl.
  - by rewrite Qcplus_0_r.
  - by rewrite IH, Qcplus_assoc.
Qed.

(** The sum of a column whose present values are finite is their
    exact sum. *)
Lemma nansum_fin v qs :
  filter (λ x, isnan x = false) v = Fin <$> qs → nansum v = Fin (foldr Qcplus 0 qs).
Proof. intros H. unfold nansum. by rewrite H, foldl_add_fin, Qcplus_0_l. Qed.

Lemma sgn_100 : sgn (Qc_of_Z 100) = Gt.
Proof. reflexivity. Qed.

Lemma div_mul_100_fin tg tv :
  tv ≠ 0 →
  Num.mul (Num.div (Fin tg) (Fin tv)) (of_Z 100) = Fin (Qc_of_Z 100 * tg / tv).
Proof.
  intros Htv. unfold Num.div. destruct (decide (tv = 0)) as [Hz|_]; [done|].
  simpl. f_equal. unfold Qcdiv. ring.
Qed.

(** A ratio over a zero total, scaled by 100, is not a finite number. *)
Lemma div_zero_mul_100 x :
  Num.mul (Num.div x (Fin 0)) (of_Z 100) =
    match x with Fin tg => inf_of_sign (sgn tg) | _ => x end.
Proof.
  destruct x as [tg| | |]; try done.
  unfold Num.div. destruct (decide (0 = 0)) as [_|Hne]; [|done].
  by destruct (sgn tg).
Qed.

Lemma div_zero_mul_100_not_finite x :
  isfinite (Num.mul (Num.div x (Fin 0)) (of_Z 100)) = false.
Proof. rewrite div_zero_mul_100. destruct x as [tg| | |]; try done. by destruct (sgn tg). Qed.

(** ** Summary: [crear_resumen_basico] *)

Lemma date_min_is_Some ds t : Some t ∈ ds → is_Some (date_min ds).
Proof.
  induction ds as [|d ds IH]; [by intros ?%elem_of_nil|].
  intros [<-|Hin]%elem_of_cons; simpl.
  - destruct (date_min ds); eauto.
  - destruct d, (IH Hin) as [m ->]; eauto.
Qed.

Lemma date_max_is_Some ds t : Some t ∈ ds → is_Some (date_max ds).
Proof.
  induction ds as [|d ds IH]; [by intros ?%elem_of_nil|].
  intros [<-|Hin]%elem_of_cons; simpl.
  - destruct (date_max ds); eauto.
  - destruct d, (IH Hin) as [m ->]; eauto.
Qed.

Section resumen.
Context (df : DataFrame) (fechas cv cg pedidos clientes productos : list cell).
Context (ds : list (option Z)) (v g : list num) (t : Z).
Hypothesis Hfechas : getitem "fecha_pedido" df = Ok fechas.
Hypothesis Hds : date_col fechas = Ok ds.
Hypothesis Hfecha : Some t ∈ ds.
Hypothesis Hcv : getitem "ventas" df = Ok cv.
Hypothesis Hv : num_col cv = Ok v.
Hypothesis Hcg : getitem "ganancia" df = Ok cg.
Hypothesis Hg : num_col cg = Ok g.
Hypothesis Hpedidos : getitem "id_pedido" df = Ok pedidos.
Hypothesis Hclientes : getitem "id_cliente" df = Ok clientes.
Hypothesis Hproductos : getitem "id_producto" df = Ok productos.

(** On a frame with the expected columns and at least one order date,
    the summary is returned, with these totals. *)
Lemma crear_resumen_basico_ok :
  ∃ r,
    crear_resumen_basico df = Ok r ∧
    total_filas r = nrows df ∧
    total_ventas r = nansum v ∧
    total_ganancia r = nansum g ∧
    margen_promedio r = Num.mul (Num.div (nansum g) (nansum v)) (of_Z 100).
Proof.
  destruct (date_min_is_Some _ _ Hfecha) as [tmin Hmin].
  destruct (date_max_is_Some _ _ Hfecha) as [tmax Hmax].
  unfold crear_resumen_basico, col_sum, col_nunique.
  rewrite Hfechas, Hcv, Hcg, Hpedidos, Hclientes, Hproductos. simpl.
  rewrite Hds, Hv, Hg. simpl. rewrite Hmin, Hmax. simpl.
  eexists. split; [reflexivity|]. done.
Qed.

End resumen.

(** C3. On a frame with the expected columns (and at least one order
    date, without which the period cannot be formatted), the summary is
    returned; [total_ventas] and [total_ganancia] are the sums of the
    sales and profit columns, missing values skipped, which is the
    exact sum of the values present when these are finite;
    [margen_promedio] is 100 times the quotient of total profit by total
    sales, a finite number when total sales is not zero and a
    non-finite one ([NaN] or an infinity) when it is zero. *)
Theorem crear_resumen_basico_totals
    (df : DataFrame) (fechas cv cg pedidos clientes productos : list cell)
    (ds : list (option Z)) (v g : list num) (t : Z) :
  getitem "fecha_pedido" df = Ok fechas →
  date_col fechas = Ok ds →
  Some t ∈ ds →
  getitem "ventas" df = Ok cv →
  num_col cv = Ok v →
  getitem "ganancia" df = Ok cg →
  num_col cg = Ok g →
  getitem "id_pedido" df = Ok pedidos →
  getitem "id_cliente" df = Ok clientes →
  getitem "id_producto" df = Ok productos →
  ∃ r,
    crear_resumen_basico df = Ok r ∧
    total_ventas r = nansum v ∧
    total_ganancia r = nansum g ∧
    (∀ qs, filter (λ x, isnan x = false) v = Fin <$> qs →
           total_ventas r = Fin (foldr Qcplus 0 qs)) ∧
    (∀ qs, filter (λ x, isnan x = false) g = Fin <$> qs →
           total_ganancia r = Fin (foldr Qcplus 0 qs)) ∧
    margen_promedio r =
      Num.mul (of_Z 100) (Num.div (total_ganancia r) (total_ventas r)) ∧
    (∀ tg tv, total_ganancia r = Fin tg → total_ventas r = Fin tv → tv ≠ 0 →
              margen_promedio r = Fin (Qc_of_Z 100 * tg / tv)) ∧
    (total_ventas r = Fin 0 → isfinite (margen_promedio r) = false).
Proof.
  intros Hfechas Hds Hfecha Hcv Hv Hcg Hg Hpedidos Hclientes Hproductos.
  destruct (crear_resumen_basico_ok df fechas cv cg pedidos clientes productos ds v g t)
    as (r & Hr & _ & Htv & Htg & Hm); try done.
  exists r. split; [done|]. split; [done|]. split; [done|].
  split; [intros qs Hqs; rewrite Htv; by apply nansum_fin|].
  split; [intros qs Hqs; rewrite Htg; by apply nansum_fin|].
  rewrite Hm, Htv, Htg. split; [apply mul_comm|].
  split.
  - intros tg tv -> -> Hne. by apply div_mul_100_fin.
  - intros ->. apply div_zero_mul_100_not_finite.
Qed.

Lemma crear_resumen_basico_totals_witness :
  ∃ r,
    crear_resumen_basico ejemplo_resumen = Ok r ∧
    total_ventas r = Fin (Q2Qc (26196 # 100) + (Q2Qc (1462 # 100) + 0)) ∧
    margen_promedio r =
      Num.mul (of_Z 100) (Num.div (total_ganancia r) (total_ventas r)).
Proof.
  destruct (crear_resumen_basico_totals ejemplo_resumen
              [CDate nov_08_2016; CDate jun_12_2016]
              [CNum (dec 26196 100); CNum (dec 1462 100)]
              [CNum (dec 419136 10000); CNum (dec 68714 10000)]
              [CStr "CA-2016-152156"; CStr "CA-2016-138688"]
              [CStr "CG-12520"; CStr "DV-13045"]
              [CStr "FUR-BO-10001798"; CStr "OFF-LA-10000240"]
              [Some nov_08_2016; Some jun_12_2016]
              [dec 26196 100; dec 1462 100]
              [dec 419136 10000; dec 68714 10000]
              nov_08_2016)
    as (r & Hr & _ & _ & Hsum & _ & Hm & _); try reflexivity.
  { apply list_elem_of_In. left. reflexivity. }
  exists r. split; [exact Hr|]. split; [|exact Hm].
  apply (Hsum [Q2Qc (26196 # 100); Q2Qc (1462 # 100)]). reflexivity.
Defined.

(** C4, as the code has it. On a frame with the expected columns and
    at least one order date, a sales total of zero does not make
    [crear_resumen_basico] raise: the summary is returned, and its
    [margen_promedio] is not a finite number ([NaN] when the profit
    total is zero, plus or minus infinity when it is positive or
    negative). *)
Theorem crear_resumen_basico_zero_sales
    (df : DataFrame) (fechas cv cg pedidos clientes productos : list cell)
    (ds : list (option Z)) (v g : list num) (t : Z) :
  getitem "fecha_pedido" df = Ok fechas →
  date_col fechas = Ok ds →
  Some t ∈ ds →
  getitem "ventas" df = Ok cv →
  num_col cv = Ok v →
  getitem "ganancia" df = Ok cg →
  num_col cg = Ok g →
  getitem "id_pedido" df = Ok pedidos →
  getitem "id_cliente" df = Ok clientes →
  getitem "id_producto" df = Ok productos →
  nansum v = Fin 0 →
  ∃ r,
    crear_resumen_basico df = Ok r ∧
    total_ventas r = Fin 0 ∧
    isfinite (margen_promedio r) = false ∧
    (∀ tg, total_ganancia r = Fin tg →
       (tg = 0 → margen_promedio r = NaN) ∧
       (0 < tg → margen_promedio r = PInf) ∧
       (tg < 0 → margen_promedio r = NInf)).
Proof.
  intros Hfechas Hds Hfecha Hcv Hv Hcg Hg Hpedidos Hclientes Hproductos Hcero.
  destruct (crear_resumen_basico_ok df fechas cv cg pedidos clientes productos ds v g t)
    as (r & Hr & _ & Htv & Htg & Hm); try done.
  exists r. rewrite Hm, Htv, Htg, Hcero. split; [done|]. split; [done|].
  split; [apply div_zero_mul_100_not_finite|].
  intros tg ->. rewrite div_zero_mul_100. unfold sgn.
  split; [|split].
  - intros ->. reflexivity.
  - intros H. apply (proj1 (Qcgt_alt tg 0)) in H. by rewrite H.
  - intros H. apply (proj1 (Qclt_alt tg 0)) in H. by rewrite H.
Qed.

Lemma crear_resumen_basico_zero_sales_witness :
  ∃ r,
    crear_resumen_basico ejemplo_ventas_cero = Ok r ∧
    total_ventas r = Fin 0 ∧
    isfinite (margen_promedio r) = false.
Proof.
  destruct (crear_resumen_basico_zero_sales ejemplo_ventas_cero
              [CDate nov_08_2016; CDate jun_12_2016]
              [CNum (of_Z 0); CNum (of_Z 0)]
              [CNum (of_Z 0); CNum (of_Z 0)]
              [CStr "CA-2016-152156"; CStr "CA-2016-138688"]
              [CStr "CG-12520"; CStr "DV-13045"]
              [CStr "FUR-BO-10001798"; CStr "OFF-LA-10000240"]
              [Some nov_08_2016; Some jun_12_2016]
              [of_Z 0; of_Z 0] [of_Z 0; of_Z 0] nov_08_2016)
    as (r & Hr & Htv & Hm & _); try reflexivity.
  { apply list_elem_of_In. left. reflexivity. }
  exists r. split; [exact Hr|]. split; [exact Htv|exact Hm].
Defined.

(** C4, as stated, fails: on a two-row frame whose sales are all zero
    the summary is returned, with a [NaN] margin. *)
Lemma crear_resumen_basico_zero_sales_returns :
  col_sum "ventas" ejemplo_ventas_cero = Ok (Fin 0) ∧
  margen_promedio <$> crear_resumen_basico ejemplo_ventas_cero = Ok NaN ∧
  ¬ ∃ e, crear_resumen_basico ejemplo_ventas_cero = Raise e.
Proof.
  split; [compute_done|].
  assert (margen_promedio <$> crear_resumen_basico ejemplo_ventas_cero = Ok NaN) as H
    by compute_done.
  split; [exact H|].
  intros [e He]. rewrite He in H. discriminate H.
Qed.


(** ** Missing values: [analizar_valores_faltantes] *)

Lemma leb_of_nat a b : Num.leb (of_nat a) (of_nat b) = true ↔ (a ≤ b)%nat.
Proof.
  unfold of_nat, of_Z. simpl. rewrite bool_decide_eq_true, <- Z2Qc_inj_le. lia.
Qed.

Lemma analizar_valores_faltantes_unfold df :
  analizar_valores_faltantes df =
    sort_values_desc (λ r, of_nat (valores_faltantes r))
      (filter (λ r, (0 < valores_faltantes r)%nat) (fila_faltantes (nrows df) <$> columns df)).
Proof.
  unfold analizar_valores_faltantes. do 2 f_equal.
  rewrite zip_with_fmap_l, zip_with_fmap_r, zip_with_fmap_r, zip_with_diag.
  done.
Qed.

Lemma isnull_sum_le c : (isnull_sum c ≤ length c)%nat.
Proof. apply length_filter. Qed.

Lemma porcentaje_fin k n :
  (0 < n)%nat →
  Num.mul (Num.div (of_nat k) (of_nat n)) (of_Z 100) =
    Fin (Qc_of_Z (Z.of_nat k) / Qc_of_Z (Z.of_nat n) * Qc_of_Z 100).
Proof.
  intros Hn. unfold of_nat, of_Z, Num.div.
  destruct (decide (Qc_of_Z (Z.of_nat n) = 0)) as [Hz|_]; [|done].
  rewrite <- Z2Qc_inj_0 in Hz. apply Z2Qc_inj in Hz. lia.
Qed.

(** C6. The report lists exactly the columns that have at least one
    missing cell, each with its number of missing cells and with the
    percentage [count / rows * 100]; it is ordered by decreasing count;
    in a frame whose columns have one cell per row the percentages are
    finite numbers, and on a frame without rows the report is empty. *)
Theorem analizar_valores_faltantes_report (df : DataFrame) :
  (∀ r, r ∈ analizar_valores_faltantes df ↔
        ∃ c, c ∈ columns df ∧ (0 < isnull_sum c.2)%nat ∧
             columna r = c.1 ∧
             valores_faltantes r = isnull_sum c.2 ∧
             porcentaje r =
               Num.mul (Num.div (of_nat (isnull_sum c.2)) (of_nat (nrows df))) (of_Z 100)) ∧
  StronglySorted (λ a b, (valores_faltantes b ≤ valores_faltantes a)%nat)
    (analizar_valores_faltantes df) ∧
  (well_formed df →
     ∀ r, r ∈ analizar_valores_faltantes df →
          porcentaje r =
            Fin (Qc_of_Z (Z.of_nat (valores_faltantes r)) / Qc_of_Z (Z.of_nat (nrows df))
                 * Qc_of_Z 100)) ∧
  (well_formed df → nrows df = 0%nat → analizar_valores_faltantes df = []).
Proof.
  rewrite analizar_valores_faltantes_unfold.
  assert (Hmem : ∀ r,
    r ∈ sort_values_desc (λ r, of_nat (valores_faltantes r))
          (filter (λ r, (0 < valores_faltantes r)%nat)
             (fila_faltantes (nrows df) <$> columns df)) ↔
    ∃ c, c ∈ columns df ∧ (0 < isnull_sum c.2)%nat ∧ r = fila_faltantes (nrows df) c).
  { intros r. rewrite sort_values_desc_perm, list_elem_of_filter, list_elem_of_fmap.
    split.
    - intros (Hpos & c & -> & Hc). eauto.
    - intros (c & Hc & Hpos & ->). eauto. }
  split; [|split; [|split]].
  - intros r. rewrite Hmem. split.
    + intros (c & Hc & Hpos & ->). exists c. by repeat split.
    + intros (c & Hc & Hpos & H1 & H2 & H3). exists c. do 2 (split; [done|]).
      destruct r; simpl in *; by subst.
  - eapply StronglySorted_weaken; [|apply sort_values_desc_sorted].
    intros a b [H|H]; [done|]. by apply leb_of_nat in H.
  - intros Hwf r (c & Hc & Hpos & ->)%Hmem. simpl.
    apply porcentaje_fin.
    pose proof (proj1 (Forall_forall _ _) Hwf c Hc) as Hlen. simpl in Hlen.
    pose proof (isnull_sum_le c.2). lia.
  - intros Hwf Hrows.
    assert (filter (λ r, (0 < valores_faltantes r)%nat)
              (fila_faltantes (nrows df) <$> columns df) = []) as ->; [|done].
    apply elem_of_nil_inv. intros r [Hpos Hr]%list_elem_of_filter.
    apply list_elem_of_fmap in Hr as (c & -> & Hc). simpl in Hpos.
    pose proof (proj1 (Forall_forall _ _) Hwf c Hc) as Hlen. simpl in Hlen.
    pose proof (isnull_sum_le c.2). lia.
Qed.

Lemma analizar_valores_faltantes_report_witness :
  analizar_valores_faltantes ejemplo_vacio = [] ∧
  ∀ r, r ∈ analizar_valores_faltantes ejemplo_faltantes →
       porcentaje r = Fin (Qc_of_Z (Z.of_nat (valores_faltantes r)) / Qc_of_Z 4 * Qc_of_Z 100).
Proof.
  split.
  - apply (analizar_valores_faltantes_report ejemplo_vacio).
    + repeat constructor.
    + reflexivity.
  - apply (analizar_valores_faltantes_report ejemplo_faltantes).
    repeat constructor.
Defined.

Example analizar_valores_faltantes_ejemplo :
  analizar_valores_faltantes ejemplo_faltantes =
    [ {| columna := "region"; valores_faltantes := 3; porcentaje := of_Z 75 |};
      {| columna := "codigo_postal"; valores_faltantes := 2; porcentaje := of_Z 50 |} ].
Proof. compute_done. Qed.

(** ** Rounding *)

Ltac qc_to_q :=
  unfold Qcle, Qclt, Qcminus, Qcdiv, Qcplus, Qcopp, Qcmult, Qcinv, Q2Qc, Qc_of_Z in *;
  cbn [this] in *;
  repeat (rewrite !Qred_correct in * ).

Lemma rint_cases (y : Qc) :
  (rint y = Qfloor y ∧ (y - inject_Z (Qfloor y) <= 1 # 2)%Q) ∨
  (rint y = (Qfloor y + 1)%Z ∧ (1 # 2 <= y - inject_Z (Qfloor y))%Q).
Proof.
  unfold rint. cbv zeta. unfold Qccompare.
  destruct (Qcompare _ _) eqn:Hcmp.
  - apply Qeq_alt in Hcmp. revert Hcmp. qc_to_q. intros Hcmp.
    destruct (Z.even _); [left|right]; (split; [done|lra]).
  - apply Qlt_alt in Hcmp. revert Hcmp. qc_to_q. intros Hcmp.
    left. split; [done|lra].
  - apply Qgt_alt in Hcmp. revert Hcmp. qc_to_q. intros Hcmp.
    right. split; [done|lra].
Qed.

Lemma rint_close (y : Qc) :
  Qc_of_Z (rint y) - y ≤ Q2Qc (1 # 2) ∧ y - Qc_of_Z (rint y) ≤ Q2Qc (1 # 2).
Proof.
  pose proof (Qfloor_le y) as Hlo. pose proof (Qlt_floor y) as Hhi.
  rewrite inject_Z_plus in Hhi.
  destruct (rint_cases y) as [[-> H]|[-> H]];
    qc_to_q; rewrite ?inject_Z_plus; change (inject_Z 1) with 1%Q in *; lra.
Qed.

Lemma round2q_close (x : Qc) :
  x - Q2Qc (1 # 200) ≤ round2q x ∧ round2q x ≤ x + Q2Qc (1 # 200).
Proof.
  unfold round2q. destruct (rint_close (x * Qc_of_Z 100)) as [H1 H2].
  set (n := rint (x * Qc_of_Z 100)) in *. clearbody n.
  qc_to_q. 
  assert (/ inject_Z 100 == 1 # 100)%Q as -> by reflexivity.
  assert (inject_Z 100 == 100)%Q as Hc by reflexivity. rewrite Hc in *.
  split; lra.
Qed.

(** ** Groups *)

Lemma group_keys_elem_of ks k :
  k ∈ group_keys ks ↔ k ∈ ks ∧ key_present k = true.
Proof.
  unfold group_keys.
  rewrite sort_by_elem_of, elem_of_remove_dups, list_elem_of_filter. tauto.
Qed.

Lemma group_keys_NoDup ks : NoDup (group_keys ks).
Proof.
  unfold group_keys. rewrite sort_by_perm. apply NoDup_remove_dups.
Qed.

(** ** Sums of a column by group *)

Lemma col_sumas_num ks col v : num_col col = Ok v → col_sumas ks col = Ok (sumar_numeros ks v).
Proof. intros H. unfold col_sumas. by rewrite H. Qed.

Lemma text_col_textos (textos : list string) :
  text_col (CStr <$> textos) = Ok (Some <$> textos).
Proof.
  unfold text_col. induction textos as [|s l IH]; [done|].
  rewrite !fmap_cons. simpl. by rewrite IH.
Qed.

Lemma group_of_fmap {A B} (f : A → B) (ks : list key) (vs : list A) k :
  group_of ks (f <$> vs) k = f <$> group_of ks vs k.
Proof.
  unfold group_of. revert vs. induction ks as [|x ks IH]; intros [|v vs]; try done.
  rewrite fmap_cons. cbn [zip zip_with].
  destruct (decide (x = k)) as [->|Hx].
  - rewrite !filter_cons_True by done. rewrite !fmap_cons. simpl. f_equal. apply IH.
  - rewrite !filter_cons_False by done. apply IH.
Qed.

Lemma redondear_concatenar l : redondear (concatenar l) = concatenar l.
Proof.
  unfold concatenar. destruct (omap id l); [|done].
  simpl. f_equal. compute_done.
Qed.

Lemma col_sumas_inv ks col s :
  col_sumas ks col = Ok s →
  (∃ v, num_col col = Ok v ∧ s = sumar_numeros ks v) ∨
  (∃ t, text_col col = Ok t ∧ s = sumar_textos ks t).
Proof.
  unfold col_sumas. destruct (num_col col) as [v|e].
  - intros [= <-]. left. eauto.
  - destruct (text_col col) as [t|e']; simpl; [|done].
    intros [= <-]. right. eauto.
Qed.

(** ** Profitability by category: [analizar_rentabilidad_por_categoria] *)

Section rentabilidad.
Context (df : DataFrame) (categoria cv cg cc ids : list cell) (v g c : list num).
Hypothesis Hcat : getitem "categoria" df = Ok categoria.
Hypothesis Hcv : getitem "ventas" df = Ok cv.
Hypothesis Hcg : getitem "ganancia" df = Ok cg.
Hypothesis Hcc : getitem "cantidad" df = Ok cc.
Hypothesis Hids : getitem "id_pedido" df = Ok ids.
Hypothesis Hv : num_col cv = Ok v.
Hypothesis Hg : num_col cg = Ok g.
Hypothesis Hc : num_col cc = Ok c.

Lemma analizar_rentabilidad_por_categoria_ok :
  analizar_rentabilidad_por_categoria df =
    Ok (sort_values_desc r_ventas
          (con_ratios <$>
             (fila_agregada ((λ x, [x]) <$> categoria) v g
                (sumar_numeros ((λ x, [x]) <$> categoria) c) ids <$>
                group_keys ((λ x, [x]) <$> categoria)))).
Proof.
  unfold analizar_rentabilidad_por_categoria.
  rewrite Hcat, Hcv, Hcg, Hcc, Hids. simpl. rewrite Hv, Hg. simpl.
  by rewrite (col_sumas_num _ _ _ Hc).
Qed.

Lemma analizar_rentabilidad_por_categoria_rows filas r :
  analizar_rentabilidad_por_categoria df = Ok filas →
  r ∈ filas →
  ∃ k, k ∈ group_keys ((λ x, [x]) <$> categoria) ∧
       r = con_ratios (fila_agregada ((λ x, [x]) <$> categoria) v g
                         (sumar_numeros ((λ x, [x]) <$> categoria) c) ids k).
Proof.
  rewrite analizar_rentabilidad_por_categoria_ok. intros [= <-].
  rewrite sort_values_desc_perm.
  intros (a & -> & (k & -> & Hk)%list_elem_of_fmap)%list_elem_of_fmap. eauto.
Qed.

End rentabilidad.

Lemma round2_close x q :
  x = Fin q →
  ∃ m, round2 x = Fin m ∧ q - Q2Qc (1 # 200) ≤ m ∧ m ≤ q + Q2Qc (1 # 200).
Proof. intros ->. exists (round2q q). split; [done|]. apply round2q_close. Qed.

(** C5. On a frame with the expected columns the table is returned,
    ordered by decreasing total sales (a total that is not a number
    comes last); the margin of each row is the rounding to two decimals
    of 100 times its reported profit over its reported sales, hence
    within 0.005 of that quotient when it is finite. On the three-line
    frame with two Office lines (sales 100 and 200, profits 10 and 20),
    the Office row has sales 300, profit 30 and margin 10. *)
Theorem analizar_rentabilidad_por_categoria_sorted_margin :
  (∀ (df : DataFrame) (categoria cv cg cc ids : list cell) (v g c : list num),
     getitem "categoria" df = Ok categoria →
     getitem "ventas" df = Ok cv →
     getitem "ganancia" df = Ok cg →
     getitem "cantidad" df = Ok cc →
     getitem "id_pedido" df = Ok ids →
     num_col cv = Ok v →
     num_col cg = Ok g →
     num_col cc = Ok c →
     ∃ filas,
       analizar_rentabilidad_por_categoria df = Ok filas ∧
       StronglySorted
         (λ a b, r_ventas b = NaN ∨ Num.leb (r_ventas b) (r_ventas a) = true) filas ∧
       ∀ r, r ∈ filas →
         r_margen_porcentaje r =
           round2 (Num.mul (of_Z 100) (Num.div (r_ganancia r) (r_ventas r))) ∧
         ∀ q, Num.mul (of_Z 100) (Num.div (r_ganancia r) (r_ventas r)) = Fin q →
              ∃ m, r_margen_porcentaje r = Fin m ∧
                   q - Q2Qc (1 # 200) ≤ m ∧ m ≤ q + Q2Qc (1 # 200)) ∧
  analizar_rentabilidad_por_categoria ejemplo_office =
    Ok [ {| r_categoria := [CStr "Office"];
            r_ventas := of_Z 300;
            r_ganancia := of_Z 30;
            r_cantidad := SNumero (of_Z 5);
            r_id_pedido := 2;
            r_margen_porcentaje := of_Z 10;
            r_venta_promedio := of_Z 150 |};
         {| r_categoria := [CStr "Technology"];
            r_ventas := of_Z 50;
            r_ganancia := of_Z 20;
            r_cantidad := SNumero (of_Z 1);
            r_id_pedido := 1;
            r_margen_porcentaje := of_Z 40;
            r_venta_promedio := of_Z 50 |} ].
Proof.
  split; [|compute_done].
  intros df categoria cv cg cc ids v g c Hcat Hcv Hcg Hcc Hids Hv Hg Hc.
  pose proof (analizar_rentabilidad_por_categoria_ok df categoria cv cg cc ids v g c
                Hcat Hcv Hcg Hcc Hids Hv Hg Hc) as Hok.
  eexists. split; [exact Hok|]. split; [apply sort_values_desc_sorted|].
  intros r Hr.
  destruct (analizar_rentabilidad_por_categoria_rows df categoria cv cg cc ids v g c
              Hcat Hcv Hcg Hcc Hids Hv Hg Hc _ r Hok Hr) as (k & _ & ->).
  unfold con_ratios, fila_agregada; cbn [r_margen_porcentaje r_ganancia r_ventas r_categoria r_id_pedido r_venta_promedio a_ganancia a_ventas a_categoria a_id_pedido a_cantidad].
  rewrite (mul_comm (of_Z 100)). split; [done|].
  intros q Hq. by apply round2_close.
Qed.

Lemma analizar_rentabilidad_por_categoria_sorted_margin_witness :
  ∃ filas,
    analizar_rentabilidad_por_categoria ejemplo_redondeo = Ok filas ∧
    StronglySorted
      (λ a b, r_ventas b = NaN ∨ Num.leb (r_ventas b) (r_ventas a) = true) filas.
Proof.
  destruct (proj1 analizar_rentabilidad_por_categoria_sorted_margin ejemplo_redondeo
              [CStr "Office"] [CNum (dec 1004 1000)] [CNum (dec 336 1000)]
              [CNum (of_Z 1)] [CStr "A-1"]
              [dec 1004 1000] [dec 336 1000] [of_Z 1])
    as (filas & Hok & Hsorted & _); try reflexivity.
  exists filas. split; [exact Hok|exact Hsorted].
Defined.

(** C10. On a frame with the expected columns, every row of the table
    is the row of one category [k], and its two ratios are computed
    from the rounded sums: with [S] and [P] the sums of the sales and of
    the profits of the lines of [k] and [n] the number of distinct
    orders among them, the margin is [round2 (100 * (round2 P / round2
    S))] and the average sale is [round2 (round2 S / n)]. On a line
    with sales 1.004 and profit 0.336 the margin is 34, whereas the
    quotient of the sums as they are rounds to 33.47. *)
Theorem analizar_rentabilidad_por_categoria_rounded_inputs :
  (∀ (df : DataFrame) (categoria cv cg cc ids : list cell) (v g c : list num),
     getitem "categoria" df = Ok categoria →
     getitem "ventas" df = Ok cv →
     getitem "ganancia" df = Ok cg →
     getitem "cantidad" df = Ok cc →
     getitem "id_pedido" df = Ok ids →
     num_col cv = Ok v →
     num_col cg = Ok g →
     num_col cc = Ok c →
     ∃ filas,
       analizar_rentabilidad_por_categoria df = Ok filas ∧
       ∀ r, r ∈ filas →
         let ks := (λ x, [x]) <$> categoria in
         let S := nansum (group_of ks v (r_categoria r)) in
         let P := nansum (group_of ks g (r_categoria r)) in
         let n := nunique (group_of ks ids (r_categoria r)) in
         r_categoria r ∈ group_keys ks ∧
         r_ventas r = round2 S ∧
         r_ganancia r = round2 P ∧
         r_id_pedido r = n ∧
         r_margen_porcentaje r =
           round2 (Num.mul (of_Z 100) (Num.div (round2 P) (round2 S))) ∧
         r_venta_promedio r = round2 (Num.div (round2 S) (of_nat n))) ∧
  (λ filas : list rentabilidad, r_margen_porcentaje <$> filas)
      <$> analizar_rentabilidad_por_categoria ejemplo_redondeo
    = Ok [of_Z 34] ∧
  round2 (Num.mul (of_Z 100) (Num.div (dec 336 1000) (dec 1004 1000))) = dec 3347 100.
Proof.
  split; [|split; compute_done].
  intros df categoria cv cg cc ids v g c Hcat Hcv Hcg Hcc Hids Hv Hg Hc.
  pose proof (analizar_rentabilidad_por_categoria_ok df categoria cv cg cc ids v g c
                Hcat Hcv Hcg Hcc Hids Hv Hg Hc) as Hok.
  eexists. split; [exact Hok|].
  intros r Hr.
  destruct (analizar_rentabilidad_por_categoria_rows df categoria cv cg cc ids v g c
              Hcat Hcv Hcg Hcc Hids Hv Hg Hc _ r Hok Hr) as (k & Hk & ->).
  unfold con_ratios, fila_agregada; cbn [r_margen_porcentaje r_ganancia r_ventas r_categoria r_id_pedido r_venta_promedio a_ganancia a_ventas a_categoria a_id_pedido a_cantidad].
  rewrite (mul_comm (of_Z 100)). done.
Qed.

Lemma analizar_rentabilidad_por_categoria_rounded_inputs_witness :
  ∃ filas,
    analizar_rentabilidad_por_categoria ejemplo_office = Ok filas ∧
    ∀ r, r ∈ filas →
      r_margen_porcentaje r =
        round2 (Num.mul (of_Z 100)
                  (Num.div
                     (round2 (nansum (group_of ((λ x, [x]) <$>
                        [CStr "Office"; CStr "Technology"; CStr "Office"])
                        [of_Z 10; of_Z 20; of_Z 20] (r_categoria r))))
                     (round2 (nansum (group_of ((λ x, [x]) <$>
                        [CStr "Office"; CStr "Technology"; CStr "Office"])
                        [of_Z 100; of_Z 50; of_Z 200] (r_categoria r)))))).
Proof.
  destruct (proj1 analizar_rentabilidad_por_categoria_rounded_inputs ejemplo_office
              [CStr "Office"; CStr "Technology"; CStr "Office"]
              [CNum (of_Z 100); CNum (of_Z 50); CNum (of_Z 200)]
              [CNum (of_Z 10); CNum (of_Z 20); CNum (of_Z 20)]
              [CNum (of_Z 2); CNum (of_Z 1); CNum (of_Z 3)]
              [CStr "A-1"; CStr "A-2"; CStr "A-3"]
              [of_Z 100; of_Z 50; of_Z 200]
              [of_Z 10; of_Z 20; of_Z 20]
              [of_Z 2; of_Z 1; of_Z 3])
    as (filas & Hok & Hrows); try reflexivity.
  exists filas. split; [exact Hok|].
  intros r Hr. apply (Hrows r Hr).
Defined.

(** ** Top sub-categories: [crear_grafico_top_productos] *)

Lemma head_all {A} (n : Z) (l : list A) : (Z.of_nat (length l) < n)%Z → head n l = l.
Proof.
  intros Hn. unfold head. destruct (Z.leb_spec 0 n); [|lia].
  apply take_ge. lia.
Qed.

Lemma remove_dups_fmap_inj {A B} `{EqDecision A, EqDecision B} (f : A → B) (l : list A) :
  Inj (=) (=) f → remove_dups (f <$> l) = f <$> remove_dups l.
Proof.
  intros Hf. induction l as [|x l IH]; [done|].
  rewrite fmap_cons. simpl.
  destruct (decide_rel elem_of x l) as [Hx|Hx];
    destruct (decide_rel elem_of (f x) (f <$> l)) as [Hfx|Hfx].
  - done.
  - destruct Hfx. by apply list_elem_of_fmap_2.
  - destruct Hx. apply list_elem_of_fmap in Hfx as (y & Hy & Hin).
    by rewrite (Hf _ _ Hy).
  - by rewrite fmap_cons, IH.
Qed.

Lemma filter_key_present_singleton (l : list cell) :
  filter (λ k, key_present k = true) ((λ x, [x]) <$> l) =
    (λ x, [x]) <$> filter (λ x, isnull x = false) l.
Proof.
  induction l as [|x l IH]; [done|]. rewrite fmap_cons.
  destruct (isnull x) eqn:Hx.
  - rewrite !filter_cons_False; [done| |]; simpl; by rewrite Hx.
  - rewrite !filter_cons_True; [|done|simpl; by rewrite Hx].
    by rewrite fmap_cons, IH.
Qed.

Lemma group_keys_singleton_length (l : list cell) :
  length (group_keys ((λ x, [x]) <$> l)) = nunique l.
Proof.
  unfold group_keys, nunique.
  rewrite sort_by_length, filter_key_present_singleton, remove_dups_fmap_inj.
  - by rewrite length_fmap.
  - by intros x y [= ->].
Qed.

(** The group of a one-column key holds the values of the rows whose
    cell is that of the key. *)
Lemma group_of_singleton {A} (sub : list cell) (vs : list A) (c : cell) :
  group_of ((λ x, [x]) <$> sub) vs [c] = (filter (λ p, p.1 = c) (zip sub vs)).*2.
Proof.
  unfold group_of. revert vs. induction sub as [|x sub IH]; intros [|y vs]; try done.
  rewrite fmap_cons. cbn [zip zip_with].
  destruct (decide (x = c)) as [->|Hx].
  - rewrite !filter_cons_True by done. rewrite !fmap_cons. f_equal. apply IH.
  - rewrite !filter_cons_False; [apply IH|done|]. simpl. congruence.
Qed.

Lemma group_keys_singleton_elem_of (sub : list cell) (k : list cell) :
  k ∈ group_keys ((λ x, [x]) <$> sub) ↔ ∃ c, k = [c] ∧ c ∈ sub ∧ isnull c = false.
Proof.
  rewrite group_keys_elem_of, list_elem_of_fmap. split.
  - intros [(c & -> & Hc) Hp]. exists c. repeat split; [done|].
    simpl in Hp. by destruct (isnull c).
  - intros (c & -> & Hc & Hn). split; [by exists c|]. simpl. by rewrite Hn.
Qed.

(** C7. When [top_n] exceeds the number of distinct sub-categories of
    the frame, the aggregation does not raise and returns every
    sub-category of the frame once, and nothing else, each with the sum
    of the sales of its rows, ordered by decreasing sales (a sum that
    is not a number comes last). The chart is built from that table; on
    a frame without any sub-category the table is empty and it is the
    charting library that raises. *)
Theorem top_productos_all_groups
    (df : DataFrame) (sub cv : list cell) (v : list num) (top_n : Z) :
  getitem "subcategoria" df = Ok sub →
  getitem "ventas" df = Ok cv →
  num_col cv = Ok v →
  (Z.of_nat (nunique sub) < top_n)%Z →
  ∃ t,
    top_productos top_n df = Ok t ∧
    length t = nunique sub ∧
    NoDup t.*1 ∧
    (∀ k, k ∈ t.*1 ↔ ∃ c, k = [c] ∧ c ∈ sub ∧ isnull c = false) ∧
    (∀ c s, ([c], s) ∈ t → s = nansum (filter (λ p, p.1 = c) (zip sub v)).*2) ∧
    StronglySorted (λ a b, b.2 = NaN ∨ Num.leb b.2 a.2 = true) t ∧
    (t ≠ [] →
     crear_grafico_top_productos df top_n =
       Ok {| bar_x := t.*2;
             bar_y := t.*1;
             bar_title := "Top " +:+ pretty top_n +:+ " Subcategorías por Ventas" |}) ∧
    (t = [] → crear_grafico_top_productos df top_n = Raise ValueError).
Proof.
  intros Hsub Hcv Hv Hn.
  set (ks := (λ c, [c]) <$> sub) in *.
  set (sumas := (λ k, (k, nansum (group_of ks v k))) <$> group_keys ks).
  assert (length sumas = nunique sub) as Hlen.
  { unfold sumas, ks. by rewrite length_fmap, group_keys_singleton_length. }
  assert (sumas.*1 = group_keys ks) as Hkeys.
  { unfold sumas. rewrite <- list_fmap_compose. apply list_fmap_id. }
  assert (top_productos top_n df = Ok (sort_values_desc snd sumas)) as Htop.
  { unfold top_productos. rewrite Hsub, Hcv. simpl. rewrite Hv. simpl.
    fold ks. fold sumas. rewrite head_all; [done|].
    unfold sort_values_desc. rewrite sort_by_length. lia. }
  exists (sort_values_desc snd sumas). split; [done|].
  split; [|split; [|split; [|split; [|split; [|split]]]]].
  - unfold sort_values_desc. by rewrite sort_by_length.
  - rewrite sort_values_desc_perm, Hkeys. apply group_keys_NoDup.
  - intros k. rewrite sort_values_desc_perm, Hkeys.
    apply group_keys_singleton_elem_of.
  - intros c s. rewrite sort_values_desc_perm. unfold sumas.
    intros (k' & [= <- ->] & _)%list_elem_of_fmap.
    unfold ks. by rewrite group_of_singleton.
  - apply sort_values_desc_sorted.
  - intros Hne. unfold crear_grafico_top_productos. rewrite Htop. simpl.
    by destruct (sort_values_desc snd sumas).
  - intros Hnil. unfold crear_grafico_top_productos. rewrite Htop. simpl.
    by rewrite Hnil.
Qed.

Lemma top_productos_all_groups_witness :
  ∃ t,
    top_productos 10 ejemplo_subcategorias = Ok t ∧
    length t = 3%nat ∧
    [CStr "Chairs"] ∈ t.*1 ∧
    Forall (λ p, p.1 = [CStr "Chairs"] → p.2 = of_Z 250) t ∧
    ∃ chart, crear_grafico_top_productos ejemplo_subcategorias 10 = Ok chart.
Proof.
  destruct (top_productos_all_groups ejemplo_subcategorias
              [CStr "Chairs"; CStr "Phones"; CStr "Chairs"; CStr "Paper"]
              [CNum (of_Z 100); CNum (of_Z 500); CNum (of_Z 150); CNum (of_Z 20)]
              [of_Z 100; of_Z 500; of_Z 150; of_Z 20] 10)
    as (t & Ht & Hlen & _ & Hkeys & Hsum & _ & Hchart & _);
    [reflexivity|reflexivity|reflexivity|vm_compute; reflexivity|].
  exists t. split; [exact Ht|]. split; [exact Hlen|]. split; [|split].
  - apply Hkeys. exists (CStr "Chairs"). split; [reflexivity|].
    split; [apply list_elem_of_here|reflexivity].
  - apply Forall_forall. intros [k s] Hin Hk. simpl in Hk. subst k. simpl.
    rewrite (Hsum _ _ Hin). compute_done.
  - eexists. apply Hchart. intros ->. discriminate Hlen.
Defined.

(** A frame of two lines without sub-category: the aggregation is the
    empty table and the chart is refused. *)
Example crear_grafico_top_productos_sin_grupos :
  let df := mkDF 2 [ ("subcategoria", [CNull; CNull]);
                     ("ventas", [CNum (of_Z 100); CNum (of_Z 50)]) ]%string in
  top_productos 10 df = Ok [] ∧
  crear_grafico_top_productos df 10 = Raise ValueError.
Proof. split; reflexivity. Qed.

Example top_productos_ejemplo :
  top_productos 10 ejemplo_subcategorias =
    Ok [ ([CStr "Phones"], of_Z 500); ([CStr "Chairs"], of_Z 250); ([CStr "Paper"], of_Z 20) ] ∧
  top_productos 2 ejemplo_subcategorias =
    Ok [ ([CStr "Phones"], of_Z 500); ([CStr "Chairs"], of_Z 250) ].
Proof. split; compute_done. Qed.

(** ** Customer metrics: [calcular_metricas_cliente] *)

Lemma filter_unique_lookup {A} (P : A → Prop) `{∀ x, Decision (P x)} (l : list A) i x :
  l !! i = Some x → P x →
  (∀ j y, l !! j = Some y → P y → j = i) →
  filter P l = [x].
Proof.
  revert i. induction l as [|a l IH]; intros i Hi HP Huniq; [done|].
  destruct i as [|i]; simpl in Hi.
  - injection Hi as ->. rewrite filter_cons_True by done. f_equal.
    apply elem_of_nil_inv. intros y [HPy Hy]%list_elem_of_filter.
    apply list_elem_of_lookup in Hy as [j Hj].
    by specialize (Huniq (S j) y Hj HPy).
  - rewrite filter_cons_False.
    + apply (IH i Hi HP). intros j y Hj HPy.
      specialize (Huniq (S j) y Hj HPy). congruence.
    + intros HPa. by specialize (Huniq 0%nat a eq_refl HPa).
Qed.

(** The group of a key that occurs in exactly one row holds the value
    of that row. *)
Lemma group_of_unique {A} (ks : list key) (vs : list A) k i x :
  ks !! i = Some k → vs !! i = Some x →
  (∀ j, ks !! j = Some k → j = i) →
  group_of ks vs k = [x].
Proof.
  intros Hk Hx Huniq. unfold group_of.
  rewrite (filter_unique_lookup _ (zip ks vs) i (k, x)); [done| |done|].
  - by apply lookup_zip_Some.
  - intros j [k' y] [Hkj _]%lookup_zip_Some Hk'. simpl in Hk'. subst k'.
    by apply Huniq.
Qed.

Lemma mean_singleton x : Num.mean [x] = x.
Proof.
  destruct x as [q| | |]; try reflexivity.
  unfold Num.mean, nansum, Num.count. simpl. unfold Num.div, of_nat, of_Z.
  destruct (decide (Qc_of_Z (Z.of_nat 1) = 0)) as [Hz|_].
  - rewrite <- Z2Qc_inj_0 in Hz. by apply Z2Qc_inj in Hz.
  - f_equal. change (Z.of_nat 1) with 1%Z. rewrite Z2Qc_inj_1, Qcplus_0_l.
    apply Qcdiv_right_id.
Qed.

Lemma dias_entre_single d :
  dias_entre (date_max [d]) (date_min [d]) = match d with Some _ => of_Z 0 | None => NaN end.
Proof.
  destruct d as [t|]; simpl; [|done].
  unfold Calendar.days_between. by rewrite Z.sub_diag.
Qed.

Lemma groupby_par_ok a b df ca cb :
  getitem a df = Ok ca → getitem b df = Ok cb →
  groupby_par a b df = Ok (zip_with (λ x y, [x; y]) ca cb).
Proof. intros Ha Hb. unfold groupby_par. by rewrite Ha, Hb. Qed.

Lemma calcular_metricas_cliente_ok df idc nom cv cg cc cf v g c f :
  getitem "id_cliente" df = Ok idc →
  getitem "nombre_cliente" df = Ok nom →
  getitem "ventas" df = Ok cv →
  getitem "ganancia" df = Ok cg →
  getitem "cantidad" df = Ok cc →
  getitem "fecha_pedido" df = Ok cf →
  num_col cv = Ok v →
  num_col cg = Ok g →
  num_col cc = Ok c →
  date_col cf = Ok f →
  calcular_metricas_cliente df =
    Ok (sort_values_desc ventas_sum
          (fila_cliente (zip_with (λ a b, [a; b]) idc nom) v
             (sumar_numeros (zip_with (λ a b, [a; b]) idc nom) g)
             (sumar_numeros (zip_with (λ a b, [a; b]) idc nom) c) f
             <$> group_keys (zip_with (λ a b, [a; b]) idc nom))).
Proof.
  intros H1 H2 H3 H4 H5 H6 H7 H8 H9 H10. unfold calcular_metricas_cliente.
  rewrite (groupby_par_ok _ _ _ _ _ H1 H2). simpl.
  rewrite H3, H4, H5, H6. simpl. rewrite H7. simpl.
  rewrite (col_sumas_num _ _ _ H8). simpl. rewrite (col_sumas_num _ _ _ H9). simpl.
  by rewrite H10.
Qed.

(** C8, as the code has it. On a frame with the six columns the
    function reads, numeric sales, profit and quantity and converted
    order dates, take a customer whose identifier occurs in exactly one
    row (identifier and name present). [calcular_metricas_cliente] does
    not raise and its table has exactly one row for that customer. The
    mean of its sales is the sales value of that row rounded to two
    decimals: a whole number of hundredths at most half a hundredth
    away from it (the value itself when it is not finite). Its tenure
    is 0 days (not a number when the row has no order date). *)
Theorem calcular_metricas_cliente_single_order
    (df : DataFrame) (idc nom cv cg cc cf : list cell)
    (v g c : list num) (f : list (option Z))
    (i : nat) (cid nombre : cell) (x : num) (d : option Z) :
  getitem "id_cliente" df = Ok idc →
  getitem "nombre_cliente" df = Ok nom →
  getitem "ventas" df = Ok cv →
  getitem "ganancia" df = Ok cg →
  getitem "cantidad" df = Ok cc →
  getitem "fecha_pedido" df = Ok cf →
  num_col cv = Ok v →
  num_col cg = Ok g →
  num_col cc = Ok c →
  date_col cf = Ok f →
  idc !! i = Some cid →
  (∀ j, idc !! j = Some cid → j = i) →
  isnull cid = false →
  nom !! i = Some nombre →
  isnull nombre = false →
  v !! i = Some x →
  f !! i = Some d →
  ∃ filas r,
    calcular_metricas_cliente df = Ok filas ∧
    r ∈ filas ∧
    m_cliente r = [cid; nombre] ∧
    (∀ r', r' ∈ filas → m_cliente r' !! 0%nat = Some cid → r' = r) ∧
    match x with
    | Fin q =>
        ∃ n : Z,
          ventas_mean r = Fin (Qc_of_Z n / Qc_of_Z 100) ∧
          q - Q2Qc (1 # 200) ≤ Qc_of_Z n / Qc_of_Z 100 ∧
          Qc_of_Z n / Qc_of_Z 100 ≤ q + Q2Qc (1 # 200)
    | _ => ventas_mean r = x
    end ∧
    dias_como_cliente r = match d with Some _ => of_Z 0 | None => NaN end.
Proof.
  intros Hidc Hnom Hcv Hcg Hcc Hcf Hv Hg Hc Hf Hi Huniq Hcid Hni Hnombre Hx Hd.
  set (ks := zip_with (λ a b, [a; b]) idc nom).
  pose proof (calcular_metricas_cliente_ok df idc nom cv cg cc cf v g c f
                Hidc Hnom Hcv Hcg Hcc Hcf Hv Hg Hc Hf) as Hok.
  fold ks in Hok.
  set (sg := sumar_numeros ks g) in *. set (sc := sumar_numeros ks c) in *.
  assert (ks !! i = Some [cid; nombre]) as Hki.
  { unfold ks. by rewrite lookup_zip_with, Hi, Hni. }
  assert (∀ j k, ks !! j = Some k → k !! 0%nat = Some cid → j = i) as Hkuniq.
  { intros j k Hj Hk. unfold ks in Hj. rewrite lookup_zip_with in Hj.
    destruct (idc !! j) as [a|] eqn:Ha; simpl in Hj; [|done].
    destruct (nom !! j) as [b|]; simpl in Hj; [|done].
    injection Hj as <-. simpl in Hk. injection Hk as ->. by apply Huniq. }
  exists (sort_values_desc ventas_sum (fila_cliente ks v sg sc f <$> group_keys ks)),
         (fila_cliente ks v sg sc f [cid; nombre]).
  split; [done|]. split; [|split; [done|split; [|split]]].
  - rewrite sort_values_desc_perm. apply list_elem_of_fmap_2, group_keys_elem_of.
    split; [by eapply list_elem_of_lookup_2|].
    simpl. by rewrite Hcid, Hnombre.
  - intros r'. rewrite sort_values_desc_perm.
    intros (k & -> & Hk)%list_elem_of_fmap Hhead. simpl in Hhead.
    apply group_keys_elem_of in Hk as [Hk _].
    apply list_elem_of_lookup in Hk as [j Hj].
    assert (j = i) as -> by (by eapply Hkuniq). congruence.
  - unfold fila_cliente; cbn [ventas_mean].
    rewrite (group_of_unique ks v _ i x); [|done|done|].
    + rewrite mean_singleton. destruct x as [q| | |]; try done.
      exists (rint (q * Qc_of_Z 100)). split; [done|]. apply round2q_close.
    + intros j Hj. by eapply Hkuniq.
  - unfold fila_cliente; cbn [dias_como_cliente].
    rewrite (group_of_unique ks f _ i d); [apply dias_entre_single|done|done|].
    intros j Hj. by eapply Hkuniq.
Qed.

(** Only one number of hundredths lies within half a hundredth of
    957.5775. *)
Lemma hundredths_of_957_5775 (n : Z) :
  Q2Qc (9575775 # 10000) - Q2Qc (1 # 200) ≤ Qc_of_Z n / Qc_of_Z 100 →
  Qc_of_Z n / Qc_of_Z 100 ≤ Q2Qc (9575775 # 10000) + Q2Qc (1 # 200) →
  n = 95758%Z.
Proof.
  qc_to_q.
  assert (/ inject_Z 100 == 1 # 100)%Q as -> by reflexivity.
  intros H1 H2.
  assert (inject_Z 95757 < inject_Z n)%Q as Hlo.
  { change (inject_Z 95757) with (95757 # 1)%Q. lra. }
  assert (inject_Z n < inject_Z 95759)%Q as Hhi.
  { change (inject_Z 95759) with (95759 # 1)%Q. lra. }
  rewrite <- Zlt_Qlt in Hlo, Hhi. lia.
Qed.

Lemma calcular_metricas_cliente_single_order_witness :
  ∃ filas r,
    calcular_metricas_cliente ejemplo_clientes = Ok filas ∧
    r ∈ filas ∧
    m_cliente r = [CStr "SO-20335"; CStr "Sean O'Donnell"] ∧
    ventas_mean r = Fin (Qc_of_Z 95758 / Qc_of_Z 100) ∧
    dias_como_cliente r = of_Z 0.
Proof.
  destruct (calcular_metricas_cliente_single_order ejemplo_clientes
              [CStr "CG-12520"; CStr "SO-20335"; CStr "CG-12520"]
              [CStr "Claire Gute"; CStr "Sean O'Donnell"; CStr "Claire Gute"]
              [CNum (of_Z 1000); CNum (dec 9575775 10000); CNum (of_Z 2000)]
              [CNum (of_Z 10); CNum (of_Z (-383)); CNum (of_Z 20)]
              [CNum (of_Z 2); CNum (of_Z 5); CNum (of_Z 3)]
              [CDate jun_12_2016; CDate nov_08_2016; CDate nov_11_2016]
              [of_Z 1000; dec 9575775 10000; of_Z 2000]
              [of_Z 10; of_Z (-383); of_Z 20]
              [of_Z 2; of_Z 5; of_Z 3]
              [Some jun_12_2016; Some nov_08_2016; Some nov_11_2016]
              1%nat (CStr "SO-20335") (CStr "Sean O'Donnell")
              (dec 9575775 10000) (Some nov_08_2016))
    as (filas & r & Hok & Hr & Hkey & _ & (n & Hmean & Hlo & Hhi) & Hdias);
    try reflexivity.
  { intros [|[|[|j]]] Hj; simpl in Hj; try reflexivity; discriminate Hj. }
  rewrite (hundredths_of_957_5775 n Hlo Hhi) in Hmean.
  exists filas, r. repeat split; assumption.
Defined.

(** C8, as stated, fails: the customer of the single line with sales
    957.5775 gets the mean 957.58. *)
Lemma calcular_metricas_cliente_mean_is_rounded :
  (λ filas : list metricas, (λ r, (m_cliente r, ventas_mean r, dias_como_cliente r)) <$> filas)
      <$> calcular_metricas_cliente ejemplo_clientes
    = Ok [ ([CStr "CG-12520"; CStr "Claire Gute"], of_Z 1500, of_Z 152);
           ([CStr "SO-20335"; CStr "Sean O'Donnell"], dec 95758 100, of_Z 0) ] ∧
  dec 95758 100 ≠ dec 9575775 10000.
Proof. split; compute_done. Qed.

(** * Further properties *)

(** ** [cargar_datos]: the data under the translated names *)

Section rename_data.
Context (mapper : gmap string string).
Hypothesis mapper_fresh : ∀ s t, mapper !! s = Some t → mapper !! t = None.
Hypothesis mapper_inj : ∀ s1 s2 t, mapper !! s1 = Some t → mapper !! s2 = Some t → s1 = s2.

Lemma rename_idempotent df : rename mapper (rename mapper df) = rename mapper df.
Proof.
  unfold rename. simpl. f_equal. rewrite <- list_fmap_compose.
  apply list_fmap_ext. intros i [n c] _. simpl. f_equal.
  destruct (mapper !! n) as [t|] eqn:Hn; simpl.
  - by rewrite (mapper_fresh _ _ Hn).
  - by rewrite Hn.
Qed.

Lemma rename_lookup_col src tgt cs :
  mapper !! src = Some tgt → tgt ∉ cs.*1 →
  lookup_col tgt ((λ c : string * list cell, (default c.1 (mapper !! c.1), c.2)) <$> cs)
    = lookup_col src cs.
Proof.
  intros Hsrc. induction cs as [|[n c] cs IH]; intros Hfresh; [done|].
  rewrite fmap_cons in *. apply not_elem_of_cons in Hfresh as [Hne Hfresh].
  cbn [lookup_col fst snd] in *. rewrite IH by done.
  destruct (decide (n = src)) as [->|Hn].
  - rewrite Hsrc. simpl. by rewrite decide_True.
  - destruct (mapper !! n) as [t|] eqn:Hlook; simpl.
    + rewrite decide_False; [done|]. intros ->. apply Hn. by eapply mapper_inj.
    + by rewrite decide_False.
Qed.

End rename_data.

(** X1. [cargar_datos] does not check the header: the column of the
    translated name holds the cells of the column of the source name,
    and when the source column is absent the translated one is absent
    too, so that its first use raises [KeyError]. *)
Theorem cargar_datos_translated_column
    (read_csv : string → result DataFrame) (ruta : string) (crudo : DataFrame)
    (src tgt : string) :
  read_csv ruta = Ok crudo →
  columnas_traducidas !! src = Some tgt →
  tgt ∉ column_names crudo →
  ∃ df,
    cargar_datos read_csv ruta = Ok df ∧
    (∀ c, getitem src crudo = Ok c → getitem tgt df = Ok c) ∧
    (getitem src crudo = Raise (KeyError src) → getitem tgt df = Raise (KeyError tgt)).
Proof.
  intros Hread Hsrc Hfresh. exists (rename columnas_traducidas crudo).
  unfold cargar_datos. rewrite Hread. split; [reflexivity|].
  assert (lookup_col tgt (columns (rename columnas_traducidas crudo))
            = lookup_col src (columns crudo)) as Hlook.
  { apply rename_lookup_col; [apply columnas_traducidas_inj|done|done]. }
  unfold getitem. rewrite Hlook.
  destruct (lookup_col src (columns crudo)); split; congruence.
Qed.

Lemma cargar_datos_translated_column_witness :
  ∃ df,
    cargar_datos ejemplo_read_csv "superstore.csv" = Ok df ∧
    getitem "ganancia" df = Raise (KeyError "ganancia").
Proof.
  destruct (cargar_datos_translated_column ejemplo_read_csv "superstore.csv"
              ejemplo_crudo "Profit" "ganancia")
    as (df & Hdf & _ & Hmissing);
    [reflexivity|vm_compute; reflexivity|compute_done|].
  exists df. split; [exact Hdf|]. apply Hmissing. reflexivity.
Defined.

(** X2. Loading a file whose header is already translated changes
    nothing: if [read_csv] yields the frame that an earlier call of
    [cargar_datos] returned, [cargar_datos] returns that same frame. *)
Theorem cargar_datos_reload
    (read_csv : string → result DataFrame) (ruta ruta' : string) (df : DataFrame) :
  cargar_datos read_csv ruta = Ok df →
  read_csv ruta' = Ok df →
  cargar_datos read_csv ruta' = Ok df.
Proof.
  unfold cargar_datos. intros H1 H2. rewrite H2.
  destruct (read_csv ruta) as [crudo|e]; [|done].
  injection H1 as <-. cbn [mbind result_bind]. f_equal.
  apply rename_idempotent, columnas_traducidas_targets_fresh.
Qed.

Lemma cargar_datos_reload_witness :
  cargar_datos ejemplo_read_csv_traducido "traducido.csv" = Ok ejemplo_cargado.
Proof.
  apply (cargar_datos_reload ejemplo_read_csv_traducido "superstore.csv");
    reflexivity.
Defined.

(** ** [procesar_fechas]: invariants, repetition *)

Section procesar_fechas_run.
Context (parse_date : string → option Z) (epoch_date : num → option Z).

Lemma procesar_fechas_run df pedido envio dp de ds es :
  getitem "fecha_pedido" df = Ok pedido →
  to_datetime parse_date epoch_date pedido = Ok dp →
  getitem "fecha_envio" df = Ok envio →
  to_datetime parse_date epoch_date envio = Ok de →
  date_col dp = Ok ds →
  date_col de = Ok es →
  procesar_fechas parse_date epoch_date df =
    (Ok (frame_enriquecido df dp de ds es), frame_enriquecido df dp de ds es).
Proof.
  intros Hp Hdp He Hde Hds Hes.
  unfold procesar_fechas.
  unfold mbind, frame_op_bind, get_col, set_col, lift, this_frame.
  unfold dt_year, dt_month, dt_day_name, dt_quarter.
  rewrite Hp, Hdp. frame_lookup. rewrite He, Hde. frame_lookup.
  rewrite !(dt_field_ok _ _ _ Hds). frame_lookup.
  rewrite !(dt_field_ok _ _ _ Hds). frame_lookup.
  rewrite !(dt_field_ok _ _ _ Hds). frame_lookup.
  rewrite !(dt_field_ok _ _ _ Hds). frame_lookup.
  by rewrite (date_sub_ok _ _ _ _ Hes Hds).
Qed.

(** A converted column is left as it is by a second conversion. *)
Lemma to_datetime_cell_fixed c d :
  to_datetime_cell parse_date epoch_date c = Ok d →
  to_datetime_cell parse_date epoch_date d = Ok d.
Proof.
  destruct c as [s|x|t|]; simpl.
  - destruct (parse_date s); intros [= <-]; done.
  - destruct x as [q| | |]; try destruct (epoch_date _); intros [= <-]; done.
  - by intros [= <-].
  - by intros [= <-].
Qed.

Lemma to_datetime_fixed c d :
  to_datetime parse_date epoch_date c = Ok d →
  to_datetime parse_date epoch_date d = Ok d.
Proof.
  unfold to_datetime. revert d. induction c as [|x c IH]; intros d; simpl.
  - by intros [= <-].
  - destruct (to_datetime_cell _ _ x) as [y|] eqn:Hy; simpl; [|done].
    destruct (traverse _ c) as [ys|] eqn:Hys; simpl; [|done].
    intros [= <-]. simpl. rewrite (to_datetime_cell_fixed _ _ Hy). simpl.
    by rewrite (IH ys).
Qed.

End procesar_fechas_run.

Lemma assign_col_same name v cs :
  lookup_col name cs = Some v → assign_col name v cs = cs.
Proof.
  induction cs as [|[n c] cs IH]; simpl; [done|].
  destruct (decide (n = name)) as [->|Hn].
  - by intros [= ->].
  - intros H. by rewrite IH.
Qed.

Lemma setitem_same name v df : getitem name df = Ok v → setitem name v df = df.
Proof.
  unfold getitem, setitem. destruct (lookup_col name (columns df)) eqn:H; [|done].
  intros [= ->]. rewrite assign_col_same by done. by destruct df.
Qed.

Lemma getitem_length name df c :
  well_formed df → getitem name df = Ok c → length c = nrows df.
Proof.
  unfold well_formed, getitem. intros Hwf.
  induction Hwf as [|[n c'] cs Hc _ IH]; simpl; [done|].
  destruct (decide (n = name)); [by intros [= <-]|exact IH].
Qed.

Lemma well_formed_setitem name v df :
  well_formed df → length v = nrows df → well_formed (setitem name v df).
Proof.
  unfold well_formed, setitem. simpl. intros Hwf Hv.
  induction Hwf as [|[n c] cs Hc Hcs IH]; simpl.
  - by repeat constructor.
  - destruct (decide (n = name)); constructor; done.
Qed.

Lemma date_col_lookup_null c ds i :
  date_col c = Ok ds → c !! i = Some CNull → ds !! i = Some None.
Proof.
  intros H Hi. destruct (traverse_ok_lookup _ _ _ _ _ H Hi) as (y & Hy & Hds).
  simpl in Hy. by injection Hy as <-.
Qed.

Lemma frame_enriquecido_fixed F dp de ds es :
  getitem "fecha_pedido" F = Ok dp →
  getitem "fecha_envio" F = Ok de →
  getitem "año" F = Ok (dt_cell (λ t, CNum (of_Z (Calendar.year t))) <$> ds) →
  getitem "mes" F = Ok (dt_cell (λ t, CNum (of_Z (Calendar.month t))) <$> ds) →
  getitem "dia_semana" F = Ok (dt_cell (λ t, CStr (Calendar.day_name t)) <$> ds) →
  getitem "trimestre" F = Ok (dt_cell (λ t, CNum (of_Z (Calendar.quarter t))) <$> ds) →
  getitem "dias_envio" F =
    Ok (td_days (zip_with (λ x y, match x, y with
                                  | Some s, Some t => Some (s - t)%Z
                                  | _, _ => None
                                  end) es ds)) →
  frame_enriquecido F dp de ds es = F.
Proof.
  intros H1 H2 H3 H4 H5 H6 H7. unfold frame_enriquecido.
  rewrite (setitem_same "fecha_pedido") by done.
  rewrite (setitem_same "fecha_envio") by done.
  rewrite (setitem_same "año") by done.
  rewrite (setitem_same "mes") by done.
  rewrite (setitem_same "dia_semana") by done.
  rewrite (setitem_same "trimestre") by done.
  by rewrite (setitem_same "dias_envio").
Qed.

Section procesar_fechas_inv.
Context (parse_date : string → option Z) (epoch_date : num → option Z).

(** A successful run went through every step. *)
Lemma procesar_fechas_inv df df' s :
  procesar_fechas parse_date epoch_date df = (Ok df', s) →
  ∃ pedido envio dp de ds es,
    getitem "fecha_pedido" df = Ok pedido ∧
    to_datetime parse_date epoch_date pedido = Ok dp ∧
    getitem "fecha_envio" df = Ok envio ∧
    to_datetime parse_date epoch_date envio = Ok de ∧
    date_col dp = Ok ds ∧
    date_col de = Ok es ∧
    df' = frame_enriquecido df dp de ds es ∧
    s = df'.
Proof.
  intros Hrun. pose proof Hrun as H.
  unfold procesar_fechas in H.
  unfold mbind, frame_op_bind, get_col, set_col, lift, this_frame in H.
  destruct (getitem "fecha_pedido" df) as [pedido|] eqn:Hp; [|done].
  destruct (to_datetime _ _ pedido) as [dp|] eqn:Hdp; [|done].
  revert H. frame_lookup.
  destruct (getitem "fecha_envio" df) as [envio|] eqn:He; [|done].
  destruct (to_datetime _ _ envio) as [de|] eqn:Hde; [|done].
  intros _.
  destruct (to_datetime_is_date_col _ _ _ _ Hdp) as [ds Hds].
  destruct (to_datetime_is_date_col _ _ _ _ Hde) as [es Hes].
  rewrite (procesar_fechas_run _ _ df pedido envio dp de ds es) in Hrun by done.
  injection Hrun as <- <-. by exists pedido, envio, dp, de, ds, es.
Qed.

End procesar_fechas_inv.

(** X4. Running [procesar_fechas] on a frame it has already enriched
    succeeds and leaves the frame as it is. *)
Theorem procesar_fechas_twice
    (parse_date : string → option Z) (epoch_date : num → option Z)
    (df df' : DataFrame) :
  procesar_fechas parse_date epoch_date df = (Ok df', df') →
  procesar_fechas parse_date epoch_date df' = (Ok df', df').
Proof.
  intros (pedido & envio & dp & de & ds & es & Hp & Hdp & He & Hde & Hds & Hes & -> & _)
    %procesar_fechas_inv.
  rewrite (procesar_fechas_run _ _ _ dp de dp de ds es);
    try (unfold frame_enriquecido; frame_lookup; done);
    try (by eapply to_datetime_fixed); try done.
  rewrite frame_enriquecido_fixed; [done|..];
    unfold frame_enriquecido; frame_lookup; done.
Qed.

Lemma procesar_fechas_twice_witness :
  ∃ df',
    procesar_fechas ejemplo_parse_date ejemplo_epoch_date ejemplo_fechas = (Ok df', df') ∧
    procesar_fechas ejemplo_parse_date ejemplo_epoch_date df' = (Ok df', df').
Proof.
  eexists. split; [reflexivity|].
  apply (procesar_fechas_twice _ _ ejemplo_fechas). reflexivity.
Defined.

(** X5. A successful run keeps the shape of the frame: the number of
    rows is unchanged, every column still has one cell per row, and
    every column other than the two date columns and the five derived
    ones is returned as it was. *)
Theorem procesar_fechas_preserves
    (parse_date : string → option Z) (epoch_date : num → option Z)
    (df df' : DataFrame) :
  well_formed df →
  procesar_fechas parse_date epoch_date df = (Ok df', df') →
  nrows df' = nrows df ∧
  well_formed df' ∧
  ∀ name,
    name ∉ ["fecha_pedido"; "fecha_envio"; "año"; "mes"; "dia_semana";
            "trimestre"; "dias_envio"]%string →
    getitem name df' = getitem name df.
Proof.
  intros Hwf
    (pedido & envio & dp & de & ds & es & Hp & Hdp & He & Hde & Hds & Hes & -> & _)
    %procesar_fechas_inv.
  assert (length dp = nrows df) as Hldp.
  { rewrite (traverse_ok_length _ _ _ Hdp). by eapply getitem_length. }
  assert (length de = nrows df) as Hlde.
  { rewrite (traverse_ok_length _ _ _ Hde). by eapply getitem_length. }
  assert (length ds = nrows df) as Hlds.
  { by rewrite (traverse_ok_length _ _ _ Hds). }
  assert (length es = nrows df) as Hles.
  { by rewrite (traverse_ok_length _ _ _ Hes). }
  split; [done|]. split.
  - unfold frame_enriquecido.
    repeat (apply well_formed_setitem;
            [|unfold td_days; rewrite ?length_fmap, ?length_zip_with; simpl; lia]).
    done.
  - intros name Hname. unfold frame_enriquecido.
    repeat (rewrite getitem_setitem_ne;
            [|intros <-; apply Hname; set_solver]).
    done.
Qed.

Lemma procesar_fechas_preserves_witness :
  ∃ df',
    procesar_fechas ejemplo_parse_date ejemplo_epoch_date ejemplo_fechas = (Ok df', df') ∧
    nrows df' = 2%nat ∧
    well_formed df' ∧
    getitem "ventas" df' = getitem "ventas" ejemplo_fechas.
Proof.
  eexists. split; [reflexivity|].
  destruct (procesar_fechas_preserves ejemplo_parse_date ejemplo_epoch_date
              ejemplo_fechas _ ltac:(repeat constructor) eq_refl)
    as (Hrows & Hwf & Hcols).
  split; [exact Hrows|]. split; [exact Hwf|].
  apply Hcols. compute_done.
Defined.

(** X6. Missing dates do not make the run fail, they propagate: in the
    enriched frame the date columns hold only dates and missing dates;
    on a row without order date the year, month, weekday, quarter and
    shipping duration are all missing, and on a row without ship date
    the shipping duration is missing. *)
Theorem procesar_fechas_missing_dates
    (parse_date : string → option Z) (epoch_date : num → option Z)
    (df df' : DataFrame) :
  procesar_fechas parse_date epoch_date df = (Ok df', df') →
  ∃ dp de anio mes dia trimestre dias,
    getitem "fecha_pedido" df' = Ok dp ∧
    getitem "fecha_envio" df' = Ok de ∧
    getitem "año" df' = Ok anio ∧
    getitem "mes" df' = Ok mes ∧
    getitem "dia_semana" df' = Ok dia ∧
    getitem "trimestre" df' = Ok trimestre ∧
    getitem "dias_envio" df' = Ok dias ∧
    Forall (λ c, c = CNull ∨ ∃ t, c = CDate t) dp ∧
    Forall (λ c, c = CNull ∨ ∃ t, c = CDate t) de ∧
    ∀ i,
      (dp !! i = Some CNull →
         anio !! i = Some (CNum NaN) ∧ mes !! i = Some (CNum NaN) ∧
         dia !! i = Some (CNum NaN) ∧ trimestre !! i = Some (CNum NaN) ∧
         (is_Some (de !! i) → dias !! i = Some (CNum NaN))) ∧
      (de !! i = Some CNull → is_Some (dp !! i) → dias !! i = Some (CNum NaN)).
Proof.
  intros (pedido & envio & dp & de & ds & es & Hp & Hdp & He & Hde & Hds & Hes & -> & _)
    %procesar_fechas_inv.
  eexists dp, de, _, _, _, _, _. unfold frame_enriquecido. frame_lookup.
  do 7 (split; [reflexivity|]).
  assert (∀ c d, to_datetime parse_date epoch_date c = Ok d →
                 Forall (λ c, c = CNull ∨ ∃ t, c = CDate t) d) as Hcells.
  { intros c d Hd. apply Forall_lookup. intros i x Hx.
    assert (length d = length c) as Hlen by (by eapply traverse_ok_length).
    destruct (lookup_lt_is_Some_2 c i) as [y Hy].
    { rewrite <- Hlen. by eapply lookup_lt_Some. }
    destruct (traverse_ok_lookup _ _ _ _ _ Hd Hy) as (x' & Hx' & Hdi).
    rewrite Hx in Hdi. injection Hdi as <-.
    destruct y as [s|n|t|]; simpl in Hx'.
    - destruct (parse_date s); [|done]. injection Hx' as <-. eauto.
    - destruct n; try destruct (epoch_date _); try done; injection Hx' as <-; eauto.
    - injection Hx' as <-. eauto.
    - injection Hx' as <-. eauto. }
  split; [by eapply Hcells|]. split; [by eapply Hcells|].
  assert (∀ c cs i x, date_col c = Ok cs → c !! i = Some x → is_Some (cs !! i)) as Hsome.
  { intros c cs i x Hc Hx.
    destruct (traverse_ok_lookup _ _ _ _ _ Hc Hx) as (y & _ & Hy). eauto. }
  intros i. split.
  - intros Hi. pose proof (date_col_lookup_null _ _ _ Hds Hi) as Hdi.
    rewrite !list_lookup_fmap, Hdi. simpl. do 4 (split; [done|]).
    intros [c Hc]. destruct (Hsome _ _ _ _ Hes Hc) as [y Hy].
    unfold td_days. rewrite list_lookup_fmap, lookup_zip_with, Hy, Hdi. simpl.
    by destruct y.
  - intros Hi [c Hc]. pose proof (date_col_lookup_null _ _ _ Hes Hi) as Hei.
    destruct (Hsome _ _ _ _ Hds Hc) as [y Hy].
    unfold td_days. by rewrite list_lookup_fmap, lookup_zip_with, Hei, Hy.
Qed.

Lemma procesar_fechas_missing_dates_witness :
  ∃ df' dias,
    procesar_fechas ejemplo_parse_date ejemplo_epoch_date ejemplo_fechas_faltantes
      = (Ok df', df') ∧
    getitem "dias_envio" df' = Ok dias ∧
    dias !! 1%nat = Some (CNum NaN) ∧ dias !! 2%nat = Some (CNum NaN).
Proof.
  eexists. 
  destruct (procesar_fechas_missing_dates ejemplo_parse_date ejemplo_epoch_date
              ejemplo_fechas_faltantes _ eq_refl)
    as (dp & de & anio & mes & dia & trimestre & dias
        & Hdp & Hde & _ & _ & _ & _ & Hdias & _ & _ & Hrows).
  exists dias. split; [reflexivity|]. split; [exact Hdias|].
  injection Hdp as <-. injection Hde as <-.
  split.
  - destruct (proj1 (Hrows 1%nat)) as (_ & _ & _ & _ & H1); [reflexivity|].
    apply H1. eexists. reflexivity.
  - apply (proj2 (Hrows 2%nat)); [reflexivity|]. eexists. reflexivity.
Defined.

(** ** [crear_resumen_basico]: what a returned summary implies *)

Lemma date_min_spec ds m :
  date_min ds = Some m → Some m ∈ ds ∧ ∀ t, Some t ∈ ds → (m ≤ t)%Z.
Proof.
  revert m. induction ds as [|d ds IH]; intros m; simpl; [done|].
  destruct d as [t|]; [destruct (date_min ds) as [m'|] eqn:Hm|].
  - intros [= <-]. destruct (IH m' eq_refl) as [Hin Hle]. split.
    + destruct (Z.min_spec t m') as [[_ ->]|[_ ->]]; [left|by right].
    + intros u [[= ->]|Hu]%elem_of_cons; [lia|]. specialize (Hle u Hu). lia.
  - intros [= <-]. split; [left|].
    intros u [[= ->]|Hu]%elem_of_cons; [lia|].
    destruct (date_min_is_Some _ _ Hu) as [x Hx]. congruence.
  - intros Hm. destruct (IH m Hm) as [Hin Hle]. split; [by right|].
    intros u [?|Hu]%elem_of_cons; [done|]. by apply Hle.
Qed.

Lemma date_max_spec ds m :
  date_max ds = Some m → Some m ∈ ds ∧ ∀ t, Some t ∈ ds → (t ≤ m)%Z.
Proof.
  revert m. induction ds as [|d ds IH]; intros m; simpl; [done|].
  destruct d as [t|]; [destruct (date_max ds) as [m'|] eqn:Hm|].
  - intros [= <-]. destruct (IH m' eq_refl) as [Hin Hle]. split.
    + destruct (Z.max_spec t m') as [[_ ->]|[_ ->]]; [by right|left].
    + intros u [[= ->]|Hu]%elem_of_cons; [lia|]. specialize (Hle u Hu). lia.
  - intros [= <-]. split; [left|].
    intros u [[= ->]|Hu]%elem_of_cons; [lia|].
    destruct (date_max_is_Some _ _ Hu) as [x Hx]. congruence.
  - intros Hm. destruct (IH m Hm) as [Hin Hle]. split; [by right|].
    intros u [?|Hu]%elem_of_cons; [done|]. by apply Hle.
Qed.

Lemma nunique_le c : (nunique c ≤ length c)%nat.
Proof.
  unfold nunique.
  etransitivity; [|apply (length_filter (λ x, isnull x = false))].
  generalize (filter (λ x, isnull x = false) c). intros l.
  induction l as [|x l IH]; simpl; [done|].
  destruct (decide_rel elem_of x l); simpl; lia.
Qed.

(** A returned summary went through every entry of the dictionary. *)
Lemma crear_resumen_basico_inv df r :
  crear_resumen_basico df = Ok r →
  ∃ fechas ds tmin tmax cv v cg g pedidos clientes productos,
    getitem "fecha_pedido" df = Ok fechas ∧
    date_col fechas = Ok ds ∧
    date_min ds = Some tmin ∧
    date_max ds = Some tmax ∧
    getitem "ventas" df = Ok cv ∧
    num_col cv = Ok v ∧
    getitem "ganancia" df = Ok cg ∧
    num_col cg = Ok g ∧
    getitem "id_pedido" df = Ok pedidos ∧
    getitem "id_cliente" df = Ok clientes ∧
    getitem "id_producto" df = Ok productos ∧
    r = {| total_filas := nrows df;
           total_columnas := length (columns df);
           periodo_datos :=
             Calendar.strftime_ymd tmin +:+ " a " +:+ Calendar.strftime_ymd tmax;
           total_ventas := nansum v;
           total_ganancia := nansum g;
           margen_promedio := Num.mul (Num.div (nansum g) (nansum v)) (of_Z 100);
           pedidos_unicos := nunique pedidos;
           clientes_unicos := nunique clientes;
           productos_unicos := nunique productos |}.
Proof.
  intros H. unfold crear_resumen_basico, col_sum, col_nunique in H.
  destruct (getitem "fecha_pedido" df) as [fechas|] eqn:H1; [|done]. simpl in H.
  destruct (date_col fechas) as [ds|] eqn:H2; [|done]. simpl in H.
  destruct (date_min ds) as [tmin|] eqn:H3; [|done]. simpl in H.
  destruct (date_max ds) as [tmax|] eqn:H4; [|done]. simpl in H.
  destruct (getitem "ventas" df) as [cv|] eqn:H5; [|done]. simpl in H.
  destruct (num_col cv) as [v|] eqn:H6; [|done]. simpl in H.
  destruct (getitem "ganancia" df) as [cg|] eqn:H7; [|done]. simpl in H.
  destruct (num_col cg) as [g|] eqn:H8; [|done]. simpl in H.
  destruct (getitem "id_pedido" df) as [pedidos|] eqn:H9; [|done]. simpl in H.
  destruct (getitem "id_cliente" df) as [clientes|] eqn:H10; [|done]. simpl in H.
  destruct (getitem "id_producto" df) as [productos|] eqn:H11; [|done]. simpl in H.
  injection H as <-.
  by exists fechas, ds, tmin, tmax, cv, v, cg, g, pedidos, clientes, productos.
Qed.

Lemma date_col_elem_of c ds t :
  date_col c = Ok ds → (Some t ∈ ds ↔ CDate t ∈ c).
Proof.
  intros H. split.
  - intros [i Hi]%list_elem_of_lookup.
    assert (length ds = length c) as Hlen by (by eapply traverse_ok_length).
    destruct (lookup_lt_is_Some_2 c i) as [x Hx].
    { rewrite <- Hlen. by eapply lookup_lt_Some. }
    destruct (traverse_ok_lookup _ _ _ _ _ H Hx) as (y & Hy & Hds).
    rewrite Hi in Hds. injection Hds as <-.
    apply list_elem_of_lookup. exists i. rewrite Hx. f_equal.
    destruct x as [s|n|u|]; simpl in Hy; try done.
    + by destruct n.
    + by injection Hy as ->.
  - intros [i Hi]%list_elem_of_lookup. apply list_elem_of_lookup. exists i.
    by eapply date_col_lookup.
Qed.

(** X7. [crear_resumen_basico] returns a summary exactly for the frames
    that have the six columns it reads, with numeric sales and profit
    and an order-date column of dates holding at least one date; on
    every other frame it raises. *)
Theorem crear_resumen_basico_returns_iff (df : DataFrame) :
  (∃ r, crear_resumen_basico df = Ok r) ↔
  (∃ fechas ds t cv v cg g pedidos clientes productos,
     getitem "fecha_pedido" df = Ok fechas ∧
     date_col fechas = Ok ds ∧
     CDate t ∈ fechas ∧
     getitem "ventas" df = Ok cv ∧
     num_col cv = Ok v ∧
     getitem "ganancia" df = Ok cg ∧
     num_col cg = Ok g ∧
     getitem "id_pedido" df = Ok pedidos ∧
     getitem "id_cliente" df = Ok clientes ∧
     getitem "id_producto" df = Ok productos).
Proof.
  split.
  - intros [r (fechas & ds & tmin & tmax & cv & v & cg & g & pedidos & clientes
               & productos & H1 & H2 & H3 & H4 & H5 & H6 & H7 & H8 & H9 & H10 & H11 & _)
              %crear_resumen_basico_inv].
    exists fechas, ds, tmin, cv, v, cg, g, pedidos, clientes, productos.
    repeat (split; [done|]). split; [|done].
    apply (date_col_elem_of _ _ _ H2). by apply date_min_spec.
  - intros (fechas & ds & t & cv & v & cg & g & pedidos & clientes & productos
            & H1 & H2 & H3 & H4 & H5 & H6 & H7 & H8 & H9 & H10).
    apply (date_col_elem_of _ _ _ H2) in H3.
    destruct (crear_resumen_basico_ok df fechas cv cg pedidos clientes productos ds v g t)
      as (r & Hr & _); try done. by exists r.
Qed.

Lemma crear_resumen_basico_returns_iff_witness :
  ∃ r, crear_resumen_basico ejemplo_resumen = Ok r.
Proof.
  apply (proj2 (crear_resumen_basico_returns_iff ejemplo_resumen)).
  exists [CDate nov_08_2016; CDate jun_12_2016],
         [Some nov_08_2016; Some jun_12_2016], nov_08_2016,
         [CNum (dec 26196 100); CNum (dec 1462 100)], [dec 26196 100; dec 1462 100],
         [CNum (dec 419136 10000); CNum (dec 68714 10000)],
         [dec 419136 10000; dec 68714 10000],
         [CStr "CA-2016-152156"; CStr "CA-2016-138688"],
         [CStr "CG-12520"; CStr "DV-13045"],
         [CStr "FUR-BO-10001798"; CStr "OFF-LA-10000240"].
  repeat (split; [reflexivity|]).
  split; [apply list_elem_of_In; left; reflexivity|].
  repeat (split; [reflexivity|]). reflexivity.
Defined.

(** X8. On a frame without any order date, in particular on a frame
    without rows, [crear_resumen_basico] raises: the period of the data
    cannot be formatted. *)
Theorem crear_resumen_basico_without_dates (df : DataFrame) :
  ((∀ fechas c, getitem "fecha_pedido" df = Ok fechas → c ∈ fechas → isnull c = true) →
   ∃ e, crear_resumen_basico df = Raise e) ∧
  (well_formed df → nrows df = 0%nat → ∃ e, crear_resumen_basico df = Raise e).
Proof.
  assert ((∀ fechas c, getitem "fecha_pedido" df = Ok fechas → c ∈ fechas →
                       isnull c = true) →
          ∃ e, crear_resumen_basico df = Raise e) as Hgen.
  { intros Hnull. destruct (crear_resumen_basico df) as [r|e] eqn:Hr; [|by eexists].
    apply crear_resumen_basico_inv in Hr
      as (fechas & ds & tmin & tmax & cv & v & cg & g & pedidos & clientes & productos
          & H1 & H2 & H3 & _).
    assert (CDate tmin ∈ fechas) as Hin.
    { apply (date_col_elem_of _ _ _ H2). by apply date_min_spec. }
    by specialize (Hnull fechas (CDate tmin) H1 Hin). }
  split; [exact Hgen|].
  intros Hwf Hrows. apply Hgen. intros fechas c Hf Hc.
  pose proof (getitem_length _ _ _ Hwf Hf) as Hlen.
  rewrite Hrows in Hlen. destruct fechas; [|done]. by apply elem_of_nil in Hc.
Qed.

Lemma crear_resumen_basico_without_dates_witness :
  ∃ e, crear_resumen_basico ejemplo_sin_filas = Raise e.
Proof.
  apply (crear_resumen_basico_without_dates ejemplo_sin_filas).
  - repeat constructor.
  - reflexivity.
Defined.

(** X9. In a returned summary, the row and column counts are those of
    the frame, the frame has at least one row, and none of the three
    distinct counts exceeds the number of rows. *)
Theorem crear_resumen_basico_counts (df : DataFrame) (r : resumen) :
  well_formed df →
  crear_resumen_basico df = Ok r →
  total_filas r = nrows df ∧
  total_columnas r = length (columns df) ∧
  (0 < total_filas r)%nat ∧
  (pedidos_unicos r ≤ total_filas r)%nat ∧
  (clientes_unicos r ≤ total_filas r)%nat ∧
  (productos_unicos r ≤ total_filas r)%nat.
Proof.
  intros Hwf (fechas & ds & tmin & tmax & cv & v & cg & g & pedidos & clientes
              & productos & H1 & H2 & H3 & H4 & H5 & H6 & H7 & H8 & H9 & H10 & H11 & ->)
             %crear_resumen_basico_inv.
  simpl. split; [done|]. split; [done|].
  split.
  { rewrite <- (getitem_length _ _ _ Hwf H1), <- (traverse_ok_length _ _ _ H2).
    apply date_min_spec in H3 as [Hin _].
    apply list_elem_of_lookup in Hin as [i Hi]. apply lookup_lt_Some in Hi. lia. }
  rewrite <- (getitem_length _ _ _ Hwf H9) at 1.
  rewrite <- (getitem_length _ _ _ Hwf H10) at 1.
  rewrite <- (getitem_length _ _ _ Hwf H11).
  auto using nunique_le.
Qed.

Lemma crear_resumen_basico_counts_witness :
  ∃ r, crear_resumen_basico ejemplo_resumen = Ok r ∧
       total_filas r = 2%nat ∧ (pedidos_unicos r ≤ total_filas r)%nat.
Proof.
  eexists. split; [reflexivity|].
  destruct (crear_resumen_basico_counts ejemplo_resumen _ ltac:(repeat constructor) eq_refl)
    as (H1 & _ & _ & H2 & _).
  split; [exact H1|exact H2].
Defined.

(** X10. The period of a returned summary runs from the earliest to the
    latest order date of the frame: both ends are order dates of the
    frame and every order date lies between them. *)
Theorem crear_resumen_basico_period (df : DataFrame) (r : resumen) :
  crear_resumen_basico df = Ok r →
  ∃ fechas tmin tmax,
    getitem "fecha_pedido" df = Ok fechas ∧
    periodo_datos r =
      (Calendar.strftime_ymd tmin +:+ " a " +:+ Calendar.strftime_ymd tmax)%string ∧
    CDate tmin ∈ fechas ∧
    CDate tmax ∈ fechas ∧
    ∀ t, CDate t ∈ fechas → (tmin ≤ t ≤ tmax)%Z.
Proof.
  intros (fechas & ds & tmin & tmax & cv & v & cg & g & pedidos & clientes
          & productos & H1 & H2 & H3 & H4 & _ & _ & _ & _ & _ & _ & _ & ->)
         %crear_resumen_basico_inv.
  apply date_min_spec in H3 as [Hmin Hlo]. apply date_max_spec in H4 as [Hmax Hhi].
  exists fechas, tmin, tmax. split; [done|]. split; [done|].
  split; [by apply (date_col_elem_of _ _ _ H2)|].
  split; [by apply (date_col_elem_of _ _ _ H2)|].
  intros t Ht%(date_col_elem_of _ _ _ H2). split; auto.
Qed.

Lemma crear_resumen_basico_period_witness :
  ∃ r tmin tmax,
    crear_resumen_basico ejemplo_resumen = Ok r ∧
    periodo_datos r =
      (Calendar.strftime_ymd tmin +:+ " a " +:+ Calendar.strftime_ymd tmax)%string ∧
    (tmin ≤ jun_12_2016 ≤ tmax)%Z.
Proof.
  eexists.
  destruct (crear_resumen_basico_period ejemplo_resumen _ eq_refl)
    as (fechas & tmin & tmax & Hf & Hp & _ & _ & Hbounds).
  exists tmin, tmax. split; [reflexivity|]. split; [exact Hp|].
  apply Hbounds. injection Hf as <-. apply list_elem_of_In. right. left. reflexivity.
Defined.

(** ** [analizar_valores_faltantes]: bounds and the complete frame *)

Lemma porcentaje_bounds (k n : nat) :
  (0 < k)%nat → (k ≤ n)%nat →
  0 < Qc_of_Z (Z.of_nat k) / Qc_of_Z (Z.of_nat n) * Qc_of_Z 100 ∧
  Qc_of_Z (Z.of_nat k) / Qc_of_Z (Z.of_nat n) * Qc_of_Z 100 ≤ Qc_of_Z 100.
Proof.
  intros Hk Hn.
  assert (0 < inject_Z (Z.of_nat n))%Q as Hnpos.
  { change 0%Q with (inject_Z 0). rewrite <- Zlt_Qlt. lia. }
  assert (0 < inject_Z (Z.of_nat k) / inject_Z (Z.of_nat n))%Q as Hlo.
  { apply Qlt_shift_div_l; [done|]. rewrite Qmult_0_l.
    change 0%Q with (inject_Z 0). rewrite <- Zlt_Qlt. lia. }
  assert (inject_Z (Z.of_nat k) / inject_Z (Z.of_nat n) <= 1)%Q as Hhi.
  { apply Qle_shift_div_r; [done|]. rewrite Qmult_1_l. rewrite <- Zle_Qle. lia. }
  unfold Qdiv in *.
  qc_to_q. change (inject_Z 100) with 100%Q. change (this (Q2Qc 0)) with 0%Q.
  split; lra.
Qed.

Lemma analizar_valores_faltantes_elem_of df r :
  r ∈ analizar_valores_faltantes df ↔
  ∃ c, c ∈ columns df ∧ (0 < isnull_sum c.2)%nat ∧ r = fila_faltantes (nrows df) c.
Proof.
  rewrite analizar_valores_faltantes_unfold, sort_values_desc_perm,
    list_elem_of_filter, list_elem_of_fmap.
  split.
  - intros (Hpos & c & -> & Hc). eauto.
  - intros (c & Hc & Hpos & ->). eauto.
Qed.

Lemma isnull_sum_zero c : isnull_sum c = 0%nat ↔ ∀ x, x ∈ c → isnull x = false.
Proof.
  unfold isnull_sum. rewrite length_zero_iff_nil. split.
  - intros Hnil x Hx. destruct (isnull x) eqn:Hnull; [|done].
    by eapply (filter_nil_not_elem_of (λ x, isnull x = true)) in Hx.
  - intros Hall. apply elem_of_nil_inv. intros x [Hnull Hx]%list_elem_of_filter.
    rewrite (Hall x Hx) in Hnull. done.
Qed.

(** X11. In a frame whose columns have one cell per row, every row of
    the report has a count between 1 and the number of rows and a
    percentage above 0 and at most 100, and the report has at most one
    row per column. *)
Theorem analizar_valores_faltantes_bounds (df : DataFrame) :
  well_formed df →
  (∀ r, r ∈ analizar_valores_faltantes df →
        (1 ≤ valores_faltantes r ≤ nrows df)%nat ∧
        ∃ p, porcentaje r = Fin p ∧ 0 < p ∧ p ≤ Qc_of_Z 100) ∧
  (length (analizar_valores_faltantes df) ≤ length (columns df))%nat.
Proof.
  intros Hwf. split.
  - intros r (c & Hc & Hpos & ->)%analizar_valores_faltantes_elem_of. simpl.
    pose proof (proj1 (Forall_forall _ _) Hwf c Hc) as Hlen. simpl in Hlen.
    pose proof (isnull_sum_le c.2) as Hle. rewrite Hlen in Hle.
    split; [lia|]. eexists. split; [apply porcentaje_fin; lia|].
    by apply porcentaje_bounds.
  - rewrite analizar_valores_faltantes_unfold.
    unfold sort_values_desc. rewrite sort_by_length.
    etransitivity; [apply length_filter|]. by rewrite length_fmap.
Qed.

Lemma analizar_valores_faltantes_bounds_witness :
  Forall (λ r, (1 ≤ valores_faltantes r ≤ 4)%nat)
    (analizar_valores_faltantes ejemplo_faltantes).
Proof.
  apply Forall_forall. intros r Hr.
  apply (proj1 (analizar_valores_faltantes_bounds ejemplo_faltantes
                  ltac:(repeat constructor)) r Hr).
Defined.

(** X12. The report is empty exactly when no cell of the frame is
    missing. *)
Theorem analizar_valores_faltantes_empty_iff (df : DataFrame) :
  analizar_valores_faltantes df = [] ↔
  ∀ c x, c ∈ columns df → x ∈ c.2 → isnull x = false.
Proof.
  split.
  - intros Hnil c x Hc Hx.
    destruct (decide (isnull_sum c.2 = 0%nat)) as [Hz|Hnz].
    + by apply (proj1 (isnull_sum_zero _) Hz).
    + assert (fila_faltantes (nrows df) c ∈ analizar_valores_faltantes df) as Hin.
      { apply analizar_valores_faltantes_elem_of. exists c. repeat split; [done|lia]. }
      rewrite Hnil in Hin. by apply elem_of_nil in Hin.
  - intros Hall. apply elem_of_nil_inv.
    intros r (c & Hc & Hpos & _)%analizar_valores_faltantes_elem_of.
    assert (isnull_sum c.2 = 0%nat) as Hz; [|lia].
    apply isnull_sum_zero. intros x Hx. by eapply Hall.
Qed.

Lemma analizar_valores_faltantes_empty_iff_witness :
  analizar_valores_faltantes ejemplo_resumen = [].
Proof.
  apply (proj2 (analizar_valores_faltantes_empty_iff ejemplo_resumen)).
  intros c x Hc Hx.
  assert (Forall (λ c : string * list cell, Forall (λ x, isnull x = false) c.2)
            (columns ejemplo_resumen)) as H by (repeat constructor).
  exact (proj1 (Forall_forall _ _) (proj1 (Forall_forall _ _) H c Hc) x Hx).
Defined.

(** ** [crear_grafico_top_productos]: truncation *)





(** ** [analizar_rentabilidad_por_categoria]: rows, failures, zero totals *)

Lemma getitem_absent name df :
  name ∉ column_names df → getitem name df = Raise (KeyError name).
Proof.
  unfold getitem, column_names. intros Hn.
  destruct (lookup_col name (columns df)) as [c|] eqn:Hc; [|done].
  exfalso. apply Hn. clear Hn. revert Hc.
  induction (columns df) as [|[n c'] cs IH]; simpl; [done|].
  destruct (decide (n = name)) as [->|Hne]; [left|right; auto].
Qed.

Lemma getitem_cases name df :
  (∃ c, getitem name df = Ok c) ∨ getitem name df = Raise (KeyError name).
Proof. unfold getitem. destruct (lookup_col name (columns df)); eauto. Qed.

Lemma getitem_present name df c : getitem name df = Ok c → name ∈ column_names df.
Proof.
  intros H. destruct (decide (name ∈ column_names df)) as [|Hn]; [done|].
  apply getitem_absent in Hn. congruence.
Qed.

(** A returned table went through every step. *)
Lemma analizar_rentabilidad_por_categoria_inv df filas :
  analizar_rentabilidad_por_categoria df = Ok filas →
  ∃ categoria cv cg cc ids v g sc,
    getitem "categoria" df = Ok categoria ∧
    getitem "ventas" df = Ok cv ∧
    getitem "ganancia" df = Ok cg ∧
    getitem "cantidad" df = Ok cc ∧
    getitem "id_pedido" df = Ok ids ∧
    num_col cv = Ok v ∧
    num_col cg = Ok g ∧
    col_sumas ((λ x, [x]) <$> categoria) cc = Ok sc ∧
    filas = sort_values_desc r_ventas
              (con_ratios <$>
                 (fila_agregada ((λ x, [x]) <$> categoria) v g sc ids <$>
                    group_keys ((λ x, [x]) <$> categoria))).
Proof.
  intros H. unfold analizar_rentabilidad_por_categoria in H.
  destruct (getitem "categoria" df) as [categoria|] eqn:H1; [|done]. simpl in H.
  destruct (getitem "ventas" df) as [cv|] eqn:H2; [|done]. simpl in H.
  destruct (getitem "ganancia" df) as [cg|] eqn:H3; [|done]. simpl in H.
  destruct (getitem "cantidad" df) as [cc|] eqn:H4; [|done]. simpl in H.
  destruct (getitem "id_pedido" df) as [ids|] eqn:H5; [|done]. simpl in H.
  destruct (num_col cv) as [v|] eqn:H6; [|done]. simpl in H.
  destruct (num_col cg) as [g|] eqn:H7; [|done]. simpl in H.
  destruct (col_sumas _ cc) as [sc|] eqn:H8; [|done]. simpl in H.
  injection H as <-. by exists categoria, cv, cg, cc, ids, v, g, sc.
Qed.

(** X15. The table has exactly one row per category of the frame that
    is not missing: the categories of its rows are pairwise distinct,
    they are the categories present in the frame, and their number is
    the number of distinct categories. Order lines without category
    belong to no row. *)
Theorem analizar_rentabilidad_por_categoria_one_row_per_category
    (df : DataFrame) (filas : list rentabilidad) :
  analizar_rentabilidad_por_categoria df = Ok filas →
  ∃ categoria,
    getitem "categoria" df = Ok categoria ∧
    NoDup (r_categoria <$> filas) ∧
    (∀ k, k ∈ r_categoria <$> filas ↔
          ∃ c, k = [c] ∧ c ∈ categoria ∧ isnull c = false) ∧
    length filas = nunique categoria.
Proof.
  intros (categoria & cv & cg & cc & ids & v & g & c
          & H1 & _ & _ & _ & _ & _ & _ & _ & ->)%analizar_rentabilidad_por_categoria_inv.
  exists categoria. split; [done|].
  set (ks := (λ x, [x]) <$> categoria).
  assert (r_categoria <$> sort_values_desc r_ventas
            (con_ratios <$> (fila_agregada ks v g c ids <$> group_keys ks))
          ≡ₚ group_keys ks) as Hperm.
  { rewrite sort_values_desc_perm, <- !list_fmap_compose. by rewrite list_fmap_id. }
  split; [rewrite Hperm; apply group_keys_NoDup|]. split.
  - intros k. rewrite Hperm, group_keys_elem_of. unfold ks. split.
    + intros [(x & -> & Hx)%list_elem_of_fmap Hp]. exists x.
      split; [done|]. split; [done|]. simpl in Hp. by destruct (isnull x).
    + intros (x & -> & Hx & Hnull). split; [apply list_elem_of_fmap; by exists x|].
      simpl. by rewrite Hnull.
  - rewrite <- (group_keys_singleton_length categoria). fold ks.
    unfold sort_values_desc. by rewrite sort_by_length, !length_fmap.
Qed.

Lemma analizar_rentabilidad_por_categoria_one_row_per_category_witness :
  ∃ filas,
    analizar_rentabilidad_por_categoria ejemplo_office = Ok filas ∧
    length filas = 2%nat.
Proof.
  eexists. split; [reflexivity|].
  destruct (analizar_rentabilidad_por_categoria_one_row_per_category
              ejemplo_office _ eq_refl) as (categoria & Hcat & _ & _ & Hlen).
  rewrite Hlen. injection Hcat as <-. vm_compute. reflexivity.
Defined.

(** X16. [analizar_rentabilidad_por_categoria] returns a table on every
    frame that has the five columns it reads with numeric sales and
    profit, whether the quantity is a column of numbers or a column of
    texts: the quantity is only summed, so that the quantity of a row
    is then the concatenation, in row order, of the texts of the lines
    of its category. When one of the five columns is absent the
    function raises [KeyError]. *)
Theorem analizar_rentabilidad_por_categoria_returns
    (df : DataFrame) (categoria cv cg cc ids : list cell) (v g : list num) :
  (getitem "categoria" df = Ok categoria →
   getitem "ventas" df = Ok cv →
   getitem "ganancia" df = Ok cg →
   getitem "cantidad" df = Ok cc →
   getitem "id_pedido" df = Ok ids →
   num_col cv = Ok v →
   num_col cg = Ok g →
   (∀ c, num_col cc = Ok c →
      ∃ filas, analizar_rentabilidad_por_categoria df = Ok filas ∧
        ∀ r, r ∈ filas →
          r_cantidad r =
            SNumero (round2 (nansum (group_of ((λ x, [x]) <$> categoria) c
                                       (r_categoria r))))) ∧
   (∀ textos, textos ≠ [] → cc = CStr <$> textos →
      ∃ filas, analizar_rentabilidad_por_categoria df = Ok filas ∧
        ∀ r, r ∈ filas →
          r_cantidad r =
            concatenar (Some <$> group_of ((λ x, [x]) <$> categoria) textos
                                   (r_categoria r)))) ∧
  (∀ name,
     name ∈ ["categoria"; "ventas"; "ganancia"; "cantidad"; "id_pedido"]%string →
     name ∉ column_names df →
     ∃ k, analizar_rentabilidad_por_categoria df = Raise (KeyError k)).
Proof.
  split.
  - intros H1 H2 H3 H4 H5 H6 H7.
    assert (∀ sc, col_sumas ((λ x, [x]) <$> categoria) cc = Ok sc →
              ∃ filas, analizar_rentabilidad_por_categoria df = Ok filas ∧
                ∀ r, r ∈ filas → r_cantidad r = redondear (sc (r_categoria r))) as Hgen.
    { intros sc Hsc. eexists. split.
      - unfold analizar_rentabilidad_por_categoria.
        rewrite H1, H2, H3, H4, H5. simpl. rewrite H6, H7. simpl. rewrite Hsc.
        reflexivity.
      - intros r. rewrite sort_values_desc_perm.
        by intros (a & -> & (k & -> & _)%list_elem_of_fmap)%list_elem_of_fmap. }
    split.
    + intros c Hc.
      destruct (Hgen (sumar_numeros ((λ x, [x]) <$> categoria) c))
        as (filas & Hok & Hrows); [by apply col_sumas_num|].
      exists filas. split; [done|]. intros r Hr. by rewrite (Hrows r Hr).
    + intros textos Hne ->.
      destruct (Hgen (sumar_textos ((λ x, [x]) <$> categoria) (Some <$> textos)))
        as (filas & Hok & Hrows).
      { unfold col_sumas, num_col. destruct textos as [|s textos]; [done|].
        destruct (traverse_raises as_num (CStr <$> s :: textos) (CStr s) TypeError)
          as (e & y & _ & _ & ->); [left|done|].
        by rewrite text_col_textos. }
      exists filas. split; [done|]. intros r Hr. rewrite (Hrows r Hr).
      unfold sumar_textos. by rewrite redondear_concatenar, group_of_fmap.
  - intros name Hname Habs. apply getitem_absent in Habs.
    unfold analizar_rentabilidad_por_categoria.
    destruct (getitem_cases "categoria" df) as [[c1 E1]|E1]; rewrite E1; [|by eexists].
    destruct (getitem_cases "ventas" df) as [[c2 E2]|E2]; rewrite E2; [|by eexists].
    destruct (getitem_cases "ganancia" df) as [[c3 E3]|E3]; rewrite E3; [|by eexists].
    destruct (getitem_cases "cantidad" df) as [[c4 E4]|E4]; rewrite E4; [|by eexists].
    destruct (getitem_cases "id_pedido" df) as [[c5 E5]|E5]; rewrite E5; [|by eexists].
    rewrite !elem_of_cons, elem_of_nil in Hname.
    destruct Hname as [->|[->|[->|[->|[->|[]]]]]]; congruence.
Qed.

Lemma analizar_rentabilidad_por_categoria_returns_witness :
  ∃ filas,
    analizar_rentabilidad_por_categoria ejemplo_cantidad_texto = Ok filas ∧
    Forall (λ r, r_categoria r = [CStr "Office"] → r_cantidad r = STexto "dostres") filas.
Proof.
  destruct (proj1 (analizar_rentabilidad_por_categoria_returns ejemplo_cantidad_texto
                     [CStr "Office"; CStr "Technology"; CStr "Office"]
                     [CNum (of_Z 100); CNum (of_Z 50); CNum (of_Z 200)]
                     [CNum (of_Z 10); CNum (of_Z 20); CNum (of_Z 20)]
                     [CStr "dos"; CStr "uno"; CStr "tres"]
                     [CStr "A-1"; CStr "A-2"; CStr "A-3"]
                     [of_Z 100; of_Z 50; of_Z 200] [of_Z 10; of_Z 20; of_Z 20])
              eq_refl eq_refl eq_refl eq_refl eq_refl eq_refl eq_refl) as [_ Htexto].
  destruct (Htexto ["dos"; "uno"; "tres"]%string) as (filas & Hok & Hrows);
    [discriminate|reflexivity|].
  exists filas. split; [exact Hok|].
  apply Forall_forall. intros r Hr Hk. rewrite (Hrows r Hr), Hk. reflexivity.
Defined.

Lemma round2_not_finite x : isfinite x = false → isfinite (round2 x) = false.
Proof. by destruct x. Qed.

(** X17. A zero denominator does not make the function raise: a
    category whose reported sales are zero has a margin that is not a
    finite number, and a category without any order identifier has an
    average sale that is not a finite number. *)
Theorem analizar_rentabilidad_por_categoria_zero_denominators
    (df : DataFrame) (filas : list rentabilidad) (r : rentabilidad) :
  analizar_rentabilidad_por_categoria df = Ok filas →
  r ∈ filas →
  (r_ventas r = Fin 0 → isfinite (r_margen_porcentaje r) = false) ∧
  (r_id_pedido r = 0%nat → isfinite (r_venta_promedio r) = false).
Proof.
  intros (categoria & cv & cg & cc & ids & v & g & sc
          & _ & _ & _ & _ & _ & _ & _ & _ & ->)%analizar_rentabilidad_por_categoria_inv.
  rewrite sort_values_desc_perm.
  intros (a & -> & (k & -> & _)%list_elem_of_fmap)%list_elem_of_fmap.
  unfold con_ratios.
  cbn [r_margen_porcentaje r_ganancia r_ventas r_id_pedido r_venta_promedio].
  split.
  - intros ->. apply round2_not_finite, div_zero_mul_100_not_finite.
  - intros ->. apply round2_not_finite.
    change (of_nat 0) with (Fin (Qc_of_Z 0)). rewrite Z2Qc_inj_0.
    destruct (a_ventas _) as [q| | |]; try done.
    unfold Num.div. rewrite decide_True by done. by destruct (sgn q).
Qed.

Lemma analizar_rentabilidad_por_categoria_zero_denominators_witness :
  ∃ filas r,
    analizar_rentabilidad_por_categoria ejemplo_categoria_cero = Ok filas ∧
    r ∈ filas ∧
    r_ventas r = Fin 0 ∧
    isfinite (r_margen_porcentaje r) = false.
Proof.
  set (fila := {| r_categoria := [CStr "Office"];
                  r_ventas := Fin 0;
                  r_ganancia := of_Z 4;
                  r_cantidad := SNumero (of_Z 2);
                  r_id_pedido := 2;
                  r_margen_porcentaje := PInf;
                  r_venta_promedio := of_Z 0 |}).
  assert (analizar_rentabilidad_por_categoria ejemplo_categoria_cero = Ok [fila]) as Hok
    by compute_done.
  exists [fila], fila. split; [exact Hok|]. split; [left|]. split; [reflexivity|].
  apply (analizar_rentabilidad_por_categoria_zero_denominators
           ejemplo_categoria_cero [fila] fila Hok); [left|reflexivity].
Defined.

(** ** [calcular_metricas_cliente]: tenure, rows, dates *)

Lemma getitem_raise_absent name df e :
  getitem name df = Raise e → name ∉ column_names df.
Proof.
  unfold getitem, column_names. intros H Hin.
  destruct (lookup_col name (columns df)) eqn:Hl; [done|]. clear H.
  apply list_elem_of_fmap in Hin as ([n c] & -> & Hin). simpl in Hl.
  induction (columns df) as [|[n' c'] cs IH]; [by apply elem_of_nil in Hin|].
  simpl in Hl. destruct (decide (n' = n)) as [->|Hne]; [done|].
  apply elem_of_cons in Hin as [[= -> ->]|Hin]; [done|]. by apply IH.
Qed.

(** The two ways in which [groupby([a, b])] returns. *)
Lemma groupby_par_inv a b df ks :
  groupby_par a b df = Ok ks →
  (∃ ca cb, getitem a df = Ok ca ∧ getitem b df = Ok cb ∧
            ks = zip_with (λ x y, [x; y]) ca cb) ∨
  (nrows df = 2%nat ∧ (a ∉ column_names df ∨ b ∉ column_names df) ∧
   ks = [[CStr a]; [CStr b]]).
Proof.
  unfold groupby_par.
  destruct (getitem a df) as [ca|ea] eqn:Ha, (getitem b df) as [cb|eb] eqn:Hb.
  - intros [= <-]. left. by exists ca, cb.
  - destruct (decide (nrows df = 2%nat)); [|done]. intros [= <-]. right.
    split; [done|]. split; [|done]. right. by eapply getitem_raise_absent.
  - destruct (decide (nrows df = 2%nat)); [|done]. intros [= <-]. right.
    split; [done|]. split; [|done]. left. by eapply getitem_raise_absent.
  - destruct (decide (nrows df = 2%nat)); [|done]. intros [= <-]. right.
    split; [done|]. split; [|done]. left. by eapply getitem_raise_absent.
Qed.

(** A returned table went through every step. *)
Lemma calcular_metricas_cliente_inv df filas :
  calcular_metricas_cliente df = Ok filas →
  ∃ ks cv cg cc cf v sg sc f,
    groupby_par "id_cliente" "nombre_cliente" df = Ok ks ∧
    getitem "ventas" df = Ok cv ∧
    getitem "ganancia" df = Ok cg ∧
    getitem "cantidad" df = Ok cc ∧
    getitem "fecha_pedido" df = Ok cf ∧
    num_col cv = Ok v ∧
    col_sumas ks cg = Ok sg ∧
    col_sumas ks cc = Ok sc ∧
    date_col cf = Ok f ∧
    filas = sort_values_desc ventas_sum (fila_cliente ks v sg sc f <$> group_keys ks).
Proof.
  intros H. unfold calcular_metricas_cliente in H.
  destruct (groupby_par _ _ df) as [ks|] eqn:H1; [|done]. simpl in H.
  destruct (getitem "ventas" df) as [cv|] eqn:H3; [|done]. simpl in H.
  destruct (getitem "ganancia" df) as [cg|] eqn:H4; [|done]. simpl in H.
  destruct (getitem "cantidad" df) as [cc|] eqn:H5; [|done]. simpl in H.
  destruct (getitem "fecha_pedido" df) as [cf|] eqn:H6; [|done]. simpl in H.
  destruct (num_col cv) as [v|] eqn:H7; [|done]. simpl in H.
  destruct (col_sumas ks cg) as [sg|] eqn:H8; [|done]. simpl in H.
  destruct (col_sumas ks cc) as [sc|] eqn:H9; [|done]. simpl in H.
  destruct (date_col cf) as [f|] eqn:H10; [|done]. simpl in H.
  injection H as <-. by exists ks, cv, cg, cc, cf, v, sg, sc, f.
Qed.

Lemma date_min_max ds :
  match date_min ds, date_max ds with
  | Some a, Some b => (a ≤ b)%Z
  | None, None => True
  | _, _ => False
  end.
Proof.
  destruct (date_min ds) as [a|] eqn:Hmin, (date_max ds) as [b|] eqn:Hmax.
  - apply date_min_spec in Hmin as [Hin _]. apply date_max_spec in Hmax as [_ Hle].
    by apply Hle.
  - apply date_min_spec in Hmin as [Hin _].
    destruct (date_max_is_Some _ _ Hin) as [x Hx]. congruence.
  - apply date_max_spec in Hmax as [Hin _].
    destruct (date_min_is_Some _ _ Hin) as [x Hx]. congruence.
  - done.
Qed.

(** X18. The tenure of a customer is never negative: in every row of
    the table either both the first and the last order date are present,
    the first is not after the last and the tenure is a whole number of
    days that is at least 0, or both are missing and the tenure is
    missing. *)
Theorem calcular_metricas_cliente_tenure
    (df : DataFrame) (filas : list metricas) (r : metricas) :
  calcular_metricas_cliente df = Ok filas →
  r ∈ filas →
  (∃ a b d, fecha_pedido_min r = Some a ∧ fecha_pedido_max r = Some b ∧
            (a ≤ b)%Z ∧ dias_como_cliente r = of_Z d ∧ (0 ≤ d)%Z) ∨
  (fecha_pedido_min r = None ∧ fecha_pedido_max r = None ∧ dias_como_cliente r = NaN).
Proof.
  intros (ks & cv & cg & cc & cf & v & sg & sc & f & _ & _ & _ & _ & _
          & _ & _ & _ & _ & ->)%calcular_metricas_cliente_inv.
  rewrite sort_values_desc_perm. intros (k & -> & _)%list_elem_of_fmap.
  unfold fila_cliente. cbn [fecha_pedido_min fecha_pedido_max dias_como_cliente].
  pose proof (date_min_max (group_of ks f k)) as H.
  destruct (date_min _) as [a|], (date_max _) as [b|]; try done.
  - left. exists a, b, (Calendar.days_between b a). repeat split; try done.
    unfold Calendar.days_between. apply Z.div_pos; [lia|done].
  - by right.
Qed.

Lemma calcular_metricas_cliente_tenure_witness :
  ∃ filas,
    calcular_metricas_cliente ejemplo_clientes = Ok filas ∧
    ∀ r, r ∈ filas →
      (∃ a b d, fecha_pedido_min r = Some a ∧ fecha_pedido_max r = Some b ∧
                (a ≤ b)%Z ∧ dias_como_cliente r = of_Z d ∧ (0 ≤ d)%Z) ∨
      (fecha_pedido_min r = None ∧ fecha_pedido_max r = None ∧
       dias_como_cliente r = NaN).
Proof.
  eexists. split; [reflexivity|].
  intros r Hr.
  apply (calcular_metricas_cliente_tenure ejemplo_clientes _ r eq_refl Hr).
Defined.

(** X19. The table is ordered by decreasing total sales (a total that
    is not a number comes last) and its rows have pairwise distinct
    keys. When the frame has the two customer columns, it has exactly
    one row per pair of customer identifier and name occurring in an
    order line with both present. The only other tables returned come
    from frames of exactly two rows that lack one of the two columns:
    the two names are then taken for the labels of the two rows, and
    the table has one row labelled "id_cliente" and one labelled
    "nombre_cliente". *)
Theorem calcular_metricas_cliente_rows
    (df : DataFrame) (filas : list metricas) :
  calcular_metricas_cliente df = Ok filas →
  StronglySorted (λ a b, ventas_sum b = NaN ∨ Num.leb (ventas_sum b) (ventas_sum a) = true)
    filas ∧
  NoDup (m_cliente <$> filas) ∧
  ((∃ idc nom,
      getitem "id_cliente" df = Ok idc ∧
      getitem "nombre_cliente" df = Ok nom ∧
      ∀ k, k ∈ m_cliente <$> filas ↔
           ∃ i a b, idc !! i = Some a ∧ nom !! i = Some b ∧ k = [a; b] ∧
                    isnull a = false ∧ isnull b = false) ∨
   (nrows df = 2%nat ∧
    ("id_cliente" ∉ column_names df ∨ "nombre_cliente" ∉ column_names df) ∧
    m_cliente <$> filas ≡ₚ [[CStr "id_cliente"]; [CStr "nombre_cliente"]])).
Proof.
  intros (ks & cv & cg & cc & cf & v & sg & sc & f & Hks & _ & _ & _ & _
          & _ & _ & _ & _ & ->)%calcular_metricas_cliente_inv.
  split; [apply sort_values_desc_sorted|].
  assert (m_cliente <$> sort_values_desc ventas_sum (fila_cliente ks v sg sc f <$> group_keys ks)
          ≡ₚ group_keys ks) as Hperm.
  { rewrite sort_values_desc_perm, <- list_fmap_compose. by rewrite list_fmap_id. }
  split; [rewrite Hperm; apply group_keys_NoDup|].
  apply groupby_par_inv in Hks as [(idc & nom & H1 & H2 & ->)|(Hn & Habs & ->)].
  - left. exists idc, nom. split; [done|]. split; [done|].
    intros k. rewrite Hperm, group_keys_elem_of. split.
    + intros [[i Hi]%list_elem_of_lookup Hp].
      apply lookup_zip_with_Some in Hi as (a & b & -> & Ha & Hb).
      exists i, a, b. simpl in Hp.
      destruct (isnull a), (isnull b); try done.
    + intros (i & a & b & Ha & Hb & -> & Hna & Hnb). split.
      * apply list_elem_of_lookup. exists i. apply lookup_zip_with_Some. by exists a, b.
      * simpl. by rewrite Hna, Hnb.
  - right. split; [done|]. split; [done|]. rewrite Hperm.
    unfold group_keys. rewrite sort_by_perm. reflexivity.
Qed.

Lemma calcular_metricas_cliente_rows_witness :
  ∃ filas,
    calcular_metricas_cliente ejemplo_clientes = Ok filas ∧
    NoDup (m_cliente <$> filas).
Proof.
  eexists. split; [reflexivity|].
  destruct (calcular_metricas_cliente_rows ejemplo_clientes _ eq_refl)
    as (_ & Hnodup & _).
  exact Hnodup.
Defined.

(** On two order lines without the name column the two names are the
    labels of the lines; with a third line the name is looked up and
    missed. *)
Example calcular_metricas_cliente_dos_filas :
  let dos := mkDF 2 [ ("id_cliente", [CStr "CG-12520"; CStr "SO-20335"]);
                      ("fecha_pedido", [CDate jun_12_2016; CDate nov_08_2016]);
                      ("ventas", [CNum (of_Z 1000); CNum (of_Z 957)]);
                      ("ganancia", [CNum (of_Z 10); CNum (of_Z (-383))]);
                      ("cantidad", [CNum (of_Z 2); CNum (of_Z 5)]) ]%string in
  let tres := mkDF 3 [ ("id_cliente", [CStr "CG-12520"; CStr "SO-20335"; CStr "CG-12520"]);
                       ("fecha_pedido", [CDate jun_12_2016; CDate nov_08_2016;
                                         CDate nov_11_2016]);
                       ("ventas", [CNum (of_Z 1000); CNum (of_Z 957); CNum (of_Z 2000)]);
                       ("ganancia", [CNum (of_Z 10); CNum (of_Z (-383)); CNum (of_Z 20)]);
                       ("cantidad", [CNum (of_Z 2); CNum (of_Z 5); CNum (of_Z 3)]) ]%string in
  (λ filas : list metricas, (λ r, (m_cliente r, ventas_sum r)) <$> filas)
      <$> calcular_metricas_cliente dos
    = Ok [ ([CStr "id_cliente"], of_Z 1000); ([CStr "nombre_cliente"], of_Z 957) ] ∧
  calcular_metricas_cliente tres = Raise (KeyError "nombre_cliente").
Proof. split; compute_done. Qed.

(** X20. [calcular_metricas_cliente] needs converted order dates: on a
    frame with the six columns it reads and numeric sales, profit and
    quantity, a text in the order-date column makes it raise
    [TypeError]. *)
Theorem calcular_metricas_cliente_text_dates
    (df : DataFrame) (idc nom cv cg cc cf : list cell) (v g c : list num) (s : string) :
  getitem "id_cliente" df = Ok idc →
  getitem "nombre_cliente" df = Ok nom →
  getitem "ventas" df = Ok cv →
  getitem "ganancia" df = Ok cg →
  getitem "cantidad" df = Ok cc →
  getitem "fecha_pedido" df = Ok cf →
  num_col cv = Ok v →
  num_col cg = Ok g →
  num_col cc = Ok c →
  CStr s ∈ cf →
  calcular_metricas_cliente df = Raise TypeError.
Proof.
  intros H1 H2 H3 H4 H5 H6 H7 H8 H9 Hs.
  destruct (traverse_raises as_date cf (CStr s) TypeError Hs eq_refl)
    as (e & y & _ & Hy & Hraise).
  assert (e = TypeError) as ->.
  { destruct y as [?|[]| |]; simpl in Hy; congruence. }
  unfold calcular_metricas_cliente.
  rewrite (groupby_par_ok _ _ _ _ _ H1 H2). simpl.
  rewrite H3, H4, H5, H6. simpl. rewrite H7. simpl.
  rewrite (col_sumas_num _ _ _ H8). simpl. rewrite (col_sumas_num _ _ _ H9). simpl.
  unfold date_col. by rewrite Hraise.
Qed.

Lemma calcular_metricas_cliente_text_dates_witness :
  calcular_metricas_cliente ejemplo_clientes_texto = Raise TypeError.
Proof.
  apply (calcular_metricas_cliente_text_dates ejemplo_clientes_texto
           [CStr "CG-12520"; CStr "SO-20335"]
           [CStr "Claire Gute"; CStr "Sean O'Donnell"]
           [CNum (of_Z 1000); CNum (of_Z 957)]
           [CNum (of_Z 10); CNum (of_Z (-383))]
           [CNum (of_Z 2); CNum (of_Z 5)]
           [CStr "6/12/2016"; CStr "11/8/2016"]
           [of_Z 1000; of_Z 957] [of_Z 10; of_Z (-383)] [of_Z 2; of_Z 5]
           "6/12/2016"); try reflexivity.
  left.
Defined.

(** X21. After a successful [procesar_fechas], the order dates no
    longer stand in the way: if the frame has the customer columns and
    numeric sales, profit and quantity, [calcular_metricas_cliente]
    returns a table on the enriched frame. *)
Theorem calcular_metricas_cliente_after_procesar_fechas
    (parse_date : string → option Z) (epoch_date : num → option Z)
    (df df' : DataFrame) (idc nom cv cg cc : list cell) (v g c : list num) :
  procesar_fechas parse_date epoch_date df = (Ok df', df') →
  getitem "id_cliente" df = Ok idc →
  getitem "nombre_cliente" df = Ok nom →
  getitem "ventas" df = Ok cv →
  getitem "ganancia" df = Ok cg →
  getitem "cantidad" df = Ok cc →
  num_col cv = Ok v →
  num_col cg = Ok g →
  num_col cc = Ok c →
  ∃ filas, calcular_metricas_cliente df' = Ok filas.
Proof.
  intros (pedido & envio & dp & de & ds & es & Hp & Hdp & He & Hde & Hds & Hes & -> & _)
    %procesar_fechas_inv H1 H2 H3 H4 H5 H7 H8 H9.
  eexists. apply (calcular_metricas_cliente_ok _ idc nom cv cg cc dp v g c ds);
    try done; unfold frame_enriquecido; frame_lookup; done.
Qed.

Lemma calcular_metricas_cliente_after_procesar_fechas_witness :
  ∃ df' filas,
    procesar_fechas ejemplo_parse_date ejemplo_epoch_date ejemplo_clientes_texto
      = (Ok df', df') ∧
    calcular_metricas_cliente df' = Ok filas.
Proof.
  eexists.
  edestruct (calcular_metricas_cliente_after_procesar_fechas
               ejemplo_parse_date ejemplo_epoch_date ejemplo_clientes_texto)
    as [filas Hfilas]; [reflexivity..|].
  exists filas. split; [reflexivity|exact Hfilas].
Defined.

(** ** [crear_grafico_ventas_temporales] *)

Example unit_of_ejemplo :
  unit_of "Year" = "year"%string ∧ unit_of "months" = "month"%string ∧
  unit_of "año" = "año"%string ∧ unit_of "mes" = "mes"%string ∧
  unidades_faltantes ["year"; "MONTH"; "day"]%string = [] ∧
  unidades_faltantes ["año"; "mes"; "day"]%string = ["month"; "year"]%string.
Proof. repeat split; vm_compute; reflexivity. Qed.

(** X22. [crear_grafico_ventas_temporales] never returns a chart: it
    raises on every frame. When the frame has the year, month and sales
    columns and the sales are numeric, the exception is the
    [ValueError] of the date assembly, which is given columns named
    "año" and "mes" and finds neither a year nor a month among them. *)
Theorem crear_grafico_ventas_temporales_always_raises
    (assemble : list (string * list cell) → result (list cell)) (df : DataFrame) :
  (∃ e, crear_grafico_ventas_temporales assemble df = Raise e) ∧
  (∀ anio mes cv v,
     getitem "año" df = Ok anio →
     getitem "mes" df = Ok mes →
     getitem "ventas" df = Ok cv →
     num_col cv = Ok v →
     crear_grafico_ventas_temporales assemble df = Raise ValueError).
Proof.
  split.
  - unfold crear_grafico_ventas_temporales.
    destruct (ventas_mensuales df) as [t|e]; [|by exists e]. simpl.
    destruct (seleccionar "año" t) as [anio|e]; [|by exists e]. simpl.
    destruct (seleccionar "mes" t) as [mes|e]; [|by exists e]. simpl.
    by exists ValueError.
  - intros anio mes cv v H1 H2 H3 H4.
    unfold crear_grafico_ventas_temporales, ventas_mensuales, por_columnas.
    rewrite (groupby_par_ok _ _ _ _ _ H1 H2), H1, H2, H3. simpl.
    rewrite (col_sumas_num _ _ _ H4). reflexivity.
Qed.

Lemma crear_grafico_ventas_temporales_always_raises_witness :
  ∃ df',
    procesar_fechas ejemplo_parse_date ejemplo_epoch_date ejemplo_fechas = (Ok df', df') ∧
    crear_grafico_ventas_temporales (λ _, Ok []) df' = Raise ValueError.
Proof.
  eexists. split; [reflexivity|].
  eapply (proj2 (crear_grafico_ventas_temporales_always_raises (λ _, Ok []) _));
    reflexivity.
Defined.

(** ** [exportar_reporte_excel] *)

Lemma escribir_reporte_run df hs :
  escribir_reporte df hs =
    match crear_resumen_basico df with
    | Raise e => (Raise e, hs)
    | Ok r =>
      let h1 := hs ++ [mk_hoja "Resumen_General" (TablaResumen (resumen_items r))] in
      match analizar_rentabilidad_por_categoria df with
      | Raise e => (Raise e, h1)
      | Ok rent =>
        let h2 := h1 ++ [mk_hoja "Rentabilidad_Categoria" (TablaRentabilidad rent)] in
        match top_productos 20 df with
        | Raise e => (Raise e, h2)
        | Ok top =>
          let h3 := h2 ++ [mk_hoja "Top_Productos" (TablaTop top)] in
          match agregar_por_mes df with
          | Raise e => (Raise e, h3)
          | Ok meses => (Ok tt, h3 ++ [mk_hoja "Ventas_Mensuales" (TablaMensual meses)])
          end
        end
      end
    end.
Proof.
  unfold escribir_reporte, mbind, escritor_bind, calcular, to_excel.
  destruct (crear_resumen_basico df); [|done].
  destruct (analizar_rentabilidad_por_categoria df); [|done].
  destruct (top_productos 20 df); [|done].
  by destruct (agregar_por_mes df).
Qed.

(** X23. The export returns exactly when the file can be opened, each
    of the four aggregations returns, and the workbook made of their
    four sheets, in the order summary, categories, top 20
    sub-categories, months, can be saved. *)
Theorem exportar_reporte_excel_returns_iff
    (abrir : string → result unit) (guardar : string → list hoja → result unit)
    (df : DataFrame) (ruta_salida : string) :
  exportar_reporte_excel abrir guardar df ruta_salida = Ok tt ↔
  abrir ruta_salida = Ok tt ∧
  ∃ r rent top meses,
    crear_resumen_basico df = Ok r ∧
    analizar_rentabilidad_por_categoria df = Ok rent ∧
    top_productos 20 df = Ok top ∧
    agregar_por_mes df = Ok meses ∧
    guardar ruta_salida (hojas_reporte r rent top meses) = Ok tt.
Proof.
  unfold exportar_reporte_excel. rewrite escribir_reporte_run.
  split.
  - destruct (abrir ruta_salida) as [[]|]; [|done]. simpl.
    destruct (crear_resumen_basico df) as [r|]; simpl;
      [|by destruct (guardar _ _)].
    destruct (analizar_rentabilidad_por_categoria df) as [rent|]; simpl;
      [|by destruct (guardar _ _)].
    destruct (top_productos 20 df) as [top|]; simpl;
      [|by destruct (guardar _ _)].
    destruct (agregar_por_mes df) as [meses|]; simpl;
      [|by destruct (guardar _ _)].
    destruct (guardar _ _) as [[]|] eqn:Hg; [|done].
    intros _. split; [done|]. by exists r, rent, top, meses.
  - intros (-> & r & rent & top & meses & -> & -> & -> & -> & Hg). simpl.
    unfold hojas_reporte in Hg. simpl. by rewrite Hg.
Qed.



(** X25. The export needs the enriched frame. On a frame without the
    year column that does not have exactly two rows it never returns:
    when the file opens and the first three aggregations return, a
    workbook with their three sheets and no monthly sheet is saved, and
    the call raises the [KeyError] of the year column unless the saving
    itself raises. On a frame of exactly two rows the two names are
    taken for the labels of the rows: the monthly aggregation returns,
    with one row labelled "año" and one labelled "mes" in place of the
    months. *)
Theorem exportar_reporte_excel_without_enrichment
    (abrir : string → result unit) (guardar : string → list hoja → result unit)
    (df : DataFrame) (ruta_salida : string) :
  "año" ∉ column_names df →
  (nrows df ≠ 2%nat →
   (∃ e, exportar_reporte_excel abrir guardar df ruta_salida = Raise e) ∧
   (∀ r rent top,
      abrir ruta_salida = Ok tt →
      crear_resumen_basico df = Ok r →
      analizar_rentabilidad_por_categoria df = Ok rent →
      top_productos 20 df = Ok top →
      exportar_reporte_excel abrir guardar df ruta_salida =
        match guardar ruta_salida
                [ mk_hoja "Resumen_General" (TablaResumen (resumen_items r));
                  mk_hoja "Rentabilidad_Categoria" (TablaRentabilidad rent);
                  mk_hoja "Top_Productos" (TablaTop top) ] with
        | Ok _ => Raise (KeyError "año")
        | Raise e => Raise e
        end)) ∧
  (nrows df = 2%nat →
   ∀ cv cg cc v g c,
     getitem "ventas" df = Ok cv →
     getitem "ganancia" df = Ok cg →
     getitem "cantidad" df = Ok cc →
     num_col cv = Ok v →
     num_col cg = Ok g →
     num_col cc = Ok c →
     ∃ meses,
       agregar_por_mes df = Ok meses ∧
       mes_clave <$> meses = [[CStr "año"]; [CStr "mes"]]).
Proof.
  intros Hn. apply getitem_absent in Hn. split.
  - intros Hrows.
    assert (agregar_por_mes df = Raise (KeyError "año")) as Hm.
    { unfold agregar_por_mes, groupby_par. rewrite Hn.
      rewrite decide_False by done. by destruct (getitem "mes" df). }
    unfold exportar_reporte_excel. rewrite escribir_reporte_run, Hm. split.
    + destruct (abrir ruta_salida) as [[]|e]; simpl; [|by exists e].
      destruct (crear_resumen_basico df) as [r|e]; simpl;
        [|destruct (guardar _ _); simpl; eauto].
      destruct (analizar_rentabilidad_por_categoria df) as [rent|e]; simpl;
        [|destruct (guardar _ _); simpl; eauto].
      destruct (top_productos 20 df) as [top|e]; simpl;
        destruct (guardar _ _); simpl; eauto.
    + intros r rent top -> -> -> ->. simpl. by destruct (guardar _ _).
  - intros Hrows cv cg cc v g c H1 H2 H3 H4 H5 H6.
    assert (groupby_par "año" "mes" df = Ok [[CStr "año"]; [CStr "mes"]]) as Hks.
    { unfold groupby_par. rewrite Hn. rewrite decide_True by done.
      by destruct (getitem "mes" df). }
    eexists. split.
    + unfold agregar_por_mes. rewrite Hks. simpl. rewrite H1, H2, H3. simpl.
      rewrite (col_sumas_num _ _ _ H4). simpl. rewrite (col_sumas_num _ _ _ H5). simpl.
      rewrite (col_sumas_num _ _ _ H6). reflexivity.
    + vm_compute. reflexivity.
Qed.

Lemma exportar_reporte_excel_without_enrichment_witness :
  exportar_reporte_excel ejemplo_abrir ejemplo_guardar ejemplo_tres_lineas
    "reporte.xlsx" = Raise (KeyError "año") ∧
  (∃ meses,
     agregar_por_mes ejemplo_sin_enriquecer = Ok meses ∧
     mes_clave <$> meses = [[CStr "año"]; [CStr "mes"]]) ∧
  exportar_reporte_excel ejemplo_abrir ejemplo_guardar ejemplo_sin_enriquecer
    "reporte.xlsx" = Ok tt.
Proof.
  split; [|split; [|vm_compute; reflexivity]].
  - assert ("año" ∉ column_names ejemplo_tres_lineas) as Hn by compute_done.
    destruct (crear_resumen_basico ejemplo_tres_lineas) as [r|] eqn:Hr;
      [|vm_compute in Hr; discriminate].
    destruct (analizar_rentabilidad_por_categoria ejemplo_tres_lineas) as [rent|] eqn:Hrent;
      [|vm_compute in Hrent; discriminate].
    destruct (top_productos 20 ejemplo_tres_lineas) as [top|] eqn:Htop;
      [|vm_compute in Htop; discriminate].
    assert (nrows ejemplo_tres_lineas ≠ 2%nat) as Hrows by (intros H; discriminate H).
    exact (proj2 (proj1 (exportar_reporte_excel_without_enrichment
                           ejemplo_abrir ejemplo_guardar ejemplo_tres_lineas
                           "reporte.xlsx" Hn) Hrows)
             r rent top eq_refl Hr Hrent Htop).
  - assert ("año" ∉ column_names ejemplo_sin_enriquecer) as Hn by compute_done.
    apply (proj2 (exportar_reporte_excel_without_enrichment
                    ejemplo_abrir ejemplo_guardar ejemplo_sin_enriquecer
                    "reporte.xlsx" Hn) eq_refl
             [CNum (dec 26196 100); CNum (dec 1462 100)]
             [CNum (dec 419136 10000); CNum (dec 68714 10000)]
             [CNum (of_Z 2); CNum (of_Z 2)]
             [dec 26196 100; dec 1462 100]
             [dec 419136 10000; dec 68714 10000]
             [of_Z 2; of_Z 2]); reflexivity.
Defined.

(** ** The monthly sheet *)

Section sorting_on.
Context {A : Type} (before : A → A → bool) (P : A → Prop).
Hypothesis before_total :
  ∀ x y, P x → P y → before x y = false → before y x = true.
Hypothesis before_trans :
  ∀ x y z, P x → P y → P z →
    before x y = true → before y z = true → before x z = true.

Lemma insert_by_sorted_on x l :
  P x → Forall P l →
  StronglySorted (λ a b, before a b = true) l →
  StronglySorted (λ a b, before a b = true) (insert_by before x l).
Proof.
  intros Hx HP. induction 1 as [|y l Hl IH Hy]; simpl.
  - repeat constructor.
  - apply Forall_cons in HP as [HPy HPl].
    destruct (before x y) eqn:Hxy.
    + constructor; [by constructor|].
      constructor; [done|].
      apply Forall_forall. intros z Hz.
      eapply (before_trans x y z); try done.
      * by eapply Forall_forall in HPl.
      * by eapply Forall_forall in Hy.
    + constructor; [by apply IH|].
      rewrite insert_by_perm. constructor; [|done]. by apply before_total.
Qed.

Lemma sort_by_sorted_on l :
  Forall P l → StronglySorted (λ a b, before a b = true) (sort_by before l).
Proof.
  induction l as [|x l IH]; simpl; [constructor|].
  intros [Hx Hl]%Forall_cons. apply insert_by_sorted_on; [done| |by apply IH].
  fold (sort_by before l). by rewrite sort_by_perm.
Qed.

End sorting_on.

Lemma StronglySorted_strengthen {A} (R S : A → A → Prop) l :
  (∀ a b, a ∈ l → b ∈ l → a ≠ b → R a b → S a b) →
  NoDup l → StronglySorted R l → StronglySorted S l.
Proof.
  intros HRS Hnd Hs. induction Hs as [|x l Hl IH Hx]; [constructor|].
  apply NoDup_cons in Hnd as [Hxl Hnd]. constructor.
  - apply IH; [|done]. intros a b Ha Hb. apply HRS; by right.
  - apply Forall_forall. intros y Hy. apply HRS; [left|by right| |].
    + intros ->. done.
    + by eapply Forall_forall in Hx.
Qed.

Lemma of_Z_inj a b : of_Z a = of_Z b → a = b.
Proof.
  unfold of_Z. intros H. assert (Qc_of_Z a = Qc_of_Z b) as Hq by congruence.
  apply (f_equal this) in Hq. simpl in Hq.
  assert (inject_Z a == inject_Z b)%Q as Heq.
  { rewrite <- (Qred_correct (inject_Z a)), <- (Qred_correct (inject_Z b)).
    by rewrite Hq. }
  unfold Qeq in Heq. simpl in Heq. lia.
Qed.

Lemma leb_of_Z a b : Num.leb (of_Z a) (of_Z b) = bool_decide (a ≤ b)%Z.
Proof.
  unfold of_Z. cbn [Num.leb]. apply bool_decide_ext.
  qc_to_q. by rewrite <- Zle_Qle.
Qed.

Lemma key_leb_clave_mes y1 m1 y2 m2 :
  key_leb (clave_mes y1 m1) (clave_mes y2 m2) =
    bool_decide (y1 < y2 ∨ y1 = y2 ∧ m1 ≤ m2)%Z.
Proof.
  unfold clave_mes. cbn [key_leb].
  destruct (decide (CNum (of_Z y1) = CNum (of_Z y2))) as [Hy|Hy].
  - assert (y1 = y2) as <- by (apply of_Z_inj; congruence).
    destruct (decide (CNum (of_Z m1) = CNum (of_Z m2))) as [Hm|Hm].
    + assert (m1 = m2) as <- by (apply of_Z_inj; congruence).
      symmetry. apply bool_decide_eq_true. lia.
    + cbn [cell_leb]. rewrite leb_of_Z. apply bool_decide_ext. lia.
  - cbn [cell_leb]. rewrite leb_of_Z. apply bool_decide_ext.
    assert (y1 ≠ y2) by (intros ->; done). lia.
Qed.

Lemma group_keys_meses_sorted (ks : list (list cell)) :
  (∀ k, k ∈ ks → key_present k = true → ∃ y m, k = clave_mes y m) →
  StronglySorted mes_anterior (group_keys ks).
Proof.
  intros Hks.
  set (P := λ k : list cell, ∃ y m, k = clave_mes y m).
  assert (∀ k, k ∈ group_keys ks → P k) as HP.
  { intros k [Hk Hp]%group_keys_elem_of. by apply Hks. }
  apply (StronglySorted_strengthen (λ a b, key_leb a b = true)).
  - intros a b (y1 & m1 & ->)%HP (y2 & m2 & ->)%HP Hne.
    rewrite key_leb_clave_mes. intros Hle%bool_decide_eq_true.
    exists y1, m1, y2, m2. repeat split.
    destruct (decide (y1 = y2 ∧ m1 = m2)) as [[-> ->]|]; [done|lia].
  - apply group_keys_NoDup.
  - unfold group_keys. apply (sort_by_sorted_on key_leb P).
    + intros x y (y1 & m1 & ->) (y2 & m2 & ->). rewrite !key_leb_clave_mes.
      intros H%bool_decide_eq_false. apply bool_decide_eq_true. lia.
    + intros x y z (y1 & m1 & ->) (y2 & m2 & ->) (y3 & m3 & ->).
      rewrite !key_leb_clave_mes.
      intros H1%bool_decide_eq_true H2%bool_decide_eq_true.
      apply bool_decide_eq_true. lia.
    + apply Forall_forall. intros k Hk. apply HP. unfold group_keys.
      by rewrite sort_by_elem_of.
Qed.

Lemma StronglySorted_fmap_key {A B} (R : A → A → Prop) (f : A → B) (g : B → A) l :
  (∀ a, g (f a) = a) →
  StronglySorted R l → StronglySorted (λ x y, R (g x) (g y)) (f <$> l).
Proof.
  intros Hgf. induction 1 as [|x l _ IH Hx]; simpl; constructor; [done|].
  apply Forall_fmap. eapply Forall_impl; [exact Hx|]. intros y Hy. simpl.
  by rewrite !Hgf.
Qed.

(** X26. On a frame enriched by [procesar_fechas] whose sales, profit
    and quantity are numeric, the monthly aggregation returns one row
    for each (year, month) in which an order date falls and no other,
    in strictly increasing calendar order; the lines without an order
    date belong to no row. *)
Theorem agregar_por_mes_chronological
    (parse_date : string → option Z) (epoch_date : num → option Z)
    (df df' : DataFrame) (cv cg cc : list cell) (v g c : list num) :
  procesar_fechas parse_date epoch_date df = (Ok df', df') →
  getitem "ventas" df' = Ok cv → num_col cv = Ok v →
  getitem "ganancia" df' = Ok cg → num_col cg = Ok g →
  getitem "cantidad" df' = Ok cc → num_col cc = Ok c →
  ∃ fechas meses,
    getitem "fecha_pedido" df' = Ok fechas ∧
    agregar_por_mes df' = Ok meses ∧
    StronglySorted (λ a b, mes_anterior (mes_clave a) (mes_clave b)) meses ∧
    (∀ k, k ∈ mes_clave <$> meses ↔
          ∃ t, CDate t ∈ fechas ∧ k = clave_mes (Calendar.year t) (Calendar.month t)).
Proof.
  intros Hrun Hcv Hv Hcg Hg Hcc Hc.
  destruct (procesar_fechas_inv _ _ _ _ _ Hrun)
    as (pedido & envio & dp & de & ds & es & Hp & Hdp & He & Hde & Hds & Hes & Hdf & _).
  assert (getitem "fecha_pedido" df' = Ok dp) as Hf.
  { rewrite Hdf. unfold frame_enriquecido. by frame_lookup. }
  assert (getitem "año" df' =
            Ok (dt_cell (λ t, CNum (of_Z (Calendar.year t))) <$> ds)) as Ha.
  { rewrite Hdf. unfold frame_enriquecido. by frame_lookup. }
  assert (getitem "mes" df' =
            Ok (dt_cell (λ t, CNum (of_Z (Calendar.month t))) <$> ds)) as Hm.
  { rewrite Hdf. unfold frame_enriquecido. by frame_lookup. }
  set (ks := (λ d, [dt_cell (λ t, CNum (of_Z (Calendar.year t))) d;
                    dt_cell (λ t, CNum (of_Z (Calendar.month t))) d]) <$> ds).
  assert (zip_with (λ a b : cell, [a; b])
            (dt_cell (λ t, CNum (of_Z (Calendar.year t))) <$> ds)
            (dt_cell (λ t, CNum (of_Z (Calendar.month t))) <$> ds) = ks) as Hks.
  { rewrite zip_with_fmap_l, zip_with_fmap_r, zip_with_diag. done. }
  assert (∀ k, k ∈ ks ∧ key_present k = true ↔
               ∃ t, Some t ∈ ds ∧
                    k = clave_mes (Calendar.year t) (Calendar.month t)) as Hkeys.
  { intros k. unfold ks. rewrite list_elem_of_fmap. split.
    - intros [([t|] & -> & Hd) Hpres]; [by exists t|done].
    - intros (t & Ht & ->). split; [by exists (Some t)|done]. }
  exists dp. eexists. split; [done|]. split.
  { unfold agregar_por_mes. rewrite (groupby_par_ok _ _ _ _ _ Ha Hm), Hks. simpl.
    rewrite Hcv, Hcg, Hcc. simpl.
    rewrite (col_sumas_num _ _ _ Hv). simpl. rewrite (col_sumas_num _ _ _ Hg). simpl.
    rewrite (col_sumas_num _ _ _ Hc). reflexivity. }
  split.
  - apply (StronglySorted_fmap_key mes_anterior _ mes_clave); [done|].
    apply group_keys_meses_sorted. intros k Hk Hpres.
    destruct (proj1 (Hkeys k) (conj Hk Hpres)) as (t & _ & ->). eauto.
  - intros k. rewrite <- list_fmap_compose.
    rewrite (list_fmap_ext _ id (group_keys ks)) by done.
    rewrite list_fmap_id, group_keys_elem_of, Hkeys.
    split; intros (t & Ht & ->); exists t; split; try done.
    + by apply (date_col_elem_of dp ds).
    + by apply (date_col_elem_of dp ds).
Qed.

Lemma agregar_por_mes_chronological_witness :
  ∃ df' fechas meses,
    procesar_fechas ejemplo_parse_date ejemplo_epoch_date ejemplo_completo = (Ok df', df') ∧
    getitem "fecha_pedido" df' = Ok fechas ∧
    agregar_por_mes df' = Ok meses ∧
    StronglySorted (λ a b, mes_anterior (mes_clave a) (mes_clave b)) meses ∧
    (∀ k, k ∈ mes_clave <$> meses ↔
          ∃ t, CDate t ∈ fechas ∧ k = clave_mes (Calendar.year t) (Calendar.month t)).
Proof.
  eexists.
  edestruct (agregar_por_mes_chronological
               ejemplo_parse_date ejemplo_epoch_date ejemplo_completo)
    as (fechas & meses & H); [reflexivity..|].
  exists fechas, meses. split; [reflexivity|exact H].
Defined.

Lemma exportar_reporte_excel_returns_iff_witness :
  ∃ df',
    procesar_fechas ejemplo_parse_date ejemplo_epoch_date ejemplo_completo = (Ok df', df') ∧
    exportar_reporte_excel ejemplo_abrir ejemplo_guardar df' "reporte.xlsx" = Ok tt ∧
    exportar_reporte_excel ejemplo_abrir ejemplo_guardar df' "otro/reporte.xlsx"
      = Raise OSError.
Proof.
  eexists. split; [reflexivity|]. split.
  - apply exportar_reporte_excel_returns_iff. split; [reflexivity|].
    eexists _, _, _, _. repeat split; vm_compute; reflexivity.
  - reflexivity.
Defined.

Example agregar_por_mes_ejemplo :
  ∃ df',
    procesar_fechas ejemplo_parse_date ejemplo_epoch_date ejemplo_completo = (Ok df', df') ∧
    agregar_por_mes df' =
      Ok [ mk_mensual (clave_mes 2016 6) (SNumero (dec 1462 100))
             (SNumero (dec 68714 10000)) (SNumero (of_Z 2));
           mk_mensual (clave_mes 2016 11) (SNumero (dec 26196 100))
             (SNumero (dec 419136 10000)) (SNumero (of_Z 2)) ].
Proof. eexists. split; [reflexivity|]. compute_done. Qed.

(** ** [configurar_estilo_graficos] *)

Ltac rc_lookup :=
  repeat first [ rewrite lookup_insert_eq | rewrite lookup_insert_ne by done ].

Lemma configurar_estilo_graficos_assigned (rc : gmap string rc_valor) k v :
  (k, v) ∈ estilo → configurar_estilo_graficos rc !! k = Some v.
Proof.
  unfold estilo, configurar_estilo_graficos. cbv zeta.
  rewrite !elem_of_cons, elem_of_nil.
  intros [H|[H|[H|[H|[H|[H|[H|[]]]]]]]]; injection H as -> ->; by rc_lookup.
Qed.

Lemma configurar_estilo_graficos_other (rc : gmap string rc_valor) k :
  k ∉ estilo.*1 → configurar_estilo_graficos rc !! k = rc !! k.
Proof.
  unfold estilo, configurar_estilo_graficos. cbv zeta. cbn [fmap list_fmap fst].
  rewrite !not_elem_of_cons. intros (?&?&?&?&?&?&?&_).
  by rewrite !lookup_insert_ne.
Qed.

(** X27. After [configurar_estilo_graficos] each of the seven settings
    it assigns has the value written in the code, whatever it was
    before; every other setting is as it was; and a second call changes
    nothing. *)
Theorem configurar_estilo_graficos_settings (rc : gmap string rc_valor) :
  (∀ k v, (k, v) ∈ estilo → configurar_estilo_graficos rc !! k = Some v) ∧
  (∀ k, k ∉ estilo.*1 → configurar_estilo_graficos rc !! k = rc !! k) ∧
  configurar_estilo_graficos (configurar_estilo_graficos rc)
    = configurar_estilo_graficos rc.
Proof.
  split; [apply configurar_estilo_graficos_assigned|].
  split; [apply configurar_estilo_graficos_other|].
  apply map_eq. intros k.
  destruct (decide (k ∈ estilo.*1)) as [Hk|Hk].
  - apply list_elem_of_fmap in Hk as ([k' v] & -> & Hkv). simpl.
    by rewrite !(configurar_estilo_graficos_assigned _ k' v).
  - by rewrite configurar_estilo_graficos_other.
Qed.

Lemma configurar_estilo_graficos_settings_witness :
  configurar_estilo_graficos ejemplo_rc !! "font.size" = Some (RcNumero 12) ∧
  configurar_estilo_graficos ejemplo_rc !! "lines.linewidth"
    = ejemplo_rc !! "lines.linewidth".
Proof.
  destruct (configurar_estilo_graficos_settings ejemplo_rc) as (Hset & Hother & _).
  split.
  - apply Hset. unfold estilo. apply list_elem_of_here || (right; left).
  - apply Hother. compute_done.
Defined.
